(** * Circle application backend: route handlers over a transactional store

    A shallow embedding of the FastAPI route handlers of
    [backend/app/routers] ([users.py], [circles.py], [followed.py],
    [circle_news.py]) and of the request schemas of [backend/app/schemas.py].

    The handlers are written in a small state-and-exception monad over a
    SQLAlchemy-like session: a committed store, the view of the open
    transaction, and the failures the persistence layer may answer with. *)

From Stdlib Require Import ZArith List String Bool Lia.
Import ListNotations.
Local Open Scope string_scope.
Local Open Scope list_scope.
Local Open Scope Z_scope.

(* ================================================================== *)
(** ** Rows *)

(** Columns follow the attributes the handlers and the schemas name.  A
    column a handler may set to Python's [None] is an [option].  Dates are
    day numbers.  A freshly constructed object has [id = 0] until the
    session inserts it (Python: [None] until the INSERT); no handler reads
    the id of such an object. *)

Module User.
Record t := mk
  { id : Z;
    name : option string;
    email : option string;
    icon : option string;
    login_id : option string;
    login_pass : option string }.
Definition with_id (i : Z) (u : t) : t :=
  mk i (name u) (email u) (icon u) (login_id u) (login_pass u).
End User.

Module Circle.
Record t := mk
  { id : Z;
    name : option string;
    description : option string;
    image : option string;
    tags : option (list string);
    sns_links_x : option string;
    sns_links_instagram : option string;
    sns_links_line : option string }.
Definition with_id (i : Z) (c : t) : t :=
  mk i (name c) (description c) (image c) (tags c)
     (sns_links_x c) (sns_links_instagram c) (sns_links_line c).
End Circle.

Module Followed.
Record t := mk
  { id : Z;
    user_id : Z;
    circle_id : Z;
    date : option Z;
    is_admin : bool }.
Definition with_id (i : Z) (f : t) : t :=
  mk i (user_id f) (circle_id f) (date f) (is_admin f).
End Followed.

Module CircleNews.
Record t := mk
  { id : Z;
    circle_id : Z;
    title : string;
    date : Z;
    content : option string;
    has_photo : bool;
    photo_url : option string }.
Definition with_id (i : Z) (n : t) : t :=
  mk i (circle_id n) (title n) (date n) (content n) (has_photo n) (photo_url n).
Definition set_title (v : string) (n : t) : t :=
  mk (id n) (circle_id n) v (date n) (content n) (has_photo n) (photo_url n).
Definition set_content (v : option string) (n : t) : t :=
  mk (id n) (circle_id n) (title n) (date n) v (has_photo n) (photo_url n).
Definition set_date (v : Z) (n : t) : t :=
  mk (id n) (circle_id n) (title n) v (content n) (has_photo n) (photo_url n).
Definition set_has_photo (v : bool) (n : t) : t :=
  mk (id n) (circle_id n) (title n) (date n) (content n) v (photo_url n).
End CircleNews.

Module UserSchedule.
Record t := mk
  { id : Z;
    user_id : Z;
    circlenews_id : Z;
    title : string;
    start_at : Z;
    end_at : Z;
    memo : option string }.
Definition with_id (i : Z) (x : t) : t :=
  mk i (user_id x) (circlenews_id x) (title x) (start_at x) (end_at x) (memo x).
End UserSchedule.

(* ================================================================== *)
(** ** The store *)

(** Modelled from the spec: the tables and their generated primary keys.
    [app/models.py] and the database are not part of the sources at hand;
    the spec lists the relational tables (User, Circle, Followed,
    CircleNews, UserSchedule) and says the output of a create reflects a
    generated id.  Each table carries the next key the database hands out.
    Server-side columns no handler reads or writes (created_at, the
    followers counter) are left out. *)
Record DB := mkDB
  { users : list User.t;
    circles : list Circle.t;
    followed : list Followed.t;
    circle_news : list CircleNews.t;
    user_schedules : list UserSchedule.t;
    next_user_id : Z;
    next_circle_id : Z;
    next_followed_id : Z;
    next_circle_news_id : Z;
    next_user_schedule_id : Z }.

Definition empty_db : DB := mkDB [] [] [] [] [] 1 1 1 1 1.

Definition insert_user (u : User.t) (d : DB) : DB :=
  mkDB (users d ++ [User.with_id (next_user_id d) u]) (circles d) (followed d)
       (circle_news d) (user_schedules d)
       (next_user_id d + 1) (next_circle_id d) (next_followed_id d)
       (next_circle_news_id d) (next_user_schedule_id d).

Definition insert_circle (c : Circle.t) (d : DB) : DB :=
  mkDB (users d) (circles d ++ [Circle.with_id (next_circle_id d) c]) (followed d)
       (circle_news d) (user_schedules d)
       (next_user_id d) (next_circle_id d + 1) (next_followed_id d)
       (next_circle_news_id d) (next_user_schedule_id d).

Definition insert_followed (f : Followed.t) (d : DB) : DB :=
  mkDB (users d) (circles d) (followed d ++ [Followed.with_id (next_followed_id d) f])
       (circle_news d) (user_schedules d)
       (next_user_id d) (next_circle_id d) (next_followed_id d + 1)
       (next_circle_news_id d) (next_user_schedule_id d).

Definition insert_circle_news (n : CircleNews.t) (d : DB) : DB :=
  mkDB (users d) (circles d) (followed d)
       (circle_news d ++ [CircleNews.with_id (next_circle_news_id d) n])
       (user_schedules d)
       (next_user_id d) (next_circle_id d) (next_followed_id d)
       (next_circle_news_id d + 1) (next_user_schedule_id d).

Definition insert_user_schedule (x : UserSchedule.t) (d : DB) : DB :=
  mkDB (users d) (circles d) (followed d) (circle_news d)
       (user_schedules d ++ [UserSchedule.with_id (next_user_schedule_id d) x])
       (next_user_id d) (next_circle_id d) (next_followed_id d)
       (next_circle_news_id d) (next_user_schedule_id d + 1).

Definition insert_all_user_schedules (l : list UserSchedule.t) (d : DB) : DB :=
  fold_left (fun acc x => insert_user_schedule x acc) l d.

(** UPDATE ... WHERE id = the row's key. *)
Definition replace_user (u : User.t) (d : DB) : DB :=
  mkDB (map (fun r => if User.id r =? User.id u then u else r) (users d))
       (circles d) (followed d) (circle_news d) (user_schedules d)
       (next_user_id d) (next_circle_id d) (next_followed_id d)
       (next_circle_news_id d) (next_user_schedule_id d).

Definition replace_circle (c : Circle.t) (d : DB) : DB :=
  mkDB (users d)
       (map (fun r => if Circle.id r =? Circle.id c then c else r) (circles d))
       (followed d) (circle_news d) (user_schedules d)
       (next_user_id d) (next_circle_id d) (next_followed_id d)
       (next_circle_news_id d) (next_user_schedule_id d).

Definition replace_circle_news (n : CircleNews.t) (d : DB) : DB :=
  mkDB (users d) (circles d) (followed d)
       (map (fun r => if CircleNews.id r =? CircleNews.id n then n else r) (circle_news d))
       (user_schedules d)
       (next_user_id d) (next_circle_id d) (next_followed_id d)
       (next_circle_news_id d) (next_user_schedule_id d).

(** DELETE ... WHERE id = the row's key; the row alone, nothing cascades
    in the handlers. *)
Definition remove_user (i : Z) (d : DB) : DB :=
  mkDB (filter (fun r => negb (User.id r =? i)) (users d))
       (circles d) (followed d) (circle_news d) (user_schedules d)
       (next_user_id d) (next_circle_id d) (next_followed_id d)
       (next_circle_news_id d) (next_user_schedule_id d).

Definition remove_circle (i : Z) (d : DB) : DB :=
  mkDB (users d) (filter (fun r => negb (Circle.id r =? i)) (circles d))
       (followed d) (circle_news d) (user_schedules d)
       (next_user_id d) (next_circle_id d) (next_followed_id d)
       (next_circle_news_id d) (next_user_schedule_id d).

Definition remove_followed (i : Z) (d : DB) : DB :=
  mkDB (users d) (circles d)
       (filter (fun r => negb (Followed.id r =? i)) (followed d))
       (circle_news d) (user_schedules d)
       (next_user_id d) (next_circle_id d) (next_followed_id d)
       (next_circle_news_id d) (next_user_schedule_id d).

Definition remove_circle_news (i : Z) (d : DB) : DB :=
  mkDB (users d) (circles d) (followed d)
       (filter (fun r => negb (CircleNews.id r =? i)) (circle_news d))
       (user_schedules d)
       (next_user_id d) (next_circle_id d) (next_followed_id d)
       (next_circle_news_id d) (next_user_schedule_id d).

(* ================================================================== *)
(** ** Exceptions, session and handler monad *)

Inductive exn :=
| HTTPException (status_code : Z) (detail : string)
| IntegrityError (msg orig : string)
| DBAPIError (msg : string)
| MultipleResultsFound.

(** [str(e)] of the exceptions a persistence call raises. *)
Definition exn_str (e : exn) : string :=
  match e with
  | HTTPException _ d => d
  | IntegrityError m _ => m
  | DBAPIError m => m
  | MultipleResultsFound => "Multiple rows were found when one or none was required"
  end.

(** A failure of the persistence layer: a constraint violation or any
    other error of the driver. *)
Inductive fault :=
| FIntegrity (msg orig : string)
| FOther (msg : string).

Definition exn_of_fault (f : fault) : exn :=
  match f with
  | FIntegrity m o => IntegrityError m o
  | FOther m => DBAPIError m
  end.

(** What the persistence layer answers during one request, per kind of
    call.  Which constraints the schema declares is not visible in the
    sources at hand, so acceptance is an input of every handler. *)
Record Faults := mkFaults
  { on_execute : option fault;   (* SELECT: execute, scalars, get *)
    on_flush : option fault;     (* flush *)
    on_commit : option fault;    (* commit, with the flush it implies *)
    on_refresh : option fault }. (* refresh *)

Definition no_faults : Faults := mkFaults None None None None.

(** The request-scoped session: what is durably stored, and what the open
    transaction sees.  Pending changes are applied to [txn] as they are
    made (the session autoflushes before a query); [commit] makes [txn]
    durable, [rollback] discards it. *)
Record Session := mkSession { committed : DB; txn : DB }.

Definition open_session (d : DB) : Session := mkSession d d.

Inductive result (A : Type) :=
| Returned (a : A)
| Raised (e : exn).
Arguments Returned {A} a.
Arguments Raised {A} e.

Definition M (A : Type) : Type := Faults -> Session -> result A * Session.

Definition ret {A} (a : A) : M A := fun _ s => (Returned a, s).

Definition bind {A B} (m : M A) (k : A -> M B) : M B :=
  fun env s =>
    match m env s with
    | (Returned a, s') => k a env s'
    | (Raised e, s') => (Raised e, s')
    end.

Definition raise {A} (e : exn) : M A := fun _ s => (Raised e, s).

(** [try: body except ... as e: handler e]; a handler that does not match
    re-raises. *)
Definition try_except {A} (body : M A) (handler : exn -> M A) : M A :=
  fun env s =>
    match body env s with
    | (Returned a, s') => (Returned a, s')
    | (Raised e, s') => handler e env s'
    end.

Notation "x <- m ;; k" := (bind m (fun x => k))
  (at level 61, m at next level, right associativity).
Notation "m ;; k" := (bind m (fun _ => k))
  (at level 61, right associativity).

(** A call that the persistence layer may refuse. *)
Definition fallible {A} (pick : Faults -> option fault) (ok : Session -> A * Session) : M A :=
  fun env s =>
    match pick env with
    | Some f => (Raised (exn_of_fault f), s)
    | None => let (a, s') := ok s in (Returned a, s')
    end.

Definition modify_txn (f : DB -> DB) : M unit :=
  fun _ s => (Returned tt, mkSession (committed s) (f (txn s))).

(** [db.execute(select ...)] / [db.scalars(select ...)]: the rows of the
    statement, read in the open transaction. *)
Definition db_execute {A} (stmt : DB -> list A) : M (list A) :=
  fallible on_execute (fun s => (stmt (txn s), s)).

(** [.scalar_one_or_none()] *)
Definition scalar_one_or_none {A} (rows : list A) : M (option A) :=
  match rows with
  | [] => ret None
  | [x] => ret (Some x)
  | _ => raise MultipleResultsFound
  end.

(** [db.get(Model, pk)] *)
Definition db_get {A} (table : DB -> list A) (pk : A -> Z) (i : Z) : M (option A) :=
  fallible on_execute (fun s => (find (fun r => pk r =? i) (table (txn s)), s)).

Definition db_flush : M unit := fallible on_flush (fun s => (tt, s)).

Definition db_commit : M unit :=
  fallible on_commit (fun s => (tt, mkSession (txn s) (txn s))).

Definition db_rollback : M unit :=
  fun _ s => (Returned tt, mkSession (committed s) (committed s)).

(** [db.refresh(obj)]: reloads the object; its row holds what was written. *)
Definition db_refresh {A} (obj : A) : M A := fallible on_refresh (fun s => (obj, s)).

(** [db.add(obj)] for a new object: the INSERT gives it its key. *)
Definition db_add_user (u : User.t) : M User.t :=
  fun _ s => (Returned (User.with_id (next_user_id (txn s)) u),
              mkSession (committed s) (insert_user u (txn s))).

Definition db_add_circle (c : Circle.t) : M Circle.t :=
  fun _ s => (Returned (Circle.with_id (next_circle_id (txn s)) c),
              mkSession (committed s) (insert_circle c (txn s))).

Definition db_add_followed (f : Followed.t) : M Followed.t :=
  fun _ s => (Returned (Followed.with_id (next_followed_id (txn s)) f),
              mkSession (committed s) (insert_followed f (txn s))).

Definition db_add_circle_news (n : CircleNews.t) : M CircleNews.t :=
  fun _ s => (Returned (CircleNews.with_id (next_circle_news_id (txn s)) n),
              mkSession (committed s) (insert_circle_news n (txn s))).

(** [db.add_all(objs)] *)
Definition db_add_all_user_schedules (l : list UserSchedule.t) : M unit :=
  modify_txn (insert_all_user_schedules l).

(** Python truthiness of an [Optional[int]] and of an [Optional[str]]. *)
Definition truthy_int (o : option Z) : bool :=
  match o with Some z => negb (z =? 0) | None => false end.

Definition truthy_str (o : option string) : bool :=
  match o with Some s => negb (String.eqb s "") | None => false end.

(** [x or None] on an optional string *)
Definition or_none (o : option string) : option string :=
  if truthy_str o then o else None.

(* ================================================================== *)
(** ** Request schemas ([schemas.py]) and [model_dump] dictionaries *)

(** Values of a [model_dump()] dictionary. *)
Inductive pyval :=
| VNone
| VInt (z : Z)
| VBool (b : bool)
| VStr (s : string)
| VList (l : list string).

Definition truthy (v : pyval) : bool :=
  match v with
  | VNone => false
  | VInt z => negb (z =? 0)
  | VBool b => b
  | VStr s => negb (String.eqb s "")
  | VList l => match l with [] => false | _ => true end
  end.

Definition of_opt_str (o : option string) : pyval :=
  match o with Some s => VStr s | None => VNone end.

Definition of_opt_int (o : option Z) : pyval :=
  match o with Some z => VInt z | None => VNone end.

Definition of_opt_list (o : option (list string)) : pyval :=
  match o with Some l => VList l | None => VNone end.

Definition as_str (v : pyval) : option string :=
  match v with VStr s => Some s | _ => None end.

Definition as_int (v : pyval) : Z :=
  match v with VInt z => z | _ => 0 end.

Definition as_opt_int (v : pyval) : option Z :=
  match v with VInt z => Some z | _ => None end.

Definition as_bool (v : pyval) : bool :=
  match v with VBool b => b | _ => false end.

Definition as_list (v : pyval) : option (list string) :=
  match v with VList l => Some l | _ => None end.

Definition dict := list (string * pyval).

(** [d.get(key)]: [None] when the key is absent. *)
Fixpoint dict_get (key : string) (d : dict) : pyval :=
  match d with
  | [] => VNone
  | (k, v) :: rest => if String.eqb k key then v else dict_get key rest
  end.

(** [d[key] = v] *)
Fixpoint dict_set (key : string) (v : pyval) (d : dict) : dict :=
  match d with
  | [] => [(key, v)]
  | (k, w) :: rest =>
      if String.eqb k key then (k, v) :: rest else (k, w) :: dict_set key v rest
  end.

(** The entries of the fields that were set, for [exclude_unset=True]. *)
Definition dump_set {A} (key : string) (inj : A -> pyval) (field : option A) : dict :=
  match field with Some a => [(key, inj a)] | None => [] end.

Module UserCreate.
Record t := mk
  { name : string;
    email : string;
    icon : option string;
    login_id : string;
    login_pass : string }.
Definition model_dump (p : t) : dict :=
  [("name", VStr (name p)); ("email", VStr (email p)); ("icon", of_opt_str (icon p));
   ("login_id", VStr (login_id p)); ("login_pass", VStr (login_pass p))].
End UserCreate.

(** Every field of an update schema is optional; the outer [option] says
    whether the request set the field, the inner one carries an explicit
    null. *)
Module UserUpdate.
Record t := mk
  { name : option (option string);
    email : option (option string);
    icon : option (option string);
    login_id : option (option string);
    login_pass : option (option string) }.
Definition model_dump_exclude_unset (p : t) : dict :=
  dump_set "name" of_opt_str (name p) ++ dump_set "email" of_opt_str (email p)
  ++ dump_set "icon" of_opt_str (icon p) ++ dump_set "login_id" of_opt_str (login_id p)
  ++ dump_set "login_pass" of_opt_str (login_pass p).
End UserUpdate.

Module CircleCreate.
Record t := mk
  { name : string;
    description : option string;
    image : option string;
    tags : list string;
    sns_links_x : option string;
    sns_links_instagram : option string;
    sns_links_line : option string }.
Definition model_dump (p : t) : dict :=
  [("name", VStr (name p)); ("description", of_opt_str (description p));
   ("image", of_opt_str (image p)); ("tags", VList (tags p));
   ("sns_links_x", of_opt_str (sns_links_x p));
   ("sns_links_instagram", of_opt_str (sns_links_instagram p));
   ("sns_links_line", of_opt_str (sns_links_line p))].
End CircleCreate.

Module CircleUpdate.
Record t := mk
  { name : option (option string);
    description : option (option string);
    image : option (option string);
    tags : option (option (list string));
    sns_links_x : option (option string);
    sns_links_instagram : option (option string);
    sns_links_line : option (option string) }.
Definition model_dump_exclude_unset (p : t) : dict :=
  dump_set "name" of_opt_str (name p)
  ++ dump_set "description" of_opt_str (description p)
  ++ dump_set "image" of_opt_str (image p)
  ++ dump_set "tags" of_opt_list (tags p)
  ++ dump_set "sns_links_x" of_opt_str (sns_links_x p)
  ++ dump_set "sns_links_instagram" of_opt_str (sns_links_instagram p)
  ++ dump_set "sns_links_line" of_opt_str (sns_links_line p).
End CircleUpdate.

Module CircleNewsCreate.
Record t := mk
  { circle_id : Z;
    title : string;
    date : Z;
    content : option string;
    has_photo : bool;
    photo_url : option string }.

(** The JSON body before validation: [circle_id], [title] and [date] are
    required, the others may be left out. *)
Record body := mk_body
  { b_circle_id : Z;
    b_title : string;
    b_date : Z;
    b_content : option (option string);
    b_has_photo : option bool;
    b_photo_url : option (option string) }.

(** Validation fills the defaults of the schema:
    [content = None], [has_photo = False], [photo_url = None]. *)
Definition validate (b : body) : t :=
  mk (b_circle_id b) (b_title b) (b_date b)
     (match b_content b with Some v => v | None => None end)
     (match b_has_photo b with Some v => v | None => false end)
     (match b_photo_url b with Some v => v | None => None end).
End CircleNewsCreate.

Module FollowedCreate.
Record t := mk
  { user_id : Z;
    circle_id : Z;
    date : option Z;
    is_admin : bool }.
Definition model_dump (p : t) : dict :=
  [("user_id", VInt (user_id p)); ("circle_id", VInt (circle_id p));
   ("date", of_opt_int (date p)); ("is_admin", VBool (is_admin p))].
End FollowedCreate.

(** The model's constructor, called with the dictionary's entries as
    keyword arguments. *)
Definition User_of_dict (d : dict) : User.t :=
  User.mk 0 (as_str (dict_get "name" d)) (as_str (dict_get "email" d))
          (as_str (dict_get "icon" d)) (as_str (dict_get "login_id" d))
          (as_str (dict_get "login_pass" d)).

Definition Circle_of_dict (d : dict) : Circle.t :=
  Circle.mk 0 (as_str (dict_get "name" d)) (as_str (dict_get "description" d))
            (as_str (dict_get "image" d)) (as_list (dict_get "tags" d))
            (as_str (dict_get "sns_links_x" d))
            (as_str (dict_get "sns_links_instagram" d))
            (as_str (dict_get "sns_links_line" d)).

Definition Followed_of_dict (d : dict) : Followed.t :=
  Followed.mk 0 (as_int (dict_get "user_id" d)) (as_int (dict_get "circle_id" d))
              (as_opt_int (dict_get "date" d)) (as_bool (dict_get "is_admin" d)).

(** [setattr(obj, key, value)] *)
Definition setattr_user (u : User.t) (key : string) (v : pyval) : User.t :=
  if String.eqb key "name" then
    User.mk (User.id u) (as_str v) (User.email u) (User.icon u) (User.login_id u) (User.login_pass u)
  else if String.eqb key "email" then
    User.mk (User.id u) (User.name u) (as_str v) (User.icon u) (User.login_id u) (User.login_pass u)
  else if String.eqb key "icon" then
    User.mk (User.id u) (User.name u) (User.email u) (as_str v) (User.login_id u) (User.login_pass u)
  else if String.eqb key "login_id" then
    User.mk (User.id u) (User.name u) (User.email u) (User.icon u) (as_str v) (User.login_pass u)
  else if String.eqb key "login_pass" then
    User.mk (User.id u) (User.name u) (User.email u) (User.icon u) (User.login_id u) (as_str v)
  else u.

Definition setattr_circle (c : Circle.t) (key : string) (v : pyval) : Circle.t :=
  if String.eqb key "name" then
    Circle.mk (Circle.id c) (as_str v) (Circle.description c) (Circle.image c) (Circle.tags c)
              (Circle.sns_links_x c) (Circle.sns_links_instagram c) (Circle.sns_links_line c)
  else if String.eqb key "description" then
    Circle.mk (Circle.id c) (Circle.name c) (as_str v) (Circle.image c) (Circle.tags c)
              (Circle.sns_links_x c) (Circle.sns_links_instagram c) (Circle.sns_links_line c)
  else if String.eqb key "image" then
    Circle.mk (Circle.id c) (Circle.name c) (Circle.description c) (as_str v) (Circle.tags c)
              (Circle.sns_links_x c) (Circle.sns_links_instagram c) (Circle.sns_links_line c)
  else if String.eqb key "tags" then
    Circle.mk (Circle.id c) (Circle.name c) (Circle.description c) (Circle.image c) (as_list v)
              (Circle.sns_links_x c) (Circle.sns_links_instagram c) (Circle.sns_links_line c)
  else if String.eqb key "sns_links_x" then
    Circle.mk (Circle.id c) (Circle.name c) (Circle.description c) (Circle.image c) (Circle.tags c)
              (as_str v) (Circle.sns_links_instagram c) (Circle.sns_links_line c)
  else if String.eqb key "sns_links_instagram" then
    Circle.mk (Circle.id c) (Circle.name c) (Circle.description c) (Circle.image c) (Circle.tags c)
              (Circle.sns_links_x c) (as_str v) (Circle.sns_links_line c)
  else if String.eqb key "sns_links_line" then
    Circle.mk (Circle.id c) (Circle.name c) (Circle.description c) (Circle.image c) (Circle.tags c)
              (Circle.sns_links_x c) (Circle.sns_links_instagram c) (as_str v)
  else c.

(** [for key, value in data.items(): setattr(obj, key, value)] *)
Definition setattr_all {A} (set : A -> string -> pyval -> A) (obj : A) (data : dict) : A :=
  fold_left (fun o kv => set o (fst kv) (snd kv)) data obj.

(** [if d.get(key): d[key] = f(d[key])] *)
Definition convert_if_set (key : string) (f : pyval -> pyval) (d : dict) : dict :=
  if truthy (dict_get key d) then dict_set key (f (dict_get key d)) d else d.

(** [str(url)]: a validated URL is carried as its text already. *)
Definition py_str (v : pyval) : pyval := v.

(* ================================================================== *)
(** ** Statements of the user list *)

Inductive UserColumn := User_id | User_name | User_created_at.

(** [select(User)] with an optional [where(or_(lower(name) like s,
    lower(email) like s, lower(login_id) like s))], an [order_by] and a
    [limit]. *)
Record UserSelect := mkUserSelect
  { sel_like : option string;
    sel_order_by : UserColumn;
    sel_desc : bool;
    sel_limit : Z }.

(** [sort.startswith("-")] and [sort[1:]] *)
Definition startswith (p s : string) : bool := String.prefix p s.

Definition drop_first (s : string) : string :=
  match s with EmptyString => EmptyString | String _ rest => rest end.

Definition sort_map : list (string * UserColumn) :=
  [("id", User_id); ("name", User_name); ("created_at", User_created_at)].

(** [sort_map.get(key, default)] *)
Fixpoint map_get {A} (m : list (string * A)) (key : string) (default : A) : A :=
  match m with
  | [] => default
  | (k, v) :: rest => if String.eqb k key then v else map_get rest key default
  end.

(* ================================================================== *)
(** ** The route handlers *)

Section Handlers.

(** Collaborators outside the sources at hand: the password hash of
    [app.security.security], Python's [str.strip] and [str.lower], and
    the database running a statement of the user list. *)
Variable hash_pw : string -> string.
Variable str_strip : string -> string.
Variable str_lower : string -> string.
Variable run_select : UserSelect -> DB -> list User.t.

Definition hash_pw_val (v : pyval) : pyval :=
  match v with VStr s => VStr (hash_pw s) | _ => v end.

Definition strip_val (v : pyval) : pyval :=
  match v with VStr s => VStr (str_strip s) | _ => v end.

(** The session notices attribute assignments on an object it loaded:
    the row is rewritten in the open transaction. *)
Definition db_track {A} (replace : A -> DB -> DB) (obj : A) : M A :=
  fun _ s => (Returned obj, mkSession (committed s) (replace obj (txn s))).

(** [db.delete(row)] *)
Definition db_delete (remove : Z -> DB -> DB) (pk : Z) : M unit :=
  modify_txn (remove pk).

(* ---------------- users.py ---------------- *)

Definition list_user_stmt (size : Z) (search : option string) (sort : string) : UserSelect :=
  let like :=
    if truthy_str search then
      match search with
      | Some x => Some ("%" ++ str_lower (str_strip x) ++ "%")%string
      | None => None
      end
    else None in
  let desc := startswith "-" sort in
  let key := if desc then drop_first sort else sort in
  let col := map_get sort_map key User_id in
  mkUserSelect like col desc size.

Definition list_user (size : Z) (search : option string) (sort : string) : M (list User.t) :=
  try_except
    (db_execute (run_select (list_user_stmt size search sort)))
    (fun e => raise (HTTPException 400 ("Query is not working: " ++ exn_str e)%string)).

Definition create_user (payload : UserCreate.t) : M User.t :=
  let user := UserCreate.model_dump payload in
  let user := convert_if_set "icon" py_str user in
  let user := dict_set "login_pass" (hash_pw_val (dict_get "login_pass" user)) user in
  let user := User_of_dict user in
  user <- db_add_user user ;;
  try_except
    (db_commit ;; db_refresh user)
    (fun e =>
       match e with
       | IntegrityError _ _ =>
           db_rollback ;;
           raise (HTTPException 409 "email or login id is already exist.")
       | _ => raise e
       end).

Definition get_user (user_id : Z) : M User.t :=
  user <- db_get users User.id user_id ;;
  match user with
  | None => raise (HTTPException 404 "Cannot find the user")
  | Some user => ret user
  end.

Definition update_user (user_id : Z) (payload : UserUpdate.t) : M User.t :=
  user <- db_get users User.id user_id ;;
  match user with
  | None => raise (HTTPException 404 "Cannot find the user")
  | Some user =>
      let updated_user := UserUpdate.model_dump_exclude_unset payload in
      match updated_user with
      | [] => ret user
      | _ =>
          let updated_user := convert_if_set "icon" py_str updated_user in
          let updated_user := convert_if_set "login_pass" hash_pw_val updated_user in
          user <- db_track replace_user (setattr_all setattr_user user updated_user) ;;
          try_except
            (db_commit ;; db_refresh user)
            (fun e =>
               match e with
               | IntegrityError _ _ =>
                   db_rollback ;;
                   raise (HTTPException 409 "email or login_id is already exist")
               | _ =>
                   db_rollback ;;
                   raise (HTTPException 500 ("User update failed: " ++ exn_str e)%string)
               end)
      end
  end.

Definition delete_user (user_id : Z) : M unit :=
  user <- db_get users User.id user_id ;;
  match user with
  | None => raise (HTTPException 404 "Cannot find the user")
  | Some user =>
      db_delete remove_user (User.id user) ;;
      db_commit
  end.

(* ---------------- circles.py ---------------- *)

Definition create_circle (payload : CircleCreate.t) : M Circle.t :=
  let circle := CircleCreate.model_dump payload in
  let circle := dict_set "name" (strip_val (dict_get "name" circle)) circle in
  let circle := convert_if_set "image" py_str circle in
  let circle := convert_if_set "sns_links_x" py_str circle in
  let circle := convert_if_set "sns_links_instagram" py_str circle in
  let circle := convert_if_set "sns_links_line" py_str circle in
  let circle := Circle_of_dict circle in
  circle <- db_add_circle circle ;;
  try_except
    (db_commit ;; db_refresh circle)
    (fun e =>
       match e with
       | IntegrityError _ _ =>
           db_rollback ;;
           raise (HTTPException 409 "circle name already exists")
       | _ =>
           db_rollback ;;
           raise (HTTPException 400 ("cannot create circle: " ++ exn_str e)%string)
       end).

Definition update_circle (circle_id : Z) (payload : CircleUpdate.t) : M Circle.t :=
  row <- db_get circles Circle.id circle_id ;;
  match row with
  | None => raise (HTTPException 404 "circle not found")
  | Some row =>
      let update_data := CircleUpdate.model_dump_exclude_unset payload in
      let update_data := convert_if_set "image" py_str update_data in
      let update_data := convert_if_set "sns_links_x" py_str update_data in
      let update_data := convert_if_set "sns_links_instagram" py_str update_data in
      let update_data := convert_if_set "sns_links_line" py_str update_data in
      row <- db_track replace_circle (setattr_all setattr_circle row update_data) ;;
      try_except
        (db_commit ;; db_refresh row)
        (fun e =>
           match e with
           | IntegrityError _ _ =>
               db_rollback ;;
               raise (HTTPException 409 "circle name already exists")
           | _ =>
               db_rollback ;;
               raise (HTTPException 500 ("cannot update circle: " ++ exn_str e)%string)
           end)
  end.

Definition delete_circle (circle_id : Z) : M unit :=
  row <- db_get circles Circle.id circle_id ;;
  match row with
  | None => raise (HTTPException 404 "circle not found")
  | Some row =>
      db_delete remove_circle (Circle.id row) ;;
      try_except
        db_commit
        (fun e =>
           db_rollback ;;
           raise (HTTPException 400 ("cannot delete circle: " ++ exn_str e)%string))
  end.

(* ---------------- followed.py ---------------- *)

Definition create_Followed (payload : FollowedCreate.t) (current_user : User.t)
  : M Followed.t :=
  let data := FollowedCreate.model_dump payload in
  let data := dict_set "user_id" (VInt (User.id current_user)) data in
  rows <- db_execute (fun db =>
            map Circle.id
                (filter (fun c => Circle.id c =? FollowedCreate.circle_id payload)
                        (circles db))) ;;
  circle <- scalar_one_or_none rows ;;
  if negb (truthy_int circle) then
    raise (HTTPException 404 "circle not found")
  else
    rows <- db_execute (fun db =>
              map Followed.id
                  (filter (fun f =>
                             (Followed.user_id f =? User.id current_user)
                             && (Followed.circle_id f =? FollowedCreate.circle_id payload))
                          (followed db))) ;;
    dup <- scalar_one_or_none rows ;;
    if truthy_int dup then
      raise (HTTPException 409 "already joined")
    else
      followed <- db_add_followed (Followed_of_dict data) ;;
      try_except
        (db_commit ;; db_refresh followed)
        (fun e =>
           match e with
           | IntegrityError _ _ =>
               db_rollback ;;
               raise (HTTPException 409 "integrity error")
           | _ =>
               db_rollback ;;
               raise (HTTPException 400 ("cannot create Followed: " ++ exn_str e)%string)
           end).

Definition delete_Followed (circle_id : Z) (current_user : User.t) : M unit :=
  rows <- db_execute (fun db =>
            filter (fun f =>
                      (Followed.user_id f =? User.id current_user)
                      && (Followed.circle_id f =? circle_id))
                   (followed db)) ;;
  row <- scalar_one_or_none rows ;;
  match row with
  | None => raise (HTTPException 404 "Followed relationship not found")
  | Some row =>
      db_delete remove_followed (Followed.id row) ;;
      db_commit
  end.

(* ---------------- circle_news.py ---------------- *)

Definition _ensure_circle_exists (circle_id : Z) : M unit :=
  rows <- db_execute (fun db =>
            map Circle.id (filter (fun c => Circle.id c =? circle_id) (circles db))) ;;
  exists_ <- scalar_one_or_none rows ;;
  if negb (truthy_int exists_) then
    raise (HTTPException 404 "circle not found")
  else ret tt.

Definition select_circle_news (circle_id news_id : Z) (db : DB) : list CircleNews.t :=
  filter (fun n => (CircleNews.circle_id n =? circle_id) && (CircleNews.id n =? news_id))
         (circle_news db).

Definition create_news (circle_id : Z) (payload : CircleNewsCreate.t) : M CircleNews.t :=
  if negb (circle_id =? CircleNewsCreate.circle_id payload) then
    raise (HTTPException 400 "circle_id mismatch between path and body")
  else
    let news :=
      CircleNews.mk 0
        (CircleNewsCreate.circle_id payload)
        (CircleNewsCreate.title payload)
        (CircleNewsCreate.date payload)
        (CircleNewsCreate.content payload)
        (CircleNewsCreate.has_photo payload)
        (CircleNewsCreate.photo_url payload) in
    news <- db_add_circle_news news ;;
    db_flush ;;
    news <- db_refresh news ;;
    follower_ids <- db_execute (fun db =>
                      map Followed.user_id
                          (filter (fun f => Followed.circle_id f =? CircleNews.circle_id news)
                                  (followed db))) ;;
    (match follower_ids with
     | [] => ret tt
     | _ =>
         let schedules_to_add :=
           map (fun uid =>
                  UserSchedule.mk 0 uid (CircleNews.id news) (CircleNews.title news)
                                  (CircleNews.date news) (CircleNews.date news)
                                  (or_none (CircleNews.content news)))
               follower_ids in
         db_add_all_user_schedules schedules_to_add
     end) ;;
    try_except
      (db_commit ;; db_refresh news)
      (fun e =>
         match e with
         | IntegrityError _ orig =>
             db_rollback ;;
             raise (HTTPException 409 ("unique constraint failed: " ++ orig)%string)
         | _ =>
             db_rollback ;;
             raise (HTTPException 500 ("create news failed: " ++ exn_str e)%string)
         end).

Definition get_circle_news (circle_id news_id : Z) : M CircleNews.t :=
  _ensure_circle_exists circle_id ;;
  rows <- db_execute (select_circle_news circle_id news_id) ;;
  row <- scalar_one_or_none rows ;;
  match row with
  | None => raise (HTTPException 404 "circle_news not found")
  | Some row => ret row
  end.

Definition update_circle_news (circle_id news_id : Z) (payload : CircleNewsCreate.t)
  : M CircleNews.t :=
  _ensure_circle_exists circle_id ;;
  rows <- db_execute (select_circle_news circle_id news_id) ;;
  row <- scalar_one_or_none rows ;;
  match row with
  | None => raise (HTTPException 404 "circle_news not found")
  | Some row =>
      row <- db_track replace_circle_news
               (CircleNews.set_title (CircleNewsCreate.title payload) row) ;;
      row <- db_track replace_circle_news
               (CircleNews.set_content (CircleNewsCreate.content payload) row) ;;
      row <- db_track replace_circle_news
               (CircleNews.set_date (CircleNewsCreate.date payload) row) ;;
      row <- db_track replace_circle_news
               (CircleNews.set_has_photo (CircleNewsCreate.has_photo payload) row) ;;
      try_except
        (db_commit ;; db_refresh row)
        (fun e =>
           match e with
           | IntegrityError _ orig =>
               db_rollback ;;
               raise (HTTPException 400 ("integrity error: " ++ orig)%string)
           | _ =>
               db_rollback ;;
               raise (HTTPException 400 ("cannot update circle_news: " ++ exn_str e)%string)
           end)
  end.

Definition delete_circle_news (circle_id news_id : Z) : M unit :=
  _ensure_circle_exists circle_id ;;
  rows <- db_execute (select_circle_news circle_id news_id) ;;
  row <- scalar_one_or_none rows ;;
  match row with
  | None => raise (HTTPException 404 "circle_news not found")
  | Some row =>
      db_delete remove_circle_news (CircleNews.id row) ;;
      try_except
        db_commit
        (fun e =>
           db_rollback ;;
           raise (HTTPException 400 ("cannot delete circle_news: " ++ exn_str e)%string))
  end.

(* ---------------- the application ---------------- *)

Inductive Request :=
| ListUser (size : Z) (search : option string) (sort : string)
| CreateUser (payload : UserCreate.t)
| GetUser (user_id : Z)
| UpdateUser (user_id : Z) (payload : UserUpdate.t)
| DeleteUser (user_id : Z)
| CreateCircle (payload : CircleCreate.t)
| UpdateCircle (circle_id : Z) (payload : CircleUpdate.t)
| DeleteCircle (circle_id : Z)
| CreateFollowed (payload : FollowedCreate.t) (current_user : User.t)
| DeleteFollowed (circle_id : Z) (current_user : User.t)
| CreateNews (circle_id : Z) (payload : CircleNewsCreate.t)
| GetNews (circle_id news_id : Z)
| UpdateNews (circle_id news_id : Z) (payload : CircleNewsCreate.t)
| DeleteNews (circle_id news_id : Z).

Inductive Response :=
| RespUsers (l : list User.t)
| RespUser (u : User.t)
| RespCircle (c : Circle.t)
| RespFollowed (f : Followed.t)
| RespNews (n : CircleNews.t)
| RespNone.

Definition respond {A} (wrap : A -> Response) (m : M A) : M Response :=
  a <- m ;; ret (wrap a).

Definition handle (req : Request) : M Response :=
  match req with
  | ListUser size search sort => respond RespUsers (list_user size search sort)
  | CreateUser p => respond RespUser (create_user p)
  | GetUser i => respond RespUser (get_user i)
  | UpdateUser i p => respond RespUser (update_user i p)
  | DeleteUser i => respond (fun _ => RespNone) (delete_user i)
  | CreateCircle p => respond RespCircle (create_circle p)
  | UpdateCircle i p => respond RespCircle (update_circle i p)
  | DeleteCircle i => respond (fun _ => RespNone) (delete_circle i)
  | CreateFollowed p u => respond RespFollowed (create_Followed p u)
  | DeleteFollowed c u => respond (fun _ => RespNone) (delete_Followed c u)
  | CreateNews c p => respond RespNews (create_news c p)
  | GetNews c n => respond RespNews (get_circle_news c n)
  | UpdateNews c n p => respond RespNews (update_circle_news c n p)
  | DeleteNews c n => respond (fun _ => RespNone) (delete_circle_news c n)
  end.

(** One request: a session is opened on the stored state, the handler
    runs, and what it committed is the next stored state. *)
Definition step (db : DB) (req : Request) (env : Faults) : result Response * DB :=
  let (r, s) := handle req env (open_session db) in (r, committed s).

(** A sequence of requests, each with what the persistence layer answers. *)
Definition run_requests (db : DB) (trace : list (Request * Faults)) : DB :=
  fold_left (fun d re => snd (step d (fst re) (snd re))) trace db.

End Handlers.

(* ================================================================== *)
(** ** Running a handler *)

Ltac unfold_monad :=
  unfold respond, db_delete, db_track, db_add_all_user_schedules, db_add_circle_news,
    db_add_followed, db_add_circle, db_add_user, db_refresh, db_rollback, db_commit,
    db_flush, db_get, db_execute, modify_txn, fallible, try_except, raise, bind, ret in *.

(** The keys a batch of schedule rows receives, in insertion order. *)
Fixpoint assign_ids (n : Z) (l : list UserSchedule.t) : list UserSchedule.t :=
  match l with
  | [] => []
  | x :: rest => UserSchedule.with_id n x :: assign_ids (n + 1) rest
  end.

Lemma insert_all_user_schedules_spec (l : list UserSchedule.t) :
  forall d,
    insert_all_user_schedules l d =
    mkDB (users d) (circles d) (followed d) (circle_news d)
         (user_schedules d ++ assign_ids (next_user_schedule_id d) l)
         (next_user_id d) (next_circle_id d) (next_followed_id d)
         (next_circle_news_id d) (next_user_schedule_id d + Z.of_nat (List.length l)).
Proof.
  induction l as [|x l IH]; intros d.
  - destruct d; simpl. now rewrite app_nil_r, Z.add_0_r.
  - change (insert_all_user_schedules (x :: l) d)
      with (insert_all_user_schedules l (insert_user_schedule x d)).
    rewrite IH. cbn [insert_user_schedule users circles followed circle_news
                      user_schedules next_user_id next_circle_id next_followed_id
                      next_circle_news_id next_user_schedule_id assign_ids List.length].
    rewrite <- app_assoc. simpl app. f_equal. lia.
Qed.

Lemma assign_ids_length (l : list UserSchedule.t) :
  forall n, List.length (assign_ids n l) = List.length l.
Proof. induction l; intros n; simpl; auto. Qed.

Lemma assign_ids_user_id (l : list UserSchedule.t) :
  forall n, map UserSchedule.user_id (assign_ids n l) = map UserSchedule.user_id l.
Proof. induction l; intros n; simpl; f_equal; auto. Qed.

Lemma assign_ids_Forall (P : UserSchedule.t -> Prop) (l : list UserSchedule.t) :
  (forall i x, P x -> P (UserSchedule.with_id i x)) ->
  Forall P l -> forall n, Forall P (assign_ids n l).
Proof.
  intros HP H. induction H; intros n; simpl; constructor; auto.
Qed.

(** The Followed rows of a circle: its followers. *)
Definition followers_of (cid : Z) (db : DB) : list Followed.t :=
  filter (fun f => Followed.circle_id f =? cid) (followed db).

(** The news row a create request asks for, once it has its key. *)
Definition news_of_payload (i : Z) (p : CircleNewsCreate.t) : CircleNews.t :=
  CircleNews.mk i (CircleNewsCreate.circle_id p) (CircleNewsCreate.title p)
                (CircleNewsCreate.date p) (CircleNewsCreate.content p)
                (CircleNewsCreate.has_photo p) (CircleNewsCreate.photo_url p).

Definition mirrors (news : CircleNews.t) (x : UserSchedule.t) : Prop :=
  UserSchedule.circlenews_id x = CircleNews.id news
  /\ UserSchedule.title x = CircleNews.title news
  /\ UserSchedule.start_at x = CircleNews.date news
  /\ UserSchedule.end_at x = CircleNews.date news.

(** What [create_news] leaves in the session when nothing fails. *)
Lemma create_news_run (env : Faults) (db : DB) (cid : Z) (p : CircleNewsCreate.t)
      (news : CircleNews.t) (s' : Session) :
  create_news cid p env (open_session db) = (Returned news, s') ->
  cid = CircleNewsCreate.circle_id p
  /\ news = news_of_payload (next_circle_news_id db) p
  /\ committed s' =
     insert_all_user_schedules
       (map (fun uid =>
               UserSchedule.mk 0 uid (CircleNews.id news) (CircleNews.title news)
                               (CircleNews.date news) (CircleNews.date news)
                               (or_none (CircleNews.content news)))
            (map Followed.user_id (followers_of cid db)))
       (insert_circle_news news db).
Proof.
  unfold create_news. destruct (cid =? CircleNewsCreate.circle_id p) eqn:E; simpl.
  2:{ unfold raise. discriminate. }
  apply Z.eqb_eq in E. subst cid.
  unfold_monad. unfold open_session. simpl.
  destruct (on_flush env); [discriminate|].
  destruct (on_refresh env); [discriminate|].
  destruct (on_execute env); [discriminate|]. simpl.
  assert (Hf : filter (fun f => Followed.circle_id f =? CircleNewsCreate.circle_id p)
                 (followed db) = followers_of (CircleNewsCreate.circle_id p) db) by reflexivity.
  rewrite Hf.
  destruct (map Followed.user_id (followers_of (CircleNewsCreate.circle_id p) db)) eqn:Em;
    simpl.
  - destruct (on_commit env) as [[? ?|?]|]; simpl; try discriminate.
    intros H; inversion H; subst; clear H. simpl.
    repeat split; reflexivity.
  - destruct (on_commit env) as [[? ?|?]|]; simpl; try discriminate.
    intros H; inversion H; subst; clear H. simpl.
    repeat split; reflexivity.
Qed.

(** When the persistence layer accepts every call, the create returns. *)
Lemma create_news_returns (db : DB) (p : CircleNewsCreate.t) :
  exists s',
    create_news (CircleNewsCreate.circle_id p) p no_faults (open_session db)
    = (Returned (news_of_payload (next_circle_news_id db) p), s').
Proof.
  unfold create_news. rewrite Z.eqb_refl. simpl.
  unfold_monad. simpl.
  destruct (map Followed.user_id _); simpl; eexists; reflexivity.
Qed.

(** C1 -- fan-out of a news create.  A CircleNews create that returns has
    committed exactly one new CircleNews row (the payload with its key)
    and, for a circle with N Followed rows, exactly N new UserSchedule
    rows: one per follower, in order, each carrying the news id, the news
    title and start_at = end_at = the news date.  With no follower the
    news row is committed and the schedule table is unchanged.  The other
    tables are untouched. *)
Theorem create_news_fan_out (env : Faults) (db : DB) (cid : Z) (p : CircleNewsCreate.t)
        (news : CircleNews.t) (s' : Session) :
  create_news cid p env (open_session db) = (Returned news, s') ->
  news = news_of_payload (next_circle_news_id db) p
  /\ circle_news (committed s') = circle_news db ++ [news]
  /\ (exists added,
        user_schedules (committed s') = user_schedules db ++ added
        /\ List.length added = List.length (followers_of cid db)
        /\ map UserSchedule.user_id added = map Followed.user_id (followers_of cid db)
        /\ Forall (mirrors news) added)
  /\ (followers_of cid db = [] -> user_schedules (committed s') = user_schedules db)
  /\ users (committed s') = users db
  /\ circles (committed s') = circles db
  /\ followed (committed s') = followed db.
Proof.
  intros H. apply create_news_run in H. destruct H as (Hc & Hn & Hs).
  rewrite Hs, insert_all_user_schedules_spec. simpl.
  split; [exact Hn|].
  split; [now rewrite Hn|].
  split.
  - eexists. split; [reflexivity|].
    rewrite assign_ids_length, assign_ids_user_id, !length_map, map_map. simpl.
    split; [reflexivity|]. split; [apply map_id|].
    apply assign_ids_Forall.
    + intros i x Hx. exact Hx.
    + apply Forall_map, Forall_map. apply Forall_forall. intros f _.
      unfold mirrors. simpl. auto.
  - split; [|auto]. intros E. rewrite E. simpl. now rewrite app_nil_r.
Qed.

Definition alice_follow : Followed.t := Followed.mk 1 7 3 None false.
Definition bob_follow : Followed.t := Followed.mk 2 8 3 None true.
Definition carol_follow : Followed.t := Followed.mk 3 9 4 None false.

Definition club3 : Circle.t := Circle.mk 3 (Some "chess") None None (Some []) None None None.
Definition club4 : Circle.t := Circle.mk 4 (Some "go") None None (Some []) None None None.

Definition sample_db : DB :=
  mkDB [] [club3; club4] [alice_follow; bob_follow; carol_follow] [] [] 10 5 4 1 1.

Definition sample_news : CircleNewsCreate.t :=
  CircleNewsCreate.mk 3 "meeting" 20250 (Some "room 2") false None.

Lemma create_news_fan_out_witness :
  let news := news_of_payload 1 sample_news in
  let r := create_news 3 sample_news no_faults (open_session sample_db) in
  fst r = Returned news
  /\ circle_news (committed (snd r)) = [news]
  /\ user_schedules (committed (snd r)) =
     [UserSchedule.mk 1 7 1 "meeting" 20250 20250 (Some "room 2");
      UserSchedule.mk 2 8 1 "meeting" 20250 20250 (Some "room 2")].
Proof.
  pose proof (create_news_fan_out no_faults sample_db 3 sample_news
                (news_of_payload 1 sample_news)
                (snd (create_news 3 sample_news no_faults (open_session sample_db)))
                eq_refl) as H.
  destruct H as (_ & Hn & _).
  split; [reflexivity|]. split; [exact Hn|reflexivity].
Defined.

(** The commit of [create_news] is reached: the calls before it succeed. *)
Definition reaches_commit (env : Faults) : Prop :=
  on_flush env = None /\ on_refresh env = None /\ on_execute env = None.

(** C2 -- all-or-nothing news create.  When the commit of a CircleNews
    create fails, nothing is persisted: the stored state is the one before
    the request, with neither the news row nor a fan-out row.  When the
    commit is reached and fails with an integrity violation the handler
    raises 409, when it fails for another reason it raises 500, and in both
    cases it has rolled the transaction back. *)
Theorem create_news_all_or_nothing (env : Faults) (db : DB) (p : CircleNewsCreate.t)
        (f : fault) :
  on_commit env = Some f ->
  let r := create_news (CircleNewsCreate.circle_id p) p env (open_session db) in
  committed (snd r) = db
  /\ (reaches_commit env ->
      snd r = open_session db
      /\ fst r = Raised
           (match f with
            | FIntegrity _ orig =>
                HTTPException 409 ("unique constraint failed: " ++ orig)%string
            | FOther msg =>
                HTTPException 500 ("create news failed: " ++ msg)%string
            end)).
Proof.
  intros Hc. unfold create_news. rewrite Z.eqb_refl. simpl.
  unfold reaches_commit. unfold_monad. unfold open_session. simpl.
  destruct (on_flush env) eqn:Efl; simpl.
  { split; [reflexivity|]. intros (H & _). discriminate. }
  destruct (on_refresh env) eqn:Erf; simpl.
  { split; [reflexivity|]. intros (_ & H & _). discriminate. }
  destruct (on_execute env) eqn:Eex; simpl.
  { split; [reflexivity|]. intros (_ & _ & H). discriminate. }
  rewrite Hc.
  destruct (map Followed.user_id _); destruct f; simpl; auto.
Qed.

Definition commit_conflict : Faults :=
  mkFaults None None (Some (FIntegrity "(IntegrityError) duplicate key" "duplicate key")) None.

Definition commit_broken : Faults :=
  mkFaults None None (Some (FOther "connection lost")) None.

Lemma create_news_all_or_nothing_witness :
  let r := create_news 3 sample_news commit_conflict (open_session sample_db) in
  committed (snd r) = sample_db
  /\ snd r = open_session sample_db
  /\ fst r = Raised (HTTPException 409 "unique constraint failed: duplicate key").
Proof.
  destruct (create_news_all_or_nothing commit_conflict sample_db sample_news
              (FIntegrity "(IntegrityError) duplicate key" "duplicate key") eq_refl)
    as (H1 & H2).
  destruct (H2 (conj eq_refl (conj eq_refl eq_refl))) as (H3 & H4).
  exact (conj H1 (conj H3 H4)).
Defined.

(** C3 -- path/body mismatch.  A CircleNews create whose path circle_id
    differs from the circle_id of the body raises 400 and leaves the
    session, and so the stored state, exactly as it was: no CircleNews and
    no UserSchedule row is written. *)
Theorem create_news_mismatch (env : Faults) (db : DB) (cid : Z) (p : CircleNewsCreate.t) :
  cid <> CircleNewsCreate.circle_id p ->
  create_news cid p env (open_session db)
  = (Raised (HTTPException 400 "circle_id mismatch between path and body"),
     open_session db)
  /\ committed (snd (create_news cid p env (open_session db))) = db.
Proof.
  intros Hne. apply Z.eqb_neq in Hne.
  unfold create_news. rewrite Hne. simpl. unfold raise. split; reflexivity.
Qed.

Lemma create_news_mismatch_witness :
  create_news 4 sample_news no_faults (open_session sample_db)
  = (Raised (HTTPException 400 "circle_id mismatch between path and body"),
     open_session sample_db)
  /\ committed (snd (create_news 4 sample_news no_faults (open_session sample_db)))
     = sample_db.
Proof.
  apply (create_news_mismatch no_faults sample_db 4 sample_news). simpl. lia.
Defined.

(* ================================================================== *)
(** ** What a request can commit *)

Lemma replace_circle_news_twice (a b : CircleNews.t) (d : DB) :
  CircleNews.id a = CircleNews.id b ->
  replace_circle_news b (replace_circle_news a d) = replace_circle_news b d.
Proof.
  intros E. unfold replace_circle_news. simpl. f_equal.
  rewrite map_map. apply map_ext. intros r.
  destruct (CircleNews.id r =? CircleNews.id a) eqn:Ea.
  - rewrite E in Ea. rewrite E, Z.eqb_refl. now rewrite Ea.
  - reflexivity.
Qed.

(** The row [update_circle_news] writes over [row]. *)
Definition updated_news (p : CircleNewsCreate.t) (row : CircleNews.t) : CircleNews.t :=
  CircleNews.set_has_photo (CircleNewsCreate.has_photo p)
    (CircleNews.set_date (CircleNewsCreate.date p)
       (CircleNews.set_content (CircleNewsCreate.content p)
          (CircleNews.set_title (CircleNewsCreate.title p) row))).

Lemma setattr_all_user_id (d : dict) :
  forall u, User.id (setattr_all setattr_user u d) = User.id u.
Proof.
  unfold setattr_all. induction d as [|[k v] d IH]; intros u; simpl; [reflexivity|].
  rewrite IH. unfold setattr_user.
  repeat match goal with |- context [if ?b then _ else _] => destruct b end; reflexivity.
Qed.

Lemma setattr_all_circle_id (d : dict) :
  forall c, Circle.id (setattr_all setattr_circle c d) = Circle.id c.
Proof.
  unfold setattr_all. induction d as [|[k v] d IH]; intros c; simpl; [reflexivity|].
  rewrite IH. unfold setattr_circle.
  repeat match goal with |- context [if ?b then _ else _] => destruct b end; reflexivity.
Qed.

Section Application.

Variable hash_pw : string -> string.
Variable str_strip : string -> string.
Variable str_lower : string -> string.
Variable run_select : UserSelect -> DB -> list User.t.

Local Abbreviation app_step := (step hash_pw str_strip str_lower run_select).
Local Abbreviation app_run := (run_requests hash_pw str_strip str_lower run_select).

(** The stored state after a request is the state before it, or the one
    change the handler makes. *)
Inductive effect (db : DB) : Request -> DB -> Prop :=
| eff_none req : effect db req db
| eff_create_user p u : effect db (CreateUser p) (insert_user u db)
| eff_update_user i p u : effect db (UpdateUser i p) (replace_user u db)
| eff_delete_user i : effect db (DeleteUser i) (remove_user i db)
| eff_create_circle p c : effect db (CreateCircle p) (insert_circle c db)
| eff_update_circle i p c :
    Circle.id c = i ->
    effect db (UpdateCircle i p) (replace_circle c db)
| eff_delete_circle i : effect db (DeleteCircle i) (remove_circle i db)
| eff_create_followed p u :
    (forall f, In f (followed db) ->
               Followed.user_id f = User.id u ->
               Followed.circle_id f = FollowedCreate.circle_id p ->
               Followed.id f = 0) ->
    effect db (CreateFollowed p u)
           (insert_followed
              (Followed.mk 0 (User.id u) (FollowedCreate.circle_id p)
                           (FollowedCreate.date p) (FollowedCreate.is_admin p)) db)
| eff_delete_followed c u i : effect db (DeleteFollowed c u) (remove_followed i db)
| eff_create_news c p news :
    c = CircleNewsCreate.circle_id p ->
    news = news_of_payload (next_circle_news_id db) p ->
    effect db (CreateNews c p)
           (insert_all_user_schedules
              (map (fun uid =>
                      UserSchedule.mk 0 uid (CircleNews.id news) (CircleNews.title news)
                                      (CircleNews.date news) (CircleNews.date news)
                                      (or_none (CircleNews.content news)))
                   (map Followed.user_id (followers_of c db)))
              (insert_circle_news news db))
| eff_update_news c n p row :
    select_circle_news c n db = [row] ->
    effect db (UpdateNews c n p) (replace_circle_news (updated_news p row) db)
| eff_delete_news c n i : effect db (DeleteNews c n) (remove_circle_news i db).

Ltac break_fault :=
  match goal with
  | |- context [match ?x with _ => _ end] =>
      is_var x;
      match type of x with
      | option fault => destruct x as [[? ?|?]|]; simpl
      end
  end.

(** Unfolds a handler on an open session, with the four answers of the
    persistence layer as variables. *)
Ltac start_run env :=
  unfold_monad; unfold open_session; destruct env as [ex fl cm rf]; simpl.

Lemma create_Followed_committed (p : FollowedCreate.t) (u : User.t) (env : Faults) (db : DB) :
  let r := create_Followed p u env (open_session db) in
  committed (snd r) = db
  \/ ((forall f, In f (followed db) ->
                 Followed.user_id f = User.id u ->
                 Followed.circle_id f = FollowedCreate.circle_id p ->
                 Followed.id f = 0)
      /\ on_commit env = None
      /\ committed (snd r) =
         insert_followed
           (Followed.mk 0 (User.id u) (FollowedCreate.circle_id p)
                        (FollowedCreate.date p) (FollowedCreate.is_admin p)) db).
Proof.
  unfold create_Followed. start_run env.
  destruct ex as [[? ?|?]|]; simpl; auto.
  destruct (map Circle.id _) as [|c [|c' cs]]; simpl; auto.
  destruct (c =? 0); simpl; auto.
  destruct (map Followed.id _) as [|i [|i' l]] eqn:Ed; simpl; auto.
  - assert (Hnone : forall f, In f (followed db) ->
                      Followed.user_id f = User.id u ->
                      Followed.circle_id f = FollowedCreate.circle_id p ->
                      Followed.id f = 0).
    { intros f Hin Hu Hc. apply map_eq_nil in Ed.
      assert (Hf : In f (filter (fun f0 => (Followed.user_id f0 =? User.id u)
                                           && (Followed.circle_id f0 =? FollowedCreate.circle_id p))
                                (followed db))).
      { apply filter_In. split; [exact Hin|]. rewrite Hu, Hc, !Z.eqb_refl. reflexivity. }
      rewrite Ed in Hf. destruct Hf. }
    destruct p as [pu pc pd pa]; simpl in *.
    destruct pd; simpl; repeat break_fault; auto.
  - destruct (i =? 0) eqn:Ei; simpl; auto.
    apply Z.eqb_eq in Ei. subst i.
    assert (Hnone : forall f, In f (followed db) ->
                      Followed.user_id f = User.id u ->
                      Followed.circle_id f = FollowedCreate.circle_id p ->
                      Followed.id f = 0).
    { intros f Hin Hu Hc.
      assert (Hf : In (Followed.id f)
                      (map Followed.id
                           (filter (fun f0 => (Followed.user_id f0 =? User.id u)
                                              && (Followed.circle_id f0 =? FollowedCreate.circle_id p))
                                   (followed db)))).
      { apply in_map, filter_In. split; [exact Hin|]. rewrite Hu, Hc, !Z.eqb_refl. reflexivity. }
      rewrite Ed in Hf. destruct Hf as [Hf|[]]. now symmetry. }
    destruct p as [pu pc pd pa]; simpl in *.
    destruct pd; simpl; repeat break_fault; auto.
Qed.

Lemma update_circle_news_committed (c n : Z) (p : CircleNewsCreate.t) (env : Faults) (db : DB) :
  let r := update_circle_news c n p env (open_session db) in
  committed (snd r) = db
  \/ (exists row,
        select_circle_news c n db = [row]
        /\ on_commit env = None
        /\ committed (snd r) = replace_circle_news (updated_news p row) db).
Proof.
  unfold update_circle_news, _ensure_circle_exists. start_run env.
  destruct ex as [[? ?|?]|]; simpl; auto.
  destruct (map Circle.id _) as [|x [|y l]]; simpl; auto.
  destruct (x =? 0); simpl; auto.
  destruct (select_circle_news c n db) as [|row [|row' rows]] eqn:Es; simpl; auto.
  rewrite !replace_circle_news_twice by reflexivity.
  fold (updated_news p row).
  repeat break_fault; eauto.
Qed.

Lemma create_news_committed (c : Z) (p : CircleNewsCreate.t) (env : Faults) (db : DB) :
  let r := create_news c p env (open_session db) in
  committed (snd r) = db
  \/ (c = CircleNewsCreate.circle_id p
      /\ on_commit env = None
      /\ committed (snd r) =
         insert_all_user_schedules
           (map (fun uid =>
                   UserSchedule.mk 0 uid (next_circle_news_id db) (CircleNewsCreate.title p)
                                   (CircleNewsCreate.date p) (CircleNewsCreate.date p)
                                   (or_none (CircleNewsCreate.content p)))
                (map Followed.user_id (followers_of c db)))
           (insert_circle_news (news_of_payload (next_circle_news_id db) p) db)).
Proof.
  unfold create_news. destruct (c =? CircleNewsCreate.circle_id p) eqn:E; simpl.
  2:{ unfold raise. simpl. auto. }
  apply Z.eqb_eq in E. subst c.
  start_run env.
  destruct fl as [[? ?|?]|]; simpl; auto.
  destruct rf as [[? ?|?]|]; simpl; auto.
  destruct ex as [[? ?|?]|]; simpl; auto.
  change (filter (fun f => Followed.circle_id f =? CircleNewsCreate.circle_id p) (followed db))
    with (followers_of (CircleNewsCreate.circle_id p) db).
  destruct (map Followed.user_id (followers_of (CircleNewsCreate.circle_id p) db)) eqn:Em;
    simpl; destruct cm as [[? ?|?]|]; simpl; auto.
Qed.

Lemma step_effect (db : DB) (req : Request) (env : Faults) :
  effect db req (snd (app_step db req env)).
Proof.
  unfold step.
  destruct req; simpl.
  - (* ListUser *)
    unfold list_user. start_run env. repeat break_fault; constructor.
  - (* CreateUser *)
    unfold create_user. start_run env. repeat break_fault; constructor.
  - (* GetUser *)
    unfold get_user. start_run env. repeat break_fault; try constructor.
    destruct (find _ _); simpl; constructor.
  - (* UpdateUser *)
    unfold update_user. start_run env.
    destruct ex as [[? ?|?]|]; simpl; try constructor.
    destruct (find _ _); simpl; [|constructor].
    destruct (UserUpdate.model_dump_exclude_unset payload); simpl; [constructor|].
    repeat break_fault; constructor.
  - (* DeleteUser *)
    unfold delete_user. start_run env.
    destruct ex as [[? ?|?]|]; simpl; try constructor.
    destruct (find _ _) as [row|] eqn:Ef; simpl; [|constructor].
    apply find_some in Ef. destruct Ef as [_ Ei]. apply Z.eqb_eq in Ei. rewrite Ei.
    repeat break_fault; constructor.
  - (* CreateCircle *)
    unfold create_circle. start_run env. repeat break_fault; constructor.
  - (* UpdateCircle *)
    unfold update_circle. start_run env.
    destruct ex as [[? ?|?]|]; simpl; try constructor.
    destruct (find _ _) as [row|] eqn:Ef; simpl; [|constructor].
    apply find_some in Ef. destruct Ef as [_ Ei]. apply Z.eqb_eq in Ei.
    repeat break_fault; try constructor; now rewrite setattr_all_circle_id.
  - (* DeleteCircle *)
    unfold delete_circle. start_run env.
    destruct ex as [[? ?|?]|]; simpl; try constructor.
    destruct (find _ _) as [row|] eqn:Ef; simpl; [|constructor].
    apply find_some in Ef. destruct Ef as [_ Ei]. apply Z.eqb_eq in Ei. rewrite Ei.
    repeat break_fault; constructor.
  - (* CreateFollowed *)
    pose proof (create_Followed_committed payload current_user env db) as H.
    simpl in H. unfold respond, bind, ret.
    destruct (create_Followed payload current_user env (open_session db)) as [[a|e] s'];
      simpl in *; destruct H as [H|(Hn & _ & H)]; rewrite H; constructor; auto.
  - (* DeleteFollowed *)
    unfold delete_Followed. start_run env.
    destruct ex as [[? ?|?]|]; simpl; try constructor.
    destruct (filter _ _) as [|row [|row' rows]]; simpl; try constructor.
    repeat break_fault; constructor.
  - (* CreateNews *)
    pose proof (create_news_committed circle_id payload env db) as H.
    simpl in H. unfold respond, bind, ret.
    destruct (create_news circle_id payload env (open_session db)) as [[a|e] s'];
      simpl in *; destruct H as [H|(Hc & _ & H)]; rewrite H;
      first [ apply eff_none
            | exact (eff_create_news db _ _ (news_of_payload (next_circle_news_id db) payload)
                                     Hc eq_refl) ].
  - (* GetNews *)
    unfold get_circle_news, _ensure_circle_exists. start_run env.
    destruct ex as [[? ?|?]|]; simpl; try constructor.
    destruct (map Circle.id _) as [|x [|y l]]; simpl; try constructor.
    destruct (x =? 0); simpl; try constructor.
    destruct (select_circle_news _ _ _) as [|row [|row' rows]]; simpl; constructor.
  - (* UpdateNews *)
    pose proof (update_circle_news_committed circle_id news_id payload env db) as H.
    simpl in H. unfold respond, bind, ret.
    destruct (update_circle_news circle_id news_id payload env (open_session db))
      as [[a|e] s']; simpl in *; destruct H as [H|(row & Hr & _ & H)]; rewrite H;
      try constructor; auto.
  - (* DeleteNews *)
    unfold delete_circle_news, _ensure_circle_exists. start_run env.
    destruct ex as [[? ?|?]|]; simpl; try constructor.
    destruct (map Circle.id _) as [|x [|y l]]; simpl; try constructor.
    destruct (x =? 0); simpl; try constructor.
    destruct (select_circle_news _ _ _) as [|row [|row' rows]]; simpl; try constructor.
    repeat break_fault; constructor.
Qed.

(** Nothing is stored unless the commit is accepted. *)
Lemma step_commit (db : DB) (req : Request) (env : Faults) :
  snd (app_step db req env) = db \/ on_commit env = None.
Proof.
  unfold step.
  destruct req; simpl.
  - (* ListUser *)
    unfold list_user. start_run env. repeat break_fault; auto.
  - (* CreateUser *)
    unfold create_user. start_run env. repeat break_fault; auto.
  - (* GetUser *)
    unfold get_user. start_run env. repeat break_fault; auto.
    destruct (find _ _); simpl; auto.
  - (* UpdateUser *)
    unfold update_user. start_run env.
    destruct ex as [[? ?|?]|]; simpl; auto.
    destruct (find _ _); simpl; [|auto].
    destruct (UserUpdate.model_dump_exclude_unset payload); simpl; [auto|].
    repeat break_fault; auto.
  - (* DeleteUser *)
    unfold delete_user. start_run env.
    destruct ex as [[? ?|?]|]; simpl; auto.
    destruct (find _ _) as [row|] eqn:Ef; simpl; [|auto].
    apply find_some in Ef. destruct Ef as [_ Ei]. apply Z.eqb_eq in Ei. rewrite Ei.
    repeat break_fault; auto.
  - (* CreateCircle *)
    unfold create_circle. start_run env. repeat break_fault; auto.
  - (* UpdateCircle *)
    unfold update_circle. start_run env.
    destruct ex as [[? ?|?]|]; simpl; auto.
    destruct (find _ _) as [row|] eqn:Ef; simpl; [|auto].
    apply find_some in Ef. destruct Ef as [_ Ei]. apply Z.eqb_eq in Ei.
    repeat break_fault; auto.
  - (* DeleteCircle *)
    unfold delete_circle. start_run env.
    destruct ex as [[? ?|?]|]; simpl; auto.
    destruct (find _ _) as [row|] eqn:Ef; simpl; [|auto].
    apply find_some in Ef. destruct Ef as [_ Ei]. apply Z.eqb_eq in Ei. rewrite Ei.
    repeat break_fault; auto.
  - (* CreateFollowed *)
    pose proof (create_Followed_committed payload current_user env db) as H.
    simpl in H. unfold respond, bind, ret.
    destruct (create_Followed payload current_user env (open_session db)) as [[a|e] s'];
      simpl in *; destruct H as [H|(Hn & Hcm & H)]; auto.
  - (* DeleteFollowed *)
    unfold delete_Followed. start_run env.
    destruct ex as [[? ?|?]|]; simpl; auto.
    destruct (filter _ _) as [|row [|row' rows]]; simpl; auto.
    repeat break_fault; auto.
  - (* CreateNews *)
    pose proof (create_news_committed circle_id payload env db) as H.
    simpl in H. unfold respond, bind, ret.
    destruct (create_news circle_id payload env (open_session db)) as [[a|e] s'];
      simpl in *; destruct H as [H|(Hc & Hcm & H)]; auto.
  - (* GetNews *)
    unfold get_circle_news, _ensure_circle_exists. start_run env.
    destruct ex as [[? ?|?]|]; simpl; auto.
    destruct (map Circle.id _) as [|x [|y l]]; simpl; auto.
    destruct (x =? 0); simpl; auto.
    destruct (select_circle_news _ _ _) as [|row [|row' rows]]; simpl; auto.
  - (* UpdateNews *)
    pose proof (update_circle_news_committed circle_id news_id payload env db) as H.
    simpl in H. unfold respond, bind, ret.
    destruct (update_circle_news circle_id news_id payload env (open_session db))
      as [[a|e] s']; simpl in *; destruct H as [H|(row & Hr & Hcm & H)]; auto.
  - (* DeleteNews *)
    unfold delete_circle_news, _ensure_circle_exists. start_run env.
    destruct ex as [[? ?|?]|]; simpl; auto.
    destruct (map Circle.id _) as [|x [|y l]]; simpl; auto.
    destruct (x =? 0); simpl; auto.
    destruct (select_circle_news _ _ _) as [|row [|row' rows]]; simpl; auto.
    repeat break_fault; auto.
Qed.

(* ------------------------------------------------------------------ *)
(** *** Keys and memberships of the reachable states *)

Definition follow_pair (f : Followed.t) : Z * Z :=
  (Followed.user_id f, Followed.circle_id f).

(** Generated keys are positive and below the next key; circle keys are
    distinct. *)
Record keys_ok (d : DB) : Prop := mk_keys_ok
  { circle_keys : Forall (fun i => 0 < i < next_circle_id d) (map Circle.id (circles d));
    circle_keys_nodup : NoDup (map Circle.id (circles d));
    next_circle_pos : 0 < next_circle_id d;
    followed_keys : Forall (fun i => 0 < i < next_followed_id d) (map Followed.id (followed d));
    next_followed_pos : 0 < next_followed_id d }.

(** At most one Followed row per (user, circle). *)
Definition follow_unique (d : DB) : Prop :=
  NoDup (map follow_pair (followed d)).

Lemma NoDup_map_filter {A B} (g : A -> B) (keep : A -> bool) (l : list A) :
  NoDup (map g l) -> NoDup (map g (filter keep l)).
Proof.
  induction l as [|x l IH]; simpl; intros H; [constructor|].
  inversion H as [|? ? Hnin Hnd]; subst.
  destruct (keep x); simpl; auto.
  constructor; auto.
  intros Hin. apply Hnin. apply in_map_iff in Hin. destruct Hin as (y & Hy & Hin).
  apply filter_In in Hin. apply in_map_iff. exists y. tauto.
Qed.

Lemma Forall_map_filter {A B} (P : B -> Prop) (g : A -> B) (keep : A -> bool) (l : list A) :
  Forall P (map g l) -> Forall P (map g (filter keep l)).
Proof.
  rewrite !Forall_forall. intros H b Hb. apply H.
  apply in_map_iff in Hb. destruct Hb as (y & Hy & Hin).
  apply filter_In in Hin. apply in_map_iff. exists y. tauto.
Qed.

Lemma replace_circle_ids (c : Circle.t) (l : list Circle.t) :
  map Circle.id (map (fun r => if Circle.id r =? Circle.id c then c else r) l)
  = map Circle.id l.
Proof.
  rewrite map_map. apply map_ext. intros r.
  destruct (Circle.id r =? Circle.id c) eqn:E; [|reflexivity].
  apply Z.eqb_eq in E. now symmetry.
Qed.

Lemma Forall_below_weaken (n : Z) (l : list Z) :
  Forall (fun i => 0 < i < n) l -> Forall (fun i => 0 < i < n + 1) l.
Proof. apply Forall_impl. intros; lia. Qed.

Lemma NoDup_snoc_fresh (n : Z) (l : list Z) :
  Forall (fun i => 0 < i < n) l -> NoDup l -> NoDup (l ++ [n]).
Proof.
  intros Hb Hnd. apply NoDup_app; [exact Hnd|repeat constructor; auto|].
  intros x Hx [Hn|[]]; subst.
  rewrite Forall_forall in Hb. apply Hb in Hx. lia.
Qed.

Lemma effect_keys_ok (db db' : DB) (req : Request) :
  effect db req db' -> keys_ok db -> keys_ok db'.
Proof.
  intros He [Hc Hnd Hcp Hf Hfp].
  destruct He; try (constructor; simpl; assumption).
  - (* insert_circle *)
    constructor; simpl; rewrite ?map_app; simpl; try assumption; try lia.
    + apply Forall_app. split; [now apply Forall_below_weaken|].
      repeat constructor; lia.
    + now apply NoDup_snoc_fresh.
  - (* replace_circle *)
    constructor; simpl; rewrite ?replace_circle_ids; assumption.
  - (* remove_circle *)
    constructor; simpl; try assumption.
    + now apply Forall_map_filter.
    + now apply NoDup_map_filter.
  - (* insert_followed *)
    constructor; simpl; rewrite ?map_app; simpl; try assumption; try lia.
    apply Forall_app. split; [now apply Forall_below_weaken|].
    repeat constructor; lia.
  - (* remove_followed *)
    constructor; simpl; try assumption. now apply Forall_map_filter.
  - (* create_news *)
    rewrite insert_all_user_schedules_spec. constructor; simpl; assumption.
Qed.

Lemma effect_follow_unique (db db' : DB) (req : Request) :
  effect db req db' -> keys_ok db -> follow_unique db -> follow_unique db'.
Proof.
  unfold follow_unique. intros He Hk Hu.
  destruct He; simpl; try assumption.
  - (* insert_followed *)
    rewrite map_app. simpl. apply NoDup_app; [exact Hu|repeat constructor; auto|].
    intros pair Hin [Hp|[]]. subst pair.
    apply in_map_iff in Hin. destruct Hin as (f & Hf & Hin).
    unfold follow_pair in Hf. inversion Hf as [[Hfu Hfc]].
    pose proof (H f Hin Hfu Hfc) as Hz.
    pose proof (followed_keys db Hk) as Hb. rewrite Forall_forall in Hb.
    specialize (Hb (Followed.id f) (in_map _ _ _ Hin)). lia.
  - (* remove_followed *)
    now apply NoDup_map_filter.
  - (* create_news *)
    rewrite insert_all_user_schedules_spec. simpl. assumption.
Qed.

Lemma empty_db_ok : keys_ok empty_db /\ follow_unique empty_db.
Proof.
  split; [constructor; simpl; try constructor; lia|].
  unfold follow_unique. simpl. constructor.
Qed.

Lemma run_requests_ok (trace : list (Request * Faults)) :
  forall db, keys_ok db /\ follow_unique db ->
             keys_ok (app_run db trace) /\ follow_unique (app_run db trace).
Proof.
  unfold run_requests.
  induction trace as [|[req env] trace IH]; intros db [Hk Hu]; simpl; [tauto|].
  apply IH. pose proof (step_effect db req env) as He. split.
  - eapply effect_keys_ok; eauto.
  - eapply effect_follow_unique; eauto.
Qed.

(* ------------------------------------------------------------------ *)
(** *** Following a circle *)

Lemma filter_none {A} (keep : A -> bool) (l : list A) :
  (forall x, In x l -> keep x = false) -> filter keep l = [].
Proof.
  induction l as [|x l IH]; simpl; intros H; [reflexivity|].
  rewrite (H x (or_introl eq_refl)). apply IH. intros y Hy. apply H. now right.
Qed.

Lemma filter_unique {A B} (g : A -> B) (keep : A -> bool) (l : list A) (x : A) :
  NoDup (map g l) -> In x l ->
  (forall y, In y l -> keep y = true <-> g y = g x) ->
  filter keep l = [x].
Proof.
  induction l as [|a l IH]; simpl; intros Hnd Hin Hk; [destruct Hin|].
  inversion Hnd as [|? ? Hnin Hnd']; subst.
  destruct Hin as [->|Hin].
  - assert (Hx : keep x = true) by (apply Hk; auto).
    rewrite Hx. f_equal. apply filter_none. intros y Hy.
    destruct (keep y) eqn:Ey; [|reflexivity].
    exfalso. apply Hnin. apply in_map_iff. exists y. split; [|exact Hy].
    apply Hk; auto.
  - assert (Ha : keep a = false).
    { destruct (keep a) eqn:Ea; [|reflexivity].
      exfalso. apply Hnin. apply in_map_iff. exists x. split; [|exact Hin].
      symmetry. apply Hk; auto. }
    rewrite Ha. apply IH; auto.
Qed.

Lemma create_Followed_no_circle (p : FollowedCreate.t) (u : User.t) (env : Faults) (db : DB) :
  on_execute env = None ->
  (forall c, In c (circles db) -> Circle.id c <> FollowedCreate.circle_id p) ->
  create_Followed p u env (open_session db)
  = (Raised (HTTPException 404 "circle not found"), open_session db).
Proof.
  intros Hex Hno. unfold create_Followed. start_run env. simpl in Hex. subst ex. simpl.
  rewrite filter_none; [reflexivity|].
  intros c Hc. apply Z.eqb_neq. now apply Hno.
Qed.

Lemma select_circle_id (db : DB) (c : Circle.t) :
  keys_ok db -> In c (circles db) ->
  map Circle.id (filter (fun r => Circle.id r =? Circle.id c) (circles db)) = [Circle.id c]
  /\ (Circle.id c =? 0) = false.
Proof.
  intros Hk Hin. split.
  - rewrite (filter_unique Circle.id _ (circles db) c); auto.
    + apply (circle_keys_nodup db Hk).
    + intros y _. apply Z.eqb_eq.
  - pose proof (circle_keys db Hk) as Hb. rewrite Forall_forall in Hb.
    specialize (Hb _ (in_map Circle.id _ _ Hin)). apply Z.eqb_neq. lia.
Qed.

Lemma create_Followed_duplicate (p : FollowedCreate.t) (u : User.t) (env : Faults) (db : DB)
      (c : Circle.t) (f : Followed.t) :
  keys_ok db -> follow_unique db ->
  on_execute env = None ->
  In c (circles db) -> Circle.id c = FollowedCreate.circle_id p ->
  In f (followed db) -> follow_pair f = (User.id u, FollowedCreate.circle_id p) ->
  create_Followed p u env (open_session db)
  = (Raised (HTTPException 409 "already joined"), open_session db).
Proof.
  intros Hk Hu Hex Hc Hci Hf Hfp.
  unfold create_Followed. start_run env. simpl in Hex. subst ex. simpl.
  destruct (select_circle_id db c Hk Hc) as [Hsel Hnz].
  rewrite <- Hci, Hsel. simpl. rewrite Hnz. simpl.
  inversion Hfp as [[Hfu Hfc]].
  rewrite (filter_unique follow_pair _ (followed db) f); auto.
  - simpl.
    pose proof (followed_keys db Hk) as Hb. rewrite Forall_forall in Hb.
    specialize (Hb _ (in_map Followed.id _ _ Hf)).
    destruct (Followed.id f =? 0) eqn:E; [apply Z.eqb_eq in E; lia|]. reflexivity.
  - intros y _. unfold follow_pair. rewrite Hfu, Hfc, Hci, andb_true_iff, !Z.eqb_eq.
    split; [intros [-> ->]; reflexivity|intros H; inversion H; auto].
Qed.

Lemma create_Followed_returned (p : FollowedCreate.t) (u : User.t) (env : Faults) (db : DB)
      (f : Followed.t) (s' : Session) :
  create_Followed p u env (open_session db) = (Returned f, s') ->
  f = Followed.mk (next_followed_id db) (User.id u) (FollowedCreate.circle_id p)
                  (FollowedCreate.date p) (FollowedCreate.is_admin p)
  /\ committed s' = insert_followed f db
  /\ exists c, In c (circles db) /\ Circle.id c = FollowedCreate.circle_id p.
Proof.
  unfold create_Followed. start_run env.
  destruct ex as [[? ?|?]|]; simpl; try discriminate.
  destruct (filter _ (circles db)) as [|c [|c' cs]] eqn:Ec; simpl; try discriminate.
  destruct (Circle.id c =? 0); simpl; try discriminate.
  assert (Hc : In c (circles db) /\ Circle.id c = FollowedCreate.circle_id p).
  { assert (Hin : In c (filter (fun c0 => Circle.id c0 =? FollowedCreate.circle_id p)
                               (circles db))) by (rewrite Ec; now left).
    apply filter_In in Hin. destruct Hin as [Hin E]. apply Z.eqb_eq in E. auto. }
  destruct p as [pu pc pd pa]; simpl in *.
  destruct (map Followed.id _) as [|i [|i' l]]; simpl; try discriminate;
    [|destruct (i =? 0); simpl; try discriminate];
    destruct pd; simpl; repeat break_fault; try discriminate;
    intros H; inversion H; subst; simpl; eauto.
Qed.

(** C5 -- following at most once.  In every state the application reaches
    from the empty store, whatever the requests and the answers of the
    persistence layer were: (a) no two Followed rows share their (user,
    circle); (b) a follow of a circle that does not exist raises 404, before
    any duplicate check, and changes nothing; (c) a follow of an existing
    circle that the acting user already follows raises 409 and inserts
    nothing; (d) after a follow that returned, the row belongs to the
    acting user, rows are still unique, and any further follow of that
    circle by the same user raises 409. *)
Theorem follow_at_most_once (trace : list (Request * Faults)) :
  let db := app_run empty_db trace in
  follow_unique db
  /\ (forall p u env,
        on_execute env = None ->
        (forall c, In c (circles db) -> Circle.id c <> FollowedCreate.circle_id p) ->
        create_Followed p u env (open_session db)
        = (Raised (HTTPException 404 "circle not found"), open_session db))
  /\ (forall p u env,
        on_execute env = None ->
        (exists c, In c (circles db) /\ Circle.id c = FollowedCreate.circle_id p) ->
        (exists f, In f (followed db)
                   /\ follow_pair f = (User.id u, FollowedCreate.circle_id p)) ->
        create_Followed p u env (open_session db)
        = (Raised (HTTPException 409 "already joined"), open_session db))
  /\ (forall p u env f s',
        create_Followed p u env (open_session db) = (Returned f, s') ->
        Followed.user_id f = User.id u
        /\ follow_unique (committed s')
        /\ forall p' env',
            FollowedCreate.circle_id p' = FollowedCreate.circle_id p ->
            on_execute env' = None ->
            create_Followed p' u env' (open_session (committed s'))
            = (Raised (HTTPException 409 "already joined"), open_session (committed s'))).
Proof.
  intros db.
  destruct (run_requests_ok trace empty_db empty_db_ok) as [Hk Hu]. fold db in Hk, Hu.
  split; [exact Hu|]. split; [|split].
  - intros p u env Hex Hno. now apply create_Followed_no_circle.
  - intros p u env Hex (c & Hc & Hci) (f & Hf & Hfp).
    eapply create_Followed_duplicate; eauto.
  - intros p u env f s' Hrun.
    pose proof (step_effect db (CreateFollowed p u) env) as He.
    unfold step in He. simpl in He. unfold respond, bind, ret in He.
    rewrite Hrun in He. simpl in He.
    pose proof (effect_keys_ok _ _ _ He Hk) as Hk'.
    pose proof (effect_follow_unique _ _ _ He Hk Hu) as Hu'.
    apply create_Followed_returned in Hrun. destruct Hrun as (Hf & Hs & c & Hc & Hci).
    split; [rewrite Hf; reflexivity|]. split; [exact Hu'|].
    intros p' env' Hp' Hex'.
    apply (create_Followed_duplicate p' u env' (committed s') c f); auto.
    + rewrite Hs. simpl. exact Hc.
    + congruence.
    + rewrite Hs. simpl. apply in_or_app. right. left.
      rewrite Hf. reflexivity.
    + rewrite Hf, Hp'. reflexivity.
Qed.

(** C6 -- the acting user is the follower.  Two follow requests by the same
    acting user whose payloads differ at most in the client-supplied
    user_id run identically: same response and same session, in every
    session and whatever the persistence layer answers.  When a follow
    returns, the store is the former one with exactly one more Followed
    row, the returned one, and that row carries the acting user's id. *)
Theorem follow_ignores_payload_user_id (p1 p2 : FollowedCreate.t) (u : User.t)
        (env : Faults) (s : Session) :
  FollowedCreate.circle_id p1 = FollowedCreate.circle_id p2 ->
  FollowedCreate.date p1 = FollowedCreate.date p2 ->
  FollowedCreate.is_admin p1 = FollowedCreate.is_admin p2 ->
  create_Followed p1 u env s = create_Followed p2 u env s
  /\ app_step (committed s) (CreateFollowed p1 u) env
     = app_step (committed s) (CreateFollowed p2 u) env
  /\ (forall f s', create_Followed p1 u env (open_session (committed s)) = (Returned f, s') ->
                   Followed.user_id f = User.id u
                   /\ committed s' = insert_followed f (committed s)
                   /\ followed (committed s') = followed (committed s) ++ [f]
                   /\ snd (app_step (committed s) (CreateFollowed p2 u) env) = committed s').
Proof.
  intros Hc Hd Ha.
  destruct p1 as [u1 c1 d1 a1], p2 as [u2 c2 d2 a2]. simpl in *. subst.
  assert (E : forall s0, create_Followed (FollowedCreate.mk u1 c2 d2 a2) u env s0
                         = create_Followed (FollowedCreate.mk u2 c2 d2 a2) u env s0)
    by reflexivity.
  split; [apply E|]. split.
  - unfold step. simpl. unfold respond, bind. now rewrite E.
  - intros f s' Hrun.
    assert (Hstep : snd (app_step (committed s)
                                  (CreateFollowed (FollowedCreate.mk u2 c2 d2 a2) u) env)
                    = committed s').
    { unfold step. simpl. unfold respond, bind, ret. rewrite <- E, Hrun. reflexivity. }
    apply create_Followed_returned in Hrun.
    destruct Hrun as (Hf & Hs & _).
    split; [rewrite Hf; reflexivity|]. split; [exact Hs|].
    split; [rewrite Hs, Hf; reflexivity|exact Hstep].
Qed.

(* ------------------------------------------------------------------ *)
(** *** Updates *)

Lemma update_user_not_found (i : Z) (p : UserUpdate.t) (env : Faults) (db : DB) :
  on_execute env = None ->
  find (fun r => User.id r =? i) (users db) = None ->
  update_user hash_pw i p env (open_session db)
  = (Raised (HTTPException 404 "Cannot find the user"), open_session db).
Proof.
  intros Hex Hf. unfold update_user. start_run env. simpl in Hex. subst ex. simpl.
  now rewrite Hf.
Qed.

Lemma update_user_commit_fails (i : Z) (p : UserUpdate.t) (env : Faults) (db : DB)
      (user : User.t) (f : fault) :
  on_execute env = None -> on_commit env = Some f ->
  find (fun r => User.id r =? i) (users db) = Some user ->
  UserUpdate.model_dump_exclude_unset p <> [] ->
  update_user hash_pw i p env (open_session db)
  = (Raised (match f with
             | FIntegrity _ _ => HTTPException 409 "email or login_id is already exist"
             | FOther msg => HTTPException 500 ("User update failed: " ++ msg)%string
             end),
     open_session db).
Proof.
  intros Hex Hcm Hf Hne. unfold update_user. start_run env. simpl in Hex, Hcm. subst ex cm.
  simpl. rewrite Hf.
  destruct (UserUpdate.model_dump_exclude_unset p); [congruence|].
  destruct f; reflexivity.
Qed.

Lemma update_circle_not_found (i : Z) (p : CircleUpdate.t) (env : Faults) (db : DB) :
  on_execute env = None ->
  find (fun r => Circle.id r =? i) (circles db) = None ->
  update_circle i p env (open_session db)
  = (Raised (HTTPException 404 "circle not found"), open_session db).
Proof.
  intros Hex Hf. unfold update_circle. start_run env. simpl in Hex. subst ex. simpl.
  now rewrite Hf.
Qed.

Lemma update_circle_commit_fails (i : Z) (p : CircleUpdate.t) (env : Faults) (db : DB)
      (row : Circle.t) (f : fault) :
  on_execute env = None -> on_commit env = Some f ->
  find (fun r => Circle.id r =? i) (circles db) = Some row ->
  update_circle i p env (open_session db)
  = (Raised (match f with
             | FIntegrity _ _ => HTTPException 409 "circle name already exists"
             | FOther msg => HTTPException 500 ("cannot update circle: " ++ msg)%string
             end),
     open_session db).
Proof.
  intros Hex Hcm Hf. unfold update_circle. start_run env. simpl in Hex, Hcm. subst ex cm.
  simpl. rewrite Hf. destruct f; reflexivity.
Qed.

(** The circle of the path is found by [_ensure_circle_exists]. *)
Definition circle_found (db : DB) (cid : Z) : Prop :=
  exists c, filter (fun r => Circle.id r =? cid) (circles db) = [c] /\ Circle.id c <> 0.

Lemma circle_found_of_keys (db : DB) (c : Circle.t) :
  keys_ok db -> In c (circles db) -> circle_found db (Circle.id c).
Proof.
  intros Hk Hin. exists c. split.
  - apply (filter_unique Circle.id _ (circles db) c); auto.
    + apply (circle_keys_nodup db Hk).
    + intros y _. apply Z.eqb_eq.
  - pose proof (circle_keys db Hk) as Hb. rewrite Forall_forall in Hb.
    specialize (Hb _ (in_map Circle.id _ _ Hin)). lia.
Qed.

Lemma update_circle_news_not_found (c n : Z) (p : CircleNewsCreate.t) (env : Faults) (db : DB) :
  on_execute env = None ->
  (filter (fun r => Circle.id r =? c) (circles db) = []
   -> update_circle_news c n p env (open_session db)
      = (Raised (HTTPException 404 "circle not found"), open_session db))
  /\ (circle_found db c -> select_circle_news c n db = []
      -> update_circle_news c n p env (open_session db)
         = (Raised (HTTPException 404 "circle_news not found"), open_session db)).
Proof.
  intros Hex. unfold update_circle_news, _ensure_circle_exists.
  start_run env. simpl in Hex. subst ex. simpl. split.
  - intros Hf. now rewrite Hf.
  - intros (x & Hf & Hnz) Hs. rewrite Hf. simpl.
    apply Z.eqb_neq in Hnz. rewrite Hnz. simpl. now rewrite Hs.
Qed.

Lemma update_circle_news_commit_fails (c n : Z) (p : CircleNewsCreate.t) (env : Faults)
      (db : DB) (row : CircleNews.t) (f : fault) :
  on_execute env = None -> on_commit env = Some f ->
  circle_found db c -> select_circle_news c n db = [row] ->
  update_circle_news c n p env (open_session db)
  = (Raised (match f with
             | FIntegrity _ orig => HTTPException 400 ("integrity error: " ++ orig)%string
             | FOther msg => HTTPException 400 ("cannot update circle_news: " ++ msg)%string
             end),
     open_session db).
Proof.
  intros Hex Hcm (x & Hf & Hnz) Hs. unfold update_circle_news, _ensure_circle_exists.
  start_run env. simpl in Hex, Hcm. subst ex cm. simpl.
  rewrite Hf. simpl. apply Z.eqb_neq in Hnz. rewrite Hnz. simpl. rewrite Hs. simpl.
  destruct f; reflexivity.
Qed.

(** C7 (amended) -- failures of the three updates.  With the lookups
    answered: an unknown id raises 404 in [update_user], [update_circle]
    and [update_circle_news]; a commit that fails is rolled back in all
    three, the session ending as it was opened; an integrity violation at
    commit raises 409 in [update_user] and [update_circle], and 400 in
    [update_circle_news]. *)
Theorem update_failures (env : Faults) (db : DB) :
  on_execute env = None ->
  (* users *)
  (forall i p,
      find (fun r => User.id r =? i) (users db) = None ->
      update_user hash_pw i p env (open_session db)
      = (Raised (HTTPException 404 "Cannot find the user"), open_session db))
  /\ (forall i p user f,
         on_commit env = Some f ->
         find (fun r => User.id r =? i) (users db) = Some user ->
         UserUpdate.model_dump_exclude_unset p <> [] ->
         snd (update_user hash_pw i p env (open_session db)) = open_session db
         /\ forall msg orig, f = FIntegrity msg orig ->
              fst (update_user hash_pw i p env (open_session db))
              = Raised (HTTPException 409 "email or login_id is already exist"))
  (* circles *)
  /\ (forall i p,
         find (fun r => Circle.id r =? i) (circles db) = None ->
         update_circle i p env (open_session db)
         = (Raised (HTTPException 404 "circle not found"), open_session db))
  /\ (forall i p row f,
         on_commit env = Some f ->
         find (fun r => Circle.id r =? i) (circles db) = Some row ->
         snd (update_circle i p env (open_session db)) = open_session db
         /\ forall msg orig, f = FIntegrity msg orig ->
              fst (update_circle i p env (open_session db))
              = Raised (HTTPException 409 "circle name already exists"))
  (* circle news *)
  /\ (forall c n p,
         filter (fun r => Circle.id r =? c) (circles db) = [] ->
         update_circle_news c n p env (open_session db)
         = (Raised (HTTPException 404 "circle not found"), open_session db))
  /\ (forall c n p,
         circle_found db c -> select_circle_news c n db = [] ->
         update_circle_news c n p env (open_session db)
         = (Raised (HTTPException 404 "circle_news not found"), open_session db))
  /\ (forall c n p row f,
         on_commit env = Some f ->
         circle_found db c -> select_circle_news c n db = [row] ->
         snd (update_circle_news c n p env (open_session db)) = open_session db
         /\ forall msg orig, f = FIntegrity msg orig ->
              fst (update_circle_news c n p env (open_session db))
              = Raised (HTTPException 400 ("integrity error: " ++ orig)%string)).
Proof.
  intros Hex. repeat split.
  - intros. now apply update_user_not_found.
  - now rewrite (update_user_commit_fails i p env db user f).
  - intros msg orig ->. now rewrite (update_user_commit_fails i p env db user _ Hex H).
  - intros. now apply update_circle_not_found.
  - now rewrite (update_circle_commit_fails i p env db row f).
  - intros msg orig ->. now rewrite (update_circle_commit_fails i p env db row _ Hex H).
  - intros. now apply update_circle_news_not_found.
  - intros. now apply update_circle_news_not_found.
  - now rewrite (update_circle_news_commit_fails c n p env db row f).
  - intros msg orig ->.
    now rewrite (update_circle_news_commit_fails c n p env db row _ Hex H).
Qed.

Lemma update_circle_news_returned (c n : Z) (p : CircleNewsCreate.t) (env : Faults) (db : DB)
      (row' : CircleNews.t) (s' : Session) :
  update_circle_news c n p env (open_session db) = (Returned row', s') ->
  exists row,
    select_circle_news c n db = [row]
    /\ row' = updated_news p row
    /\ committed s' = replace_circle_news row' db.
Proof.
  unfold update_circle_news, _ensure_circle_exists. start_run env.
  destruct ex as [[? ?|?]|]; simpl; try discriminate.
  destruct (map Circle.id _) as [|x [|y l]]; simpl; try discriminate.
  destruct (x =? 0); simpl; try discriminate.
  destruct (select_circle_news c n db) as [|row [|r2 rows]] eqn:Es; simpl; try discriminate.
  rewrite !replace_circle_news_twice by reflexivity.
  fold (updated_news p row).
  repeat break_fault; try discriminate.
  intros H. inversion H; subst. exists row. auto.
Qed.

(** C8 (amended) -- full update of a news item.  A CircleNews update that
    returns has stored, under the item's id and circle, a row whose title,
    date, content and has_photo are those of the validated payload: the
    value the request supplies, and the schema default (content null,
    has_photo false) for a field it leaves out.  The store is the former
    one with that row written over the row of that id: the old row is
    gone, and rows with another id are kept as they were. *)
Theorem update_circle_news_overwrites (c n : Z) (b : CircleNewsCreate.body) (env : Faults)
        (db : DB) (row' : CircleNews.t) (s' : Session) :
  update_circle_news c n (CircleNewsCreate.validate b) env (open_session db)
  = (Returned row', s') ->
  In row' (circle_news (committed s'))
  /\ CircleNews.id row' = n
  /\ CircleNews.circle_id row' = c
  /\ CircleNews.title row' = CircleNewsCreate.b_title b
  /\ CircleNews.date row' = CircleNewsCreate.b_date b
  /\ CircleNews.content row'
     = match CircleNewsCreate.b_content b with Some v => v | None => None end
  /\ CircleNews.has_photo row'
     = match CircleNewsCreate.b_has_photo b with Some v => v | None => false end
  /\ (forall r, In r (circle_news db) -> CircleNews.id r <> n ->
                In r (circle_news (committed s')))
  /\ committed s' = replace_circle_news row' db
  /\ circle_news (committed s')
     = map (fun r => if CircleNews.id r =? n then row' else r) (circle_news db)
  /\ (forall r, In r (circle_news (committed s')) -> CircleNews.id r = n -> r = row').
Proof.
  intros H. apply update_circle_news_returned in H.
  destruct H as (row & Hsel & Hrow & Hs).
  assert (Hin : In row (select_circle_news c n db)) by (rewrite Hsel; now left).
  apply filter_In in Hin. destruct Hin as [Hin Hk].
  apply andb_true_iff in Hk. destruct Hk as [Hc Hn].
  apply Z.eqb_eq in Hc. apply Z.eqb_eq in Hn.
  assert (Hid : CircleNews.id row' = n) by (rewrite Hrow; exact Hn).
  assert (Hrows : circle_news (committed s')
                  = map (fun r => if CircleNews.id r =? n then row' else r) (circle_news db)).
  { rewrite Hs. unfold replace_circle_news. cbn [circle_news]. now rewrite Hid. }
  split.
  - rewrite Hrows. apply in_map_iff. exists row. split; [|exact Hin].
    rewrite Hn, Z.eqb_refl. reflexivity.
  - split; [exact Hid|].
    split; [rewrite Hrow; exact Hc|].
    split; [rewrite Hrow; reflexivity|].
    split; [rewrite Hrow; reflexivity|].
    split; [rewrite Hrow; reflexivity|].
    split; [rewrite Hrow; reflexivity|].
    split.
    { intros r Hr Hne. rewrite Hrows. apply in_map_iff. exists r. split; [|exact Hr].
      apply Z.eqb_neq in Hne. now rewrite Hne. }
    split; [exact Hs|]. split; [exact Hrows|].
    intros r Hr Hrn. rewrite Hrows in Hr. apply in_map_iff in Hr.
    destruct Hr as (r0 & Hr0 & _).
    destruct (CircleNews.id r0 =? n) eqn:E; [now symmetry|].
    subst r0. apply Z.eqb_neq in E. contradiction.
Qed.

(* ------------------------------------------------------------------ *)
(** *** News rows and their circle *)

(** Every CircleNews row names the id of a stored Circle. *)
Definition news_refer_to_circles (d : DB) : Prop :=
  forall n, In n (circle_news d) ->
            exists c, In c (circles d) /\ Circle.id c = CircleNews.circle_id n.

(** What the two handlers that could break the reference do not check
    themselves: [create_news] that the circle of the request exists,
    [delete_circle] that no news row names the circle. *)
Definition keeps_reference (db : DB) (req : Request) : Prop :=
  match req with
  | CreateNews c _ => exists circle, In circle (circles db) /\ Circle.id circle = c
  | DeleteCircle i => forall n, In n (circle_news db) -> CircleNews.circle_id n <> i
  | _ => True
  end.

Lemma effect_news_reference (db db' : DB) (req : Request) :
  effect db req db' ->
  news_refer_to_circles db -> keeps_reference db req -> news_refer_to_circles db'.
Proof.
  unfold news_refer_to_circles.
  intros He. destruct He; simpl; intros Hinv Hg; try exact Hinv.
  - (* insert_circle *)
    intros n Hn. destruct (Hinv n Hn) as (x & Hx & Hid).
    exists x. split; [apply in_or_app; now left|exact Hid].
  - (* replace_circle *)
    intros n Hn. destruct (Hinv n Hn) as (x & Hx & Hid).
    exists (if Circle.id x =? Circle.id c then c else x). split.
    + apply in_map_iff. exists x. auto.
    + destruct (Circle.id x =? Circle.id c) eqn:E; [|exact Hid].
      apply Z.eqb_eq in E. congruence.
  - (* remove_circle *)
    intros n Hn. destruct (Hinv n Hn) as (x & Hx & Hid).
    exists x. split; [|exact Hid]. apply filter_In. split; [exact Hx|].
    apply negb_true_iff, Z.eqb_neq. rewrite Hid. now apply Hg.
  - (* create_news *)
    rewrite insert_all_user_schedules_spec. simpl.
    intros n Hn. apply in_app_or in Hn. destruct Hn as [Hn|[Hn|[]]]; [now apply Hinv|].
    subst n. rewrite H0. simpl. destruct Hg as (circle & Hc & Hid).
    exists circle. split; [exact Hc|congruence].
  - (* replace_circle_news *)
    intros n0 Hn. apply in_map_iff in Hn. destruct Hn as (r & Hr & Hin). subst n0.
    assert (Hrow : In row (select_circle_news c n db)) by (rewrite H; now left).
    apply filter_In in Hrow. destruct Hrow as [Hrow _].
    match goal with |- context [if ?b then _ else _] => destruct b end.
    + change (CircleNews.circle_id (updated_news p row)) with (CircleNews.circle_id row).
      now apply Hinv.
    + now apply Hinv.
  - (* remove_circle_news *)
    intros n0 Hn. apply filter_In in Hn. destruct Hn as [Hn _]. now apply Hinv.
Qed.

(** C4 (amended) -- news rows name a stored circle.  A request preserves
    that each CircleNews row names the id of a stored Circle whenever the
    persistence layer refuses its commit, and otherwise whenever it is not
    a CircleNews create for a circle that does not exist nor a Circle
    delete of a circle that a news row names: the handlers make neither
    check themselves. *)
Theorem news_reference_preserved (db : DB) (req : Request) (env : Faults) :
  news_refer_to_circles db ->
  keeps_reference db req \/ on_commit env <> None ->
  news_refer_to_circles (snd (app_step db req env)).
Proof.
  intros Hinv [Hg|Hrefused].
  - eapply effect_news_reference; eauto using step_effect.
  - destruct (step_commit db req env) as [Hsame|Hok]; [|contradiction].
    now rewrite Hsame.
Qed.

(* ------------------------------------------------------------------ *)
(** *** Sorting the user list *)

Lemma map_get_unknown (key : string) :
  key <> "id" -> key <> "name" -> key <> "created_at" ->
  map_get sort_map key User_id = User_id.
Proof.
  intros H1 H2 H3. unfold sort_map. cbn [map_get].
  assert (E1 : String.eqb "id" key = false) by (apply String.eqb_neq; congruence).
  assert (E2 : String.eqb "name" key = false) by (apply String.eqb_neq; congruence).
  assert (E3 : String.eqb "created_at" key = false) by (apply String.eqb_neq; congruence).
  now rewrite E1, E2, E3.
Qed.

(** C10 -- unrecognised sort field.  When the sort parameter, after an
    optional leading '-', is none of id, name, created_at, the statement of
    the user list orders by id, descending exactly when the parameter
    starts with '-': it is the statement built for "-id" resp. "id", so the
    handler behaves as for that parameter, and it raises nothing of its
    own: when the query is answered the rows are returned. *)
Theorem list_user_unknown_sort (size : Z) (search : option string) (sort : string)
        (env : Faults) (s : Session) :
  let desc := startswith "-" sort in
  let key := if desc then drop_first sort else sort in
  key <> "id" -> key <> "name" -> key <> "created_at" ->
  let as_id := if desc then "-id" else "id" in
  sel_order_by (list_user_stmt str_strip str_lower size search sort) = User_id
  /\ sel_desc (list_user_stmt str_strip str_lower size search sort) = desc
  /\ list_user_stmt str_strip str_lower size search sort
     = list_user_stmt str_strip str_lower size search as_id
  /\ list_user str_strip str_lower run_select size search sort env s
     = list_user str_strip str_lower run_select size search as_id env s
  /\ (on_execute env = None ->
      list_user str_strip str_lower run_select size search sort env s
      = (Returned (run_select (list_user_stmt str_strip str_lower size search as_id) (txn s)),
         s)).
Proof.
  intros desc key H1 H2 H3 as_id.
  assert (Hstmt : list_user_stmt str_strip str_lower size search sort
                  = list_user_stmt str_strip str_lower size search as_id).
  { unfold list_user_stmt. fold desc. fold key. rewrite (map_get_unknown key H1 H2 H3).
    unfold as_id. destruct desc; reflexivity. }
  assert (Hcol : list_user_stmt str_strip str_lower size search sort
                 = mkUserSelect (sel_like (list_user_stmt str_strip str_lower size search sort))
                                User_id desc size).
  { unfold list_user_stmt. fold desc. fold key. now rewrite (map_get_unknown key H1 H2 H3). }
  split; [now rewrite Hcol|]. split; [now rewrite Hcol|]. split; [exact Hstmt|].
  unfold list_user. rewrite Hstmt. split; [reflexivity|].
  intros Hex. unfold_monad. now rewrite Hex.
Qed.


End Application.

(* ================================================================== *)
(** ** Concrete runs *)

Definition hash_pw0 (s : string) : string := ("$hash$" ++ s)%string.
Definition strip0 (s : string) : string := s.
Definition lower0 (s : string) : string := s.

(** A database that answers the user list with the whole table. *)
Definition run_select0 (q : UserSelect) (d : DB) : list User.t := users d.

Definition step0 := step hash_pw0 strip0 lower0 run_select0.
Definition run0 := run_requests hash_pw0 strip0 lower0 run_select0.

Definition user7 : User.t :=
  User.mk 7 (Some "alice") (Some "alice@example.org") None (Some "alice01") (Some "$hash$secret1").
Definition user8 : User.t :=
  User.mk 8 (Some "bob") (Some "bob@example.org") None (Some "bobbob") (Some "$hash$secret2").

Definition news1 : CircleNews.t := news_of_payload 1 sample_news.

(** [sample_db] with two users and the news item of [sample_news], whose
    fan-out gave a schedule to each follower of circle 3. *)
Definition news_db : DB :=
  mkDB [user7; user8] [club3; club4] [alice_follow; bob_follow; carol_follow]
       [news1]
       [UserSchedule.mk 1 7 1 "meeting" 20250 20250 (Some "room 2");
        UserSchedule.mk 2 8 1 "meeting" 20250 20250 (Some "room 2")]
       10 5 4 2 3.

Lemma news_db_refers : news_refer_to_circles news_db.
Proof.
  intros n [<-|[]]. exists club3. split; [now left|reflexivity].
Qed.

(** C4, as stated, fails: deleting a circle that has news commits (when the
    persistence layer accepts it) and leaves the news row naming a circle
    that is gone. *)
Lemma delete_circle_orphans_news :
  news_refer_to_circles news_db
  /\ fst (step0 news_db (DeleteCircle 3) no_faults) = Returned RespNone
  /\ ~ news_refer_to_circles (snd (step0 news_db (DeleteCircle 3) no_faults)).
Proof.
  split; [exact news_db_refers|]. split; [reflexivity|].
  intros H. destruct (H news1 (or_introl eq_refl)) as (c & Hc & Hid).
  simpl in Hc. destruct Hc as [<-|[]]. discriminate Hid.
Qed.

Lemma news_reference_preserved_witness :
  news_refer_to_circles (snd (step0 news_db (CreateNews 3 sample_news) no_faults))
  /\ news_refer_to_circles (snd (step0 news_db (DeleteCircle 4) no_faults))
  /\ news_refer_to_circles (snd (step0 news_db (DeleteCircle 3) commit_conflict)).
Proof.
  split; [|split].
  - apply (news_reference_preserved hash_pw0 strip0 lower0 run_select0
             news_db (CreateNews 3 sample_news) no_faults news_db_refers).
    left. simpl. exists club3. split; [now left|reflexivity].
  - apply (news_reference_preserved hash_pw0 strip0 lower0 run_select0
             news_db (DeleteCircle 4) no_faults news_db_refers).
    left. simpl. intros n [<-|[]]. simpl. lia.
  - apply (news_reference_preserved hash_pw0 strip0 lower0 run_select0
             news_db (DeleteCircle 3) commit_conflict news_db_refers).
    right. simpl. discriminate.
Defined.

(** The trace that builds a club and lets user 7 follow it. *)
Definition chess_payload : CircleCreate.t :=
  CircleCreate.mk "chess" None None [] None None None.

Definition follow_trace : list (Request * Faults) :=
  [(CreateCircle chess_payload, no_faults);
   (CreateFollowed (FollowedCreate.mk 999 1 None false) user7, no_faults)].

Lemma follow_at_most_once_witness :
  let db := run0 empty_db follow_trace in
  follow_unique db
  /\ create_Followed (FollowedCreate.mk 7 99 None false) user7 no_faults (open_session db)
     = (Raised (HTTPException 404 "circle not found"), open_session db)
  /\ create_Followed (FollowedCreate.mk 7 1 None false) user7 no_faults (open_session db)
     = (Raised (HTTPException 409 "already joined"), open_session db)
  /\ (let s' := snd (create_Followed (FollowedCreate.mk 8 1 None false) user8 no_faults
                                      (open_session db)) in
      create_Followed (FollowedCreate.mk 8 1 None true) user8 no_faults
                      (open_session (committed s'))
      = (Raised (HTTPException 409 "already joined"), open_session (committed s'))).
Proof.
  intros db.
  destruct (follow_at_most_once hash_pw0 strip0 lower0 run_select0 follow_trace)
    as (Hu & H404 & H409 & Hagain).
  split; [exact Hu|]. split; [|split].
  - apply (H404 (FollowedCreate.mk 7 99 None false) user7 no_faults eq_refl).
    intros c [<-|[]]. discriminate.
  - apply (H409 (FollowedCreate.mk 7 1 None false) user7 no_faults eq_refl).
    + eexists. split; [now left|reflexivity].
    + eexists. split; [now left|reflexivity].
  - destruct (Hagain (FollowedCreate.mk 8 1 None false) user8 no_faults
                     (Followed.mk 2 8 1 None false)
                     (snd (create_Followed (FollowedCreate.mk 8 1 None false) user8 no_faults
                                           (open_session db)))
                     eq_refl) as (_ & _ & H).
    exact (H (FollowedCreate.mk 8 1 None true) no_faults eq_refl eq_refl).
Defined.

Lemma follow_ignores_payload_user_id_witness :
  create_Followed (FollowedCreate.mk 999 4 None false) user7 no_faults (open_session news_db)
  = create_Followed (FollowedCreate.mk 7 4 None false) user7 no_faults (open_session news_db)
  /\ step0 news_db (CreateFollowed (FollowedCreate.mk 999 4 None false) user7) no_faults
     = step0 news_db (CreateFollowed (FollowedCreate.mk 7 4 None false) user7) no_faults
  /\ fst (create_Followed (FollowedCreate.mk 999 4 None false) user7 no_faults
                          (open_session news_db))
     = Returned (Followed.mk 4 7 4 None false)
  /\ followed (committed (snd (create_Followed (FollowedCreate.mk 999 4 None false) user7
                                               no_faults (open_session news_db))))
     = [alice_follow; bob_follow; carol_follow; Followed.mk 4 7 4 None false].
Proof.
  destruct (follow_ignores_payload_user_id hash_pw0 strip0 lower0 run_select0
              (FollowedCreate.mk 999 4 None false) (FollowedCreate.mk 7 4 None false)
              user7 no_faults (open_session news_db) eq_refl eq_refl eq_refl)
    as (H1 & H2 & H3).
  destruct (H3 (Followed.mk 4 7 4 None false)
               (snd (create_Followed (FollowedCreate.mk 999 4 None false) user7 no_faults
                                     (open_session news_db)))
               eq_refl) as (_ & _ & Hrows & _).
  split; [exact H1|]. split; [exact H2|]. split; [reflexivity|exact Hrows].
Defined.

Lemma news_db_circle_found : circle_found news_db 3.
Proof. exists club3. split; [reflexivity|discriminate]. Qed.

(** C7, as stated, fails for news items: an integrity violation at the
    commit of [update_circle_news] is answered with 400, not with 409. *)
Lemma update_circle_news_integrity_is_400 :
  fst (update_circle_news 3 1 sample_news commit_conflict (open_session news_db))
  = Raised (HTTPException 400 "integrity error: duplicate key")
  /\ ~ (exists detail,
          fst (update_circle_news 3 1 sample_news commit_conflict (open_session news_db))
          = Raised (HTTPException 409 detail)).
Proof.
  split; [reflexivity|]. intros (detail & H). discriminate H.
Qed.

Definition rename_user : UserUpdate.t :=
  UserUpdate.mk (Some (Some "alicia")) None None None None.

Definition rename_circle : CircleUpdate.t :=
  CircleUpdate.mk (Some (Some "go")) None None None None None None.

Lemma update_failures_witness :
  update_user hash_pw0 70 rename_user commit_conflict (open_session news_db)
  = (Raised (HTTPException 404 "Cannot find the user"), open_session news_db)
  /\ update_user hash_pw0 7 rename_user commit_conflict (open_session news_db)
     = (Raised (HTTPException 409 "email or login_id is already exist"),
        open_session news_db)
  /\ update_circle 30 rename_circle commit_conflict (open_session news_db)
     = (Raised (HTTPException 404 "circle not found"), open_session news_db)
  /\ update_circle 3 rename_circle commit_conflict (open_session news_db)
     = (Raised (HTTPException 409 "circle name already exists"), open_session news_db)
  /\ update_circle_news 3 10 sample_news commit_conflict (open_session news_db)
     = (Raised (HTTPException 404 "circle_news not found"), open_session news_db)
  /\ update_circle_news 3 1 sample_news commit_conflict (open_session news_db)
     = (Raised (HTTPException 400 "integrity error: duplicate key"), open_session news_db).
Proof.
  destruct (update_failures hash_pw0 commit_conflict news_db eq_refl)
    as (Hu404 & Hu & Hc404 & Hc & _ & Hn404 & Hn).
  split; [exact (Hu404 70 rename_user eq_refl)|].
  split.
  { destruct (Hu 7 rename_user user7 _ eq_refl eq_refl) as (Hs & Hr).
    - simpl. discriminate.
    - apply injective_projections; [exact (Hr _ _ eq_refl)|exact Hs]. }
  split; [exact (Hc404 30 rename_circle eq_refl)|].
  split.
  { destruct (Hc 3 rename_circle club3 _ eq_refl eq_refl) as (Hs & Hr).
    apply injective_projections; [exact (Hr _ _ eq_refl)|exact Hs]. }
  split; [exact (Hn404 3 10 sample_news news_db_circle_found eq_refl)|].
  destruct (Hn 3 1 sample_news news1 _ eq_refl news_db_circle_found eq_refl) as (Hs & Hr).
  apply injective_projections; [exact (Hr _ _ eq_refl)|exact Hs].
Defined.

(** A body that moves the meeting and supplies neither content, has_photo
    nor photo_url. *)
Definition move_meeting : CircleNewsCreate.body :=
  CircleNewsCreate.mk_body 3 "meeting (moved)" 20257 None None None.

(** C8, as stated, fails: a field the request leaves out is not left
    unchanged.  The stored content "room 2" is replaced by the default of
    the schema, null. *)
Lemma update_circle_news_resets_unsupplied :
  let r := update_circle_news 3 1 (CircleNewsCreate.validate move_meeting) no_faults
                              (open_session news_db) in
  CircleNewsCreate.b_content move_meeting = None
  /\ map CircleNews.content (circle_news news_db) = [Some "room 2"]
  /\ (exists row, fst r = Returned row)
  /\ map CircleNews.content (circle_news (committed (snd r))) = [None].
Proof.
  simpl. repeat split. eexists. reflexivity.
Qed.

Lemma update_circle_news_overwrites_witness :
  let r := update_circle_news 3 1 (CircleNewsCreate.validate move_meeting) no_faults
                              (open_session news_db) in
  let row := CircleNews.mk 1 3 "meeting (moved)" 20257 None false None in
  fst r = Returned row
  /\ In row (circle_news (committed (snd r)))
  /\ CircleNews.title row = "meeting (moved)"
  /\ CircleNews.content row = None
  /\ circle_news (committed (snd r)) = [row].
Proof.
  intros r row.
  destruct (update_circle_news_overwrites 3 1 move_meeting no_faults news_db row (snd r)
              eq_refl) as (Hin & _ & _ & Ht & _ & Hc & _ & _ & _ & Hrows & _).
  split; [reflexivity|]. split; [exact Hin|]. split; [exact Ht|]. split; [exact Hc|].
  exact Hrows.
Defined.

(** What [update_circle_news] does with the photo_url of the payload: the
    stored one stays. *)
Remark update_circle_news_keeps_photo_url (c n : Z) (p : CircleNewsCreate.t) (env : Faults)
       (db : DB) (row' : CircleNews.t) (s' : Session) :
  update_circle_news c n p env (open_session db) = (Returned row', s') ->
  exists row, select_circle_news c n db = [row]
              /\ CircleNews.photo_url row' = CircleNews.photo_url row.
Proof.
  intros H. apply update_circle_news_returned in H.
  destruct H as (row & Hsel & Hrow & _). exists row. split; [exact Hsel|].
  rewrite Hrow. reflexivity.
Qed.

(** C9 -- persistence failures that leave the handler unhandled.  A commit
    that fails in [delete_user] or [delete_Followed], and a commit that
    fails for another reason than integrity in [create_user], reaches the
    caller as the raw exception: no HTTPException is raised and no rollback
    is made, the session still holding the uncommitted change.  The sibling
    [delete_circle] catches the same failure, rolls back and raises 400. *)
Theorem persistence_failure_escapes :
  delete_user 7 commit_conflict (open_session news_db)
  = (Raised (IntegrityError "(IntegrityError) duplicate key" "duplicate key"),
     mkSession news_db (remove_user 7 news_db))
  /\ delete_Followed 3 user7 commit_broken (open_session news_db)
     = (Raised (DBAPIError "connection lost"),
        mkSession news_db (remove_followed 1 news_db))
  /\ (exists u,
        create_user hash_pw0
          (UserCreate.mk "carol" "carol@example.org" None "carol01" "secret3")
          commit_broken (open_session news_db)
        = (Raised (DBAPIError "connection lost"), mkSession news_db (insert_user u news_db)))
  /\ delete_circle 4 commit_conflict (open_session news_db)
     = (Raised (HTTPException 400 "cannot delete circle: (IntegrityError) duplicate key"),
        open_session news_db).
Proof.
  split; [reflexivity|]. split; [reflexivity|]. split; [|reflexivity].
  eexists. reflexivity.
Qed.

Lemma list_user_unknown_sort_witness :
  list_user_stmt strip0 lower0 20 None "-email" = mkUserSelect None User_id true 20
  /\ list_user strip0 lower0 run_select0 20 None "-email" no_faults (open_session news_db)
     = list_user strip0 lower0 run_select0 20 None "-id" no_faults (open_session news_db)
  /\ list_user strip0 lower0 run_select0 20 None "-email" no_faults (open_session news_db)
     = (Returned [user7; user8], open_session news_db).
Proof.
  destruct (list_user_unknown_sort strip0 lower0 run_select0 20 None "-email" no_faults
              (open_session news_db))
    as (_ & _ & _ & Hsame & Hret); try (simpl; discriminate).
  split; [reflexivity|]. split; [exact Hsame|exact (Hret eq_refl)].
Defined.

(* ================================================================== *)
(** * The remaining handlers and what the handlers keep *)

From Stdlib Require Import Sorting.Sorted Sorting.Permutation.

(* ================================================================== *)
(** ** ORDER BY and LIMIT *)

(** [ORDER BY]: rows are inserted one by one before the first row they
    may precede. *)
Fixpoint insert_by {A} (before : A -> A -> bool) (x : A) (l : list A) : list A :=
  match l with
  | [] => [x]
  | y :: rest => if before x y then x :: y :: rest else y :: insert_by before x rest
  end.

Definition order_by {A} (before : A -> A -> bool) (l : list A) : list A :=
  fold_right (insert_by before) [] l.

(** [LIMIT size] *)
Definition limit {A} (size : Z) (l : list A) : list A := firstn (Z.to_nat size) l.

Lemma insert_by_perm {A} (before : A -> A -> bool) (x : A) (l : list A) :
  Permutation (insert_by before x l) (x :: l).
Proof.
  induction l as [|y l IH]; simpl; [reflexivity|].
  destruct (before x y); [reflexivity|].
  rewrite IH. apply perm_swap.
Qed.

Lemma order_by_perm {A} (before : A -> A -> bool) (l : list A) :
  Permutation (order_by before l) l.
Proof.
  induction l as [|x l IH]; simpl; [reflexivity|].
  rewrite insert_by_perm. now constructor.
Qed.

Lemma order_by_In {A} (before : A -> A -> bool) (l : list A) (x : A) :
  In x (order_by before l) <-> In x l.
Proof.
  split; apply Permutation_in; [|symmetry]; apply order_by_perm.
Qed.

Section Ordered.

Context {A : Type} (before : A -> A -> bool).
Hypothesis before_total : forall a b, before a b = false -> before b a = true.
Hypothesis before_trans :
  forall a b c, before a b = true -> before b c = true -> before a c = true.

Lemma insert_by_sorted (x : A) (l : list A) :
  StronglySorted (fun a b => before a b = true) l ->
  StronglySorted (fun a b => before a b = true) (insert_by before x l).
Proof.
  induction l as [|y l IH]; simpl; intros Hs.
  - constructor; constructor.
  - inversion Hs as [|? ? Hl Hy]; subst.
    destruct (before x y) eqn:E.
    + constructor; [exact Hs|]. constructor; [exact E|].
      eapply Forall_impl; [|exact Hy]. intros z Hz. eapply before_trans; eauto.
    + constructor; [now apply IH|].
      apply Forall_forall. intros z Hz.
      apply (Permutation_in _ (insert_by_perm before x l)) in Hz.
      destruct Hz as [<-|Hz]; [now apply before_total|].
      rewrite Forall_forall in Hy. now apply Hy.
Qed.

Lemma order_by_sorted (l : list A) :
  StronglySorted (fun a b => before a b = true) (order_by before l).
Proof.
  induction l as [|x l IH]; simpl; [constructor|]. now apply insert_by_sorted.
Qed.

End Ordered.

Lemma firstn_In {A} (n : nat) (l : list A) (x : A) :
  In x (firstn n l) -> In x l.
Proof.
  intros H. rewrite <- (firstn_skipn n l). apply in_or_app. now left.
Qed.

Lemma firstn_sorted {A} (R : A -> A -> Prop) (n : nat) (l : list A) :
  StronglySorted R l -> StronglySorted R (firstn n l).
Proof.
  revert l. induction n as [|n IH]; intros l Hs; simpl; [constructor|].
  destruct l as [|x l]; [constructor|].
  inversion Hs as [|? ? Hl Hx]; subst. constructor; [now apply IH|].
  apply Forall_forall. intros y Hy. rewrite Forall_forall in Hx.
  apply Hx. eapply firstn_In; eauto.
Qed.

(* ================================================================== *)
(** ** The list handlers of [circle_news.py] and [followed.py] *)

(** [ORDER BY date DESC, id DESC]: newest date first, and on one day the
    larger id first. *)
Definition news_before (a b : CircleNews.t) : bool :=
  (CircleNews.date b <? CircleNews.date a)
  || ((CircleNews.date b =? CircleNews.date a) && (CircleNews.id b <=? CircleNews.id a)).

(** [ORDER BY id DESC] *)
Definition followed_before (a b : Followed.t) : bool :=
  Followed.id b <=? Followed.id a.

Section Listing.

(** Python's [str.strip] and the database's case-insensitive pattern
    match [value ILIKE pattern]. *)
Variable str_strip : string -> string.
Variable ilike : string -> string -> bool.

(** [or_(title.ilike(like), content.ilike(like))]; a NULL content does not
    match. *)
Definition news_ilike (like : string) (n : CircleNews.t) : bool :=
  ilike (CircleNews.title n) like
  || match CircleNews.content n with
     | Some c => ilike c like
     | None => false
     end.

(** The statement [list_circle_news] builds, read on a store. *)
Definition list_circle_news_stmt (circle_id size : Z) (search : option string)
           (date_from date_to : option Z) (db : DB) : list CircleNews.t :=
  let rows := filter (fun n => CircleNews.circle_id n =? circle_id) (circle_news db) in
  let rows :=
    if truthy_str search then
      match search with
      | Some x => filter (news_ilike ("%" ++ str_strip x ++ "%")%string) rows
      | None => rows
      end
    else rows in
  let rows :=
    match date_from with
    | Some d => filter (fun n => d <=? CircleNews.date n) rows
    | None => rows
    end in
  let rows :=
    match date_to with
    | Some d => filter (fun n => CircleNews.date n <=? d) rows
    | None => rows
    end in
  limit size (order_by news_before rows).

Definition list_circle_news (circle_id size : Z) (search : option string)
           (date_from date_to : option Z) : M (list CircleNews.t) :=
  _ensure_circle_exists circle_id ;;
  try_except
    (db_execute (list_circle_news_stmt circle_id size search date_from date_to))
    (fun e => raise (HTTPException 400 ("query failed: " ++ exn_str e)%string)).

End Listing.

Definition list_all_followed_circles : M (list Followed.t) :=
  db_execute (fun db => order_by followed_before (followed db)).

Definition list_my_followed_circles (current_user : User.t) : M (list Followed.t) :=
  db_execute (fun db =>
    order_by followed_before
      (filter (fun f => Followed.user_id f =? User.id current_user) (followed db))).

Lemma news_before_total (a b : CircleNews.t) :
  news_before a b = false -> news_before b a = true.
Proof.
  unfold news_before. intros H.
  apply orb_false_iff in H. destruct H as [H1 H2].
  apply andb_false_iff in H2. apply Z.ltb_ge in H1.
  apply orb_true_iff.
  destruct (Z.eq_dec (CircleNews.date a) (CircleNews.date b)) as [E|E].
  - right. rewrite E, Z.eqb_refl. simpl. apply Z.leb_le.
    destruct H2 as [H2|H2]; [apply Z.eqb_neq in H2; congruence|].
    apply Z.leb_gt in H2. lia.
  - left. apply Z.ltb_lt. lia.
Qed.

Lemma news_before_trans (a b c : CircleNews.t) :
  news_before a b = true -> news_before b c = true -> news_before a c = true.
Proof.
  unfold news_before. rewrite !orb_true_iff, !andb_true_iff, !Z.ltb_lt, !Z.eqb_eq, !Z.leb_le.
  intros [H1|[H1 H1']] [H2|[H2 H2']]; try (left; lia). right. split; lia.
Qed.

Lemma followed_before_total (a b : Followed.t) :
  followed_before a b = false -> followed_before b a = true.
Proof.
  unfold followed_before. rewrite Z.leb_gt, Z.leb_le. lia.
Qed.

Lemma followed_before_trans (a b c : Followed.t) :
  followed_before a b = true -> followed_before b c = true -> followed_before a c = true.
Proof.
  unfold followed_before. rewrite !Z.leb_le. lia.
Qed.

(* ================================================================== *)
(** ** Keys of every table in the reachable states *)

Section Coverage.

Variable hash_pw : string -> string.
Variable str_strip : string -> string.
Variable str_lower : string -> string.
Variable run_select : UserSelect -> DB -> list User.t.

Local Abbreviation the_step := (step hash_pw str_strip str_lower run_select).
Local Abbreviation the_run := (run_requests hash_pw str_strip str_lower run_select).

Ltac split_fault :=
  match goal with
  | |- context [match ?x with _ => _ end] =>
      is_var x;
      match type of x with
      | option fault => destruct x as [[? ?|?]|]; simpl
      end
  end.

Ltac run_on env :=
  unfold_monad; unfold open_session; destruct env as [ex fl cm rf]; simpl.

(** User, Followed and CircleNews keys are distinct, and user and news keys
    are positive and below the next key. *)
Record fresh_keys (d : DB) : Prop := mk_fresh_keys
  { user_keys : Forall (fun i => 0 < i < next_user_id d) (map User.id (users d));
    user_keys_nodup : NoDup (map User.id (users d));
    next_user_pos : 0 < next_user_id d;
    followed_keys_nodup : NoDup (map Followed.id (followed d));
    news_keys :
      Forall (fun i => 0 < i < next_circle_news_id d) (map CircleNews.id (circle_news d));
    news_keys_nodup : NoDup (map CircleNews.id (circle_news d));
    next_news_pos : 0 < next_circle_news_id d }.

Lemma replace_user_ids (u : User.t) (l : list User.t) :
  map User.id (map (fun r => if User.id r =? User.id u then u else r) l) = map User.id l.
Proof.
  rewrite map_map. apply map_ext. intros r.
  destruct (User.id r =? User.id u) eqn:E; [|reflexivity].
  apply Z.eqb_eq in E. now symmetry.
Qed.

Lemma replace_circle_news_ids (n : CircleNews.t) (l : list CircleNews.t) :
  map CircleNews.id (map (fun r => if CircleNews.id r =? CircleNews.id n then n else r) l)
  = map CircleNews.id l.
Proof.
  rewrite map_map. apply map_ext. intros r.
  destruct (CircleNews.id r =? CircleNews.id n) eqn:E; [|reflexivity].
  apply Z.eqb_eq in E. now symmetry.
Qed.

Lemma effect_fresh_keys (db db' : DB) (req : Request) :
  effect db req db' -> keys_ok db -> fresh_keys db -> fresh_keys db'.
Proof.
  intros He Hk [Hu Hun Hup Hfn Hn Hnn Hnp].
  destruct He; try (constructor; simpl; assumption).
  - (* insert_user *)
    constructor; simpl; rewrite ?map_app; simpl; try assumption; try lia.
    + apply Forall_app. split; [now apply Forall_below_weaken|].
      repeat constructor; lia.
    + now apply NoDup_snoc_fresh.
  - (* replace_user *)
    constructor; simpl; rewrite ?replace_user_ids; assumption.
  - (* remove_user *)
    constructor; simpl; try assumption.
    + now apply Forall_map_filter.
    + now apply NoDup_map_filter.
  - (* insert_followed *)
    constructor; simpl; rewrite ?map_app; simpl; try assumption.
    apply NoDup_snoc_fresh; [|assumption]. apply (followed_keys db Hk).
  - (* remove_followed *)
    constructor; simpl; try assumption. now apply NoDup_map_filter.
  - (* create_news *)
    rewrite insert_all_user_schedules_spec.
    constructor; simpl; rewrite ?map_app; simpl; try assumption; try lia.
    + apply Forall_app. split; [now apply Forall_below_weaken|].
      repeat constructor; lia.
    + now apply NoDup_snoc_fresh.
  - (* replace_circle_news *)
    constructor; unfold replace_circle_news;
      cbn [users followed circle_news next_user_id next_circle_news_id];
      rewrite ?replace_circle_news_ids; assumption.
  - (* remove_circle_news *)
    constructor; simpl; try assumption.
    + now apply Forall_map_filter.
    + now apply NoDup_map_filter.
Qed.

(** What every reachable state satisfies. *)
Definition sound (d : DB) : Prop := keys_ok d /\ follow_unique d /\ fresh_keys d.

Lemma empty_db_sound : sound empty_db.
Proof.
  destruct empty_db_ok as [Hk Hu]. split; [exact Hk|]. split; [exact Hu|].
  constructor; simpl; try constructor; lia.
Qed.

Lemma step_sound (db : DB) (req : Request) (env : Faults) :
  sound db -> sound (snd (the_step db req env)).
Proof.
  intros (Hk & Hu & Hf).
  pose proof (step_effect hash_pw str_strip str_lower run_select db req env) as He.
  split; [|split].
  - eapply effect_keys_ok; eauto.
  - eapply effect_follow_unique; eauto.
  - eapply effect_fresh_keys; eauto.
Qed.

Lemma run_sound (trace : list (Request * Faults)) :
  forall db, sound db -> sound (the_run db trace).
Proof.
  unfold run_requests.
  induction trace as [|[req env] trace IH]; intros db Hs; simpl; [exact Hs|].
  apply IH. now apply step_sound.
Qed.

Lemma reachable_sound (trace : list (Request * Faults)) :
  sound (the_run empty_db trace).
Proof. apply run_sound, empty_db_sound. Qed.

(* ------------------------------------------------------------------ *)
(** *** Which tables a handler writes *)

Inductive Table := T_users | T_circles | T_followed | T_circle_news | T_user_schedules.

(** The tables a request may change: those of its own resource, and for a
    news create the schedules of the fan-out. *)
Definition writes (req : Request) : list Table :=
  match req with
  | CreateUser _ | UpdateUser _ _ | DeleteUser _ => [T_users]
  | CreateCircle _ | UpdateCircle _ _ | DeleteCircle _ => [T_circles]
  | CreateFollowed _ _ | DeleteFollowed _ _ => [T_followed]
  | CreateNews _ _ => [T_circle_news; T_user_schedules]
  | UpdateNews _ _ _ | DeleteNews _ _ => [T_circle_news]
  | ListUser _ _ _ | GetUser _ | GetNews _ _ => []
  end.

Definition same_rows (t : Table) (a b : DB) : Prop :=
  match t with
  | T_users => users a = users b
  | T_circles => circles a = circles b
  | T_followed => followed a = followed b
  | T_circle_news => circle_news a = circle_news b
  | T_user_schedules => user_schedules a = user_schedules b
  end.

(** X1 -- no cascade.  A request changes no table but those of its own
    resource: deleting a user, a circle or a news item leaves every
    Followed, CircleNews and UserSchedule row that names it in place, and
    updating a news item leaves the schedules made from it as they were. *)
Theorem handlers_write_own_tables (db : DB) (req : Request) (env : Faults) (t : Table) :
  ~ In t (writes req) ->
  same_rows t (snd (the_step db req env)) db.
Proof.
  intros Hw.
  pose proof (step_effect hash_pw str_strip str_lower run_select db req env) as He.
  destruct He; try rewrite insert_all_user_schedules_spec;
    destruct t; simpl in *; try reflexivity; exfalso; apply Hw; tauto.
Qed.

(** X2 -- schedules are only ever added.  After any request the schedule
    table is the old one followed by new rows, and there are new rows only
    after a news create: no handler updates or deletes a UserSchedule. *)
Theorem schedules_append_only (db : DB) (req : Request) (env : Faults) :
  exists added,
    user_schedules (snd (the_step db req env)) = user_schedules db ++ added
    /\ ((forall c p, req <> CreateNews c p) -> added = []).
Proof.
  pose proof (step_effect hash_pw str_strip str_lower run_select db req env) as He.
  destruct He;
    try (exists []; simpl; rewrite app_nil_r; split; [reflexivity|intros _; reflexivity]).
  rewrite insert_all_user_schedules_spec. simpl. eexists. split; [reflexivity|].
  intros Hne. exfalso. now apply (Hne c p).
Qed.

(* ------------------------------------------------------------------ *)
(** *** Looking up the circle of a path *)

Lemma ensure_circle_exists_found (cid : Z) (env : Faults) (db : DB) :
  on_execute env = None -> circle_found db cid ->
  _ensure_circle_exists cid env (open_session db) = (Returned tt, open_session db).
Proof.
  intros Hex (c & Hf & Hnz). unfold _ensure_circle_exists. run_on env.
  simpl in Hex. subst ex. simpl. rewrite Hf. simpl.
  apply Z.eqb_neq in Hnz. now rewrite Hnz.
Qed.

Lemma ensure_circle_exists_missing (cid : Z) (env : Faults) (db : DB) :
  on_execute env = None ->
  (forall c, In c (circles db) -> Circle.id c <> cid) ->
  _ensure_circle_exists cid env (open_session db)
  = (Raised (HTTPException 404 "circle not found"), open_session db).
Proof.
  intros Hex Hno. unfold _ensure_circle_exists. run_on env.
  simpl in Hex. subst ex. simpl.
  rewrite filter_none; [reflexivity|].
  intros c Hc. apply Z.eqb_neq. now apply Hno.
Qed.

Lemma circle_found_iff (db : DB) (cid : Z) :
  keys_ok db ->
  circle_found db cid <-> exists c, In c (circles db) /\ Circle.id c = cid.
Proof.
  intros Hk. split.
  - intros (c & Hf & _). exists c.
    assert (Hin : In c (filter (fun r => Circle.id r =? cid) (circles db)))
      by (rewrite Hf; now left).
    apply filter_In in Hin. destruct Hin as [Hin E]. apply Z.eqb_eq in E. auto.
  - intros (c & Hin & <-). now apply circle_found_of_keys.
Qed.

(** X3 -- the circle lookup of the news handlers.  In every reachable
    state, with the query answered, [_ensure_circle_exists] returns exactly
    when a circle with the id is stored and raises 404 otherwise; it never
    changes the session. *)
Theorem ensure_circle_exists_spec (trace : list (Request * Faults)) (cid : Z) (env : Faults) :
  let db := the_run empty_db trace in
  on_execute env = None ->
  ((exists c, In c (circles db) /\ Circle.id c = cid) ->
   _ensure_circle_exists cid env (open_session db) = (Returned tt, open_session db))
  /\ ((forall c, In c (circles db) -> Circle.id c <> cid) ->
      _ensure_circle_exists cid env (open_session db)
      = (Raised (HTTPException 404 "circle not found"), open_session db)).
Proof.
  intros db Hex. destruct (reachable_sound trace) as (Hk & _). fold db in Hk.
  split.
  - intros Hc. apply ensure_circle_exists_found; [exact Hex|].
    now apply circle_found_iff.
  - intros Hno. now apply ensure_circle_exists_missing.
Qed.

(* ------------------------------------------------------------------ *)
(** *** Reading a news item *)

Lemma select_circle_news_In (c n : Z) (db : DB) (row : CircleNews.t) :
  In row (select_circle_news c n db) <->
  In row (circle_news db) /\ CircleNews.circle_id row = c /\ CircleNews.id row = n.
Proof.
  unfold select_circle_news. rewrite filter_In, andb_true_iff, !Z.eqb_eq. tauto.
Qed.

Lemma get_circle_news_found (c n : Z) (env : Faults) (db : DB) (row : CircleNews.t) :
  on_execute env = None -> circle_found db c ->
  select_circle_news c n db = [row] ->
  get_circle_news c n env (open_session db) = (Returned row, open_session db).
Proof.
  intros Hex (x & Hf & Hnz) Hs. unfold get_circle_news, _ensure_circle_exists. run_on env.
  simpl in Hex. subst ex. simpl. rewrite Hf. simpl.
  apply Z.eqb_neq in Hnz. rewrite Hnz. simpl. now rewrite Hs.
Qed.

Lemma get_circle_news_not_found (c n : Z) (env : Faults) (db : DB) :
  on_execute env = None -> circle_found db c ->
  select_circle_news c n db = [] ->
  get_circle_news c n env (open_session db)
  = (Raised (HTTPException 404 "circle_news not found"), open_session db).
Proof.
  intros Hex (x & Hf & Hnz) Hs. unfold get_circle_news, _ensure_circle_exists. run_on env.
  simpl in Hex. subst ex. simpl. rewrite Hf. simpl.
  apply Z.eqb_neq in Hnz. rewrite Hnz. simpl. now rewrite Hs.
Qed.

Lemma get_circle_news_no_circle (c n : Z) (env : Faults) (db : DB) :
  on_execute env = None ->
  (forall x, In x (circles db) -> Circle.id x <> c) ->
  get_circle_news c n env (open_session db)
  = (Raised (HTTPException 404 "circle not found"), open_session db).
Proof.
  intros Hex Hno. unfold get_circle_news.
  unfold bind at 1. now rewrite ensure_circle_exists_missing.
Qed.

Lemma get_circle_news_returned (c n : Z) (env : Faults) (db : DB)
      (row : CircleNews.t) (s' : Session) :
  get_circle_news c n env (open_session db) = (Returned row, s') ->
  s' = open_session db /\ select_circle_news c n db = [row].
Proof.
  unfold get_circle_news, _ensure_circle_exists. run_on env.
  destruct ex as [[? ?|?]|]; simpl; try discriminate.
  destruct (map Circle.id _) as [|x [|y l]]; simpl; try discriminate.
  destruct (x =? 0); simpl; try discriminate.
  destruct (select_circle_news c n db) as [|r [|r2 rows]]; simpl; try discriminate.
  intros H. inversion H; subst. auto.
Qed.

(** X4 -- a news item is read under its own circle only.  The row
    [get_circle_news] returns is a stored row with the news id and the
    circle id of the path, and the session is left as it was; with the
    circle found and no stored row carrying both ids (the item may exist
    under another circle) the handler raises 404. *)
Theorem get_circle_news_scoped (c n : Z) (env : Faults) (db : DB) :
  (forall row s',
      get_circle_news c n env (open_session db) = (Returned row, s') ->
      s' = open_session db
      /\ In row (circle_news db)
      /\ CircleNews.circle_id row = c
      /\ CircleNews.id row = n)
  /\ (on_execute env = None -> circle_found db c ->
      (forall row, In row (circle_news db) -> CircleNews.id row = n ->
                   CircleNews.circle_id row <> c) ->
      get_circle_news c n env (open_session db)
      = (Raised (HTTPException 404 "circle_news not found"), open_session db)).
Proof.
  split.
  - intros row s' H. apply get_circle_news_returned in H. destruct H as [Hs Hsel].
    split; [exact Hs|].
    apply select_circle_news_In. rewrite Hsel. now left.
  - intros Hex Hc Hno. apply get_circle_news_not_found; auto.
    unfold select_circle_news. apply filter_none. intros r Hr.
    apply andb_false_iff.
    destruct (CircleNews.id r =? n) eqn:En; [|now right].
    left. apply Z.eqb_neq. apply Z.eqb_eq in En. now apply Hno.
Qed.

Lemma circle_found_same_circles (a b : DB) (c : Z) :
  circles a = circles b -> circle_found b c -> circle_found a c.
Proof. unfold circle_found. now intros ->. Qed.

Lemma select_fresh_news (db : DB) (news : CircleNews.t) :
  fresh_keys db ->
  CircleNews.id news = next_circle_news_id db ->
  select_circle_news (CircleNews.circle_id news) (CircleNews.id news)
                     (insert_circle_news news db)
  = [news].
Proof.
  intros Hf Hid. unfold select_circle_news, insert_circle_news. simpl.
  rewrite filter_app. rewrite filter_none.
  - simpl. rewrite <- Hid.
    assert (E : CircleNews.with_id (CircleNews.id news) news = news) by (now destruct news).
    rewrite E, !Z.eqb_refl. reflexivity.
  - intros r Hr. apply andb_false_iff. right. apply Z.eqb_neq.
    pose proof (news_keys db Hf) as Hb. rewrite Forall_forall in Hb.
    specialize (Hb _ (in_map CircleNews.id _ _ Hr)). lia.
Qed.

(** X5 -- a created news item can be read back.  In every reachable state,
    when the circle of the request is stored and [create_news] returns a
    row, [get_circle_news] with that circle and the row's id returns the
    same row. *)
Theorem create_then_get_news (trace : list (Request * Faults)) (p : CircleNewsCreate.t)
        (env env' : Faults) (news : CircleNews.t) (s' : Session) :
  let db := the_run empty_db trace in
  (exists c, In c (circles db) /\ Circle.id c = CircleNewsCreate.circle_id p) ->
  create_news (CircleNewsCreate.circle_id p) p env (open_session db) = (Returned news, s') ->
  on_execute env' = None ->
  get_circle_news (CircleNewsCreate.circle_id p) (CircleNews.id news) env'
                  (open_session (committed s'))
  = (Returned news, open_session (committed s')).
Proof.
  intros db Hc Hrun Hex.
  destruct (reachable_sound trace) as (Hk & _ & Hf). fold db in Hk, Hf.
  apply create_news_run in Hrun. destruct Hrun as (_ & Hn & Hs).
  apply get_circle_news_found; [exact Hex| |].
  - apply (circle_found_same_circles _ db).
    + rewrite Hs, insert_all_user_schedules_spec. reflexivity.
    + now apply circle_found_iff.
  - rewrite Hs, insert_all_user_schedules_spec.
    assert (Hid : CircleNews.id news = next_circle_news_id db) by (rewrite Hn; reflexivity).
    assert (Hci : CircleNews.circle_id news = CircleNewsCreate.circle_id p)
      by (rewrite Hn; reflexivity).
    rewrite <- Hci.
    exact (select_fresh_news db news Hf Hid).
Qed.

(** X6 -- a news item made for a missing circle.  [create_news] does not
    look the circle up: with no circle of that id stored and the
    persistence layer accepting every call, the create returns and commits
    the row; reading, updating or deleting the item then raises 404
    "circle not found". *)
Theorem create_news_for_missing_circle (db : DB) (p : CircleNewsCreate.t) (env' : Faults) :
  (forall c, In c (circles db) -> Circle.id c <> CircleNewsCreate.circle_id p) ->
  on_execute env' = None ->
  exists news s',
    create_news (CircleNewsCreate.circle_id p) p no_faults (open_session db)
    = (Returned news, s')
    /\ In news (circle_news (committed s'))
    /\ get_circle_news (CircleNewsCreate.circle_id p) (CircleNews.id news) env'
                       (open_session (committed s'))
       = (Raised (HTTPException 404 "circle not found"), open_session (committed s'))
    /\ update_circle_news (CircleNewsCreate.circle_id p) (CircleNews.id news) p env'
                          (open_session (committed s'))
       = (Raised (HTTPException 404 "circle not found"), open_session (committed s'))
    /\ delete_circle_news (CircleNewsCreate.circle_id p) (CircleNews.id news) env'
                          (open_session (committed s'))
       = (Raised (HTTPException 404 "circle not found"), open_session (committed s')).
Proof.
  intros Hno Hex.
  destruct (create_news_returns db p) as (s' & Hrun).
  exists (news_of_payload (next_circle_news_id db) p), s'.
  split; [exact Hrun|].
  pose proof Hrun as Hrun'. apply create_news_run in Hrun'. destruct Hrun' as (_ & _ & Hs).
  assert (Hno' : forall c, In c (circles (committed s')) ->
                           Circle.id c <> CircleNewsCreate.circle_id p).
  { rewrite Hs, insert_all_user_schedules_spec. exact Hno. }
  split.
  { rewrite Hs, insert_all_user_schedules_spec. simpl. apply in_or_app. right. now left. }
  split; [now apply get_circle_news_no_circle|].
  split.
  - unfold update_circle_news. unfold bind at 1.
    now rewrite ensure_circle_exists_missing.
  - unfold delete_circle_news. unfold bind at 1.
    now rewrite ensure_circle_exists_missing.
Qed.

(* ------------------------------------------------------------------ *)
(** *** Deleting *)

Lemma delete_circle_news_returned (c n : Z) (env : Faults) (db : DB) (s' : Session) :
  delete_circle_news c n env (open_session db) = (Returned tt, s') ->
  circle_found db c
  /\ (exists row, select_circle_news c n db = [row])
  /\ committed s' = remove_circle_news n db.
Proof.
  unfold delete_circle_news, _ensure_circle_exists, circle_found. run_on env.
  destruct ex as [[? ?|?]|]; simpl; try discriminate.
  destruct (filter _ (circles db)) as [|x [|y l]] eqn:Ec; simpl; try discriminate.
  destruct (Circle.id x =? 0) eqn:Ez; simpl; try discriminate.
  destruct (select_circle_news c n db) as [|row [|r2 rows]] eqn:Es; simpl; try discriminate.
  assert (Hid : CircleNews.id row = n).
  { assert (Hin : In row (select_circle_news c n db)) by (rewrite Es; now left).
    apply select_circle_news_In in Hin. tauto. }
  rewrite Hid.
  repeat split_fault; try discriminate.
  intros H. inversion H; subst. simpl. apply Z.eqb_neq in Ez.
  split; [exists x; auto|]. split; [exists row; reflexivity|reflexivity].
Qed.

(** X7 -- a deleted news item is gone, the others stay.  When
    [delete_circle_news] returns, the store has lost every news row with
    that id and kept every other; a read of the item then raises 404. *)
Theorem delete_then_get_news (c n : Z) (env env' : Faults) (db : DB) (s' : Session) :
  delete_circle_news c n env (open_session db) = (Returned tt, s') ->
  (forall r, In r (circle_news (committed s')) <->
             In r (circle_news db) /\ CircleNews.id r <> n)
  /\ (on_execute env' = None ->
      get_circle_news c n env' (open_session (committed s'))
      = (Raised (HTTPException 404 "circle_news not found"), open_session (committed s'))).
Proof.
  intros H. apply delete_circle_news_returned in H. destruct H as (Hc & _ & Hs).
  rewrite Hs. split.
  - intros r. simpl. rewrite filter_In, negb_true_iff, Z.eqb_neq. tauto.
  - intros Hex. apply get_circle_news_not_found; [exact Hex| |].
    + now apply (circle_found_same_circles _ db).
    + unfold select_circle_news. simpl. apply filter_none. intros r Hr.
      apply filter_In in Hr. destruct Hr as [_ Hr]. apply negb_true_iff in Hr.
      rewrite Hr. apply andb_false_r.
Qed.

Lemma delete_user_returned (i : Z) (env : Faults) (db : DB) (s' : Session) :
  delete_user i env (open_session db) = (Returned tt, s') ->
  (exists u, find (fun r => User.id r =? i) (users db) = Some u)
  /\ committed s' = remove_user i db.
Proof.
  unfold delete_user. run_on env.
  destruct ex as [[? ?|?]|]; simpl; try discriminate.
  destruct (find _ _) as [row|] eqn:Ef; simpl; try discriminate.
  pose proof Ef as Ef'. apply find_some in Ef'. destruct Ef' as [_ Ei].
  apply Z.eqb_eq in Ei. rewrite Ei.
  repeat split_fault; try discriminate.
  intros H. inversion H; subst. simpl. eauto.
Qed.

Lemma find_none_iff {A} (keep : A -> bool) (l : list A) :
  find keep l = None <-> forall x, In x l -> keep x = false.
Proof.
  split; [apply find_none|].
  induction l as [|x l IH]; simpl; intros H; [reflexivity|].
  rewrite (H x (or_introl eq_refl)). apply IH. intros y Hy. apply H. now right.
Qed.

(** X8 -- a deleted user is gone, the others stay.  When [delete_user]
    returns, the store has lost the users with that id and kept every
    other user; [get_user] with the id then raises 404. *)
Theorem delete_then_get_user (i : Z) (env env' : Faults) (db : DB) (s' : Session) :
  delete_user i env (open_session db) = (Returned tt, s') ->
  (forall u, In u (users (committed s')) <-> In u (users db) /\ User.id u <> i)
  /\ (on_execute env' = None ->
      get_user i env' (open_session (committed s'))
      = (Raised (HTTPException 404 "Cannot find the user"), open_session (committed s'))).
Proof.
  intros H. apply delete_user_returned in H. destruct H as (_ & Hs). rewrite Hs. split.
  - intros u. simpl. rewrite filter_In, negb_true_iff, Z.eqb_neq. tauto.
  - intros Hex. unfold get_user. run_on env'. simpl in Hex. subst ex. simpl.
    assert (Hf : find (fun r => User.id r =? i)
                      (filter (fun r => negb (User.id r =? i)) (users db)) = None).
    { apply find_none_iff. intros x Hx. apply filter_In in Hx.
      destruct Hx as [_ Hx]. now apply negb_true_iff in Hx. }
    now rewrite Hf.
Qed.

Definition follows (u : User.t) (c : Z) (f : Followed.t) : bool :=
  (Followed.user_id f =? User.id u) && (Followed.circle_id f =? c).

Lemma delete_Followed_returned (c : Z) (u : User.t) (env : Faults) (db : DB) (s' : Session) :
  delete_Followed c u env (open_session db) = (Returned tt, s') ->
  exists row, filter (follows u c) (followed db) = [row]
              /\ committed s' = remove_followed (Followed.id row) db.
Proof.
  unfold delete_Followed. run_on env.
  destruct ex as [[? ?|?]|]; simpl; try discriminate.
  change (filter (fun f => (Followed.user_id f =? User.id u) && (Followed.circle_id f =? c))
                 (followed db))
    with (filter (follows u c) (followed db)).
  destruct (filter (follows u c) (followed db)) as [|row [|r2 rows]] eqn:Ef;
    simpl; try discriminate.
  repeat split_fault; try discriminate.
  intros H. inversion H; subst. simpl. eauto.
Qed.

Lemma NoDup_map_same {A B} (g : A -> B) (l : list A) (x y : A) :
  NoDup (map g l) -> In x l -> In y l -> g x = g y -> x = y.
Proof.
  induction l as [|a l IH]; simpl; intros Hnd Hx Hy E; [destruct Hx|].
  inversion Hnd as [|? ? Hnin Hnd']; subst.
  destruct Hx as [<-|Hx], Hy as [<-|Hy]; auto.
  - exfalso. apply Hnin. rewrite E. now apply in_map.
  - exfalso. apply Hnin. rewrite <- E. now apply in_map.
Qed.

(** X9 -- unfollowing removes the caller's membership and nothing else.
    In every reachable state, when [delete_Followed] returns, the Followed
    rows left are exactly the former rows other than the acting user's row
    for that circle: memberships of other users, and of the acting user in
    other circles, stay. *)
Theorem delete_Followed_exact (trace : list (Request * Faults)) (c : Z) (u : User.t)
        (env : Faults) (s' : Session) :
  let db := the_run empty_db trace in
  delete_Followed c u env (open_session db) = (Returned tt, s') ->
  forall f, In f (followed (committed s')) <->
            In f (followed db) /\ follow_pair f <> (User.id u, c).
Proof.
  intros db H f.
  destruct (reachable_sound trace) as (_ & _ & Hf). fold db in Hf.
  apply delete_Followed_returned in H. destruct H as (row & Hrow & Hs).
  rewrite Hs. simpl. rewrite filter_In, negb_true_iff, Z.eqb_neq.
  assert (Hin : In row (filter (follows u c) (followed db))) by (rewrite Hrow; now left).
  apply filter_In in Hin. destruct Hin as [Hin Hp].
  unfold follows in Hp. apply andb_true_iff in Hp. destruct Hp as [Hpu Hpc].
  apply Z.eqb_eq in Hpu. apply Z.eqb_eq in Hpc.
  split; intros [Hfin Hne]; (split; [exact Hfin|]).
  - intros Hpair. unfold follow_pair in Hpair. inversion Hpair as [[Hfu Hfc]].
    assert (Hff : In f (filter (follows u c) (followed db))).
    { apply filter_In. split; [exact Hfin|]. unfold follows.
      now rewrite Hfu, Hfc, !Z.eqb_refl. }
    rewrite Hrow in Hff. destruct Hff as [<-|[]]. now apply Hne.
  - intros Hid. apply Hne.
    assert (f = row).
    { apply (NoDup_map_same Followed.id (followed db)); auto.
      apply (followed_keys_nodup db Hf). }
    subst f. unfold follow_pair. now rewrite Hpu, Hpc.
Qed.

(** X10 -- deleting what is not there.  With the lookups answered, each
    delete handler raises 404 for a row that is not stored and leaves the
    session, and so the store, untouched: [delete_user] and [delete_circle]
    for an unknown id, [delete_circle_news] for an unknown circle or for a
    known circle without that item, [delete_Followed] when the acting user
    does not follow the circle. *)
Theorem delete_missing_is_404 (env : Faults) (db : DB) :
  on_execute env = None ->
  (forall i,
      (forall u, In u (users db) -> User.id u <> i) ->
      delete_user i env (open_session db)
      = (Raised (HTTPException 404 "Cannot find the user"), open_session db))
  /\ (forall i,
         (forall c, In c (circles db) -> Circle.id c <> i) ->
         delete_circle i env (open_session db)
         = (Raised (HTTPException 404 "circle not found"), open_session db))
  /\ (forall c n,
         (forall x, In x (circles db) -> Circle.id x <> c) ->
         delete_circle_news c n env (open_session db)
         = (Raised (HTTPException 404 "circle not found"), open_session db))
  /\ (forall c n,
         circle_found db c ->
         (forall r, In r (circle_news db) -> CircleNews.id r = n ->
                    CircleNews.circle_id r <> c) ->
         delete_circle_news c n env (open_session db)
         = (Raised (HTTPException 404 "circle_news not found"), open_session db))
  /\ (forall c u,
         (forall f, In f (followed db) -> follow_pair f <> (User.id u, c)) ->
         delete_Followed c u env (open_session db)
         = (Raised (HTTPException 404 "Followed relationship not found"), open_session db)).
Proof.
  intros Hex. split; [|split; [|split; [|split]]].
  - intros i Hno. unfold delete_user. run_on env. simpl in Hex. subst ex. simpl.
    assert (Hf : find (fun r => User.id r =? i) (users db) = None).
    { apply find_none_iff. intros x Hx. apply Z.eqb_neq. now apply Hno. }
    now rewrite Hf.
  - intros i Hno. unfold delete_circle. run_on env. simpl in Hex. subst ex. simpl.
    assert (Hf : find (fun r => Circle.id r =? i) (circles db) = None).
    { apply find_none_iff. intros x Hx. apply Z.eqb_neq. now apply Hno. }
    now rewrite Hf.
  - intros c n Hno. unfold delete_circle_news. unfold bind at 1.
    now rewrite ensure_circle_exists_missing.
  - intros c n Hc Hno. unfold delete_circle_news. unfold bind at 1.
    rewrite ensure_circle_exists_found by assumption.
    run_on env. simpl in Hex. subst ex. simpl.
    assert (Hs : select_circle_news c n db = []).
    { unfold select_circle_news. apply filter_none. intros r Hr.
      apply andb_false_iff.
      destruct (CircleNews.id r =? n) eqn:En; [|now right].
      left. apply Z.eqb_neq. apply Z.eqb_eq in En. now apply Hno. }
    now rewrite Hs.
  - intros c u Hno. unfold delete_Followed. run_on env. simpl in Hex. subst ex. simpl.
    rewrite filter_none; [reflexivity|].
    intros f Hf. apply andb_false_iff.
    destruct (Followed.user_id f =? User.id u) eqn:Eu; [|now left].
    right. apply Z.eqb_neq. intros Ec. apply Z.eqb_eq in Eu.
    apply (Hno f Hf). unfold follow_pair. now rewrite Eu, Ec.
Qed.

Lemma delete_circle_returned (i : Z) (env : Faults) (db : DB) (s' : Session) :
  delete_circle i env (open_session db) = (Returned tt, s') ->
  committed s' = remove_circle i db.
Proof.
  unfold delete_circle. run_on env.
  destruct ex as [[? ?|?]|]; simpl; try discriminate.
  destruct (find _ _) as [row|] eqn:Ef; simpl; try discriminate.
  apply find_some in Ef. destruct Ef as [_ Ei]. apply Z.eqb_eq in Ei. rewrite Ei.
  repeat split_fault; try discriminate.
  intros H. inversion H; subst. reflexivity.
Qed.

(** X11 -- after a circle is deleted.  When [delete_circle] returns, no
    circle with that id is stored any more, every other circle is, and
    with the lookups answered a follow of the circle and a read of any of
    its news items raise 404 "circle not found". *)
Theorem delete_circle_then_404 (i : Z) (env env' : Faults) (db : DB) (s' : Session) :
  delete_circle i env (open_session db) = (Returned tt, s') ->
  (forall c, In c (circles (committed s')) <-> In c (circles db) /\ Circle.id c <> i)
  /\ (on_execute env' = None ->
      (forall p u,
          FollowedCreate.circle_id p = i ->
          create_Followed p u env' (open_session (committed s'))
          = (Raised (HTTPException 404 "circle not found"), open_session (committed s')))
      /\ (forall n,
             get_circle_news i n env' (open_session (committed s'))
             = (Raised (HTTPException 404 "circle not found"),
                open_session (committed s')))).
Proof.
  intros H. apply delete_circle_returned in H.
  assert (Hin : forall c, In c (circles (committed s')) <->
                          In c (circles db) /\ Circle.id c <> i).
  { intros c. rewrite H. simpl. rewrite filter_In, negb_true_iff, Z.eqb_neq. tauto. }
  split; [exact Hin|]. intros Hex. split.
  - intros p u Hp. apply create_Followed_no_circle; [exact Hex|].
    intros c Hc. rewrite Hp. now apply Hin.
  - intros n. apply get_circle_news_no_circle; [exact Hex|].
    intros c Hc. now apply Hin.
Qed.

(** X12 -- a delete whose commit fails.  When the commit of
    [delete_circle] or of [delete_circle_news] fails, for whatever reason,
    the handler rolls back and raises 400 with the failure's text: the
    session ends as it was opened and the row is still stored. *)
Theorem delete_commit_failure_is_400 (env : Faults) (db : DB) (f : fault) :
  on_execute env = None -> on_commit env = Some f ->
  (forall i c,
      find (fun r => Circle.id r =? i) (circles db) = Some c ->
      delete_circle i env (open_session db)
      = (Raised (HTTPException 400
                   ("cannot delete circle: " ++ exn_str (exn_of_fault f))%string),
         open_session db))
  /\ (forall c n row,
         circle_found db c -> select_circle_news c n db = [row] ->
         delete_circle_news c n env (open_session db)
         = (Raised (HTTPException 400
                      ("cannot delete circle_news: " ++ exn_str (exn_of_fault f))%string),
            open_session db)).
Proof.
  intros Hex Hcm. split.
  - intros i c Hf. unfold delete_circle. run_on env. simpl in Hex, Hcm. subst ex cm.
    simpl. rewrite Hf. simpl. reflexivity.
  - intros c n row Hc Hs. unfold delete_circle_news. unfold bind at 1.
    rewrite ensure_circle_exists_found by assumption.
    run_on env. simpl in Hex, Hcm. subst ex cm. simpl. rewrite Hs. simpl. reflexivity.
Qed.

(* ------------------------------------------------------------------ *)
(** *** Users *)

Lemma dict_set_get (key : string) (d : dict) :
  truthy (dict_get key d) = true -> dict_set key (dict_get key d) d = d.
Proof.
  induction d as [|[k v] d IH]; simpl; [discriminate|].
  destruct (String.eqb k key) eqn:E; [reflexivity|].
  intros H. now rewrite IH.
Qed.

Lemma convert_if_set_py_str (key : string) (d : dict) :
  convert_if_set key py_str d = d.
Proof.
  unfold convert_if_set, py_str.
  destruct (truthy (dict_get key d)) eqn:E; [now apply dict_set_get|reflexivity].
Qed.

Lemma as_str_of_opt_str (o : option string) : as_str (of_opt_str o) = o.
Proof. now destruct o. Qed.

Lemma as_list_of_opt_list (o : option (list string)) : as_list (of_opt_list o) = o.
Proof. now destruct o. Qed.

(** The row [create_user] builds from a payload, once it has its key. *)
Definition user_of_payload (i : Z) (p : UserCreate.t) : User.t :=
  User.mk i (Some (UserCreate.name p)) (Some (UserCreate.email p)) (UserCreate.icon p)
          (Some (UserCreate.login_id p)) (Some (hash_pw (UserCreate.login_pass p))).

Lemma create_user_dict (p : UserCreate.t) :
  User_of_dict
    (dict_set "login_pass"
       (hash_pw_val hash_pw
          (dict_get "login_pass" (convert_if_set "icon" py_str (UserCreate.model_dump p))))
       (convert_if_set "icon" py_str (UserCreate.model_dump p)))
  = user_of_payload 0 p.
Proof.
  rewrite convert_if_set_py_str. destruct p as [n e ic li lp].
  unfold user_of_payload, User_of_dict. simpl. now rewrite as_str_of_opt_str.
Qed.

Lemma create_user_returned (p : UserCreate.t) (env : Faults) (db : DB)
      (u : User.t) (s' : Session) :
  create_user hash_pw p env (open_session db) = (Returned u, s') ->
  u = user_of_payload (next_user_id db) p /\ committed s' = insert_user u db.
Proof.
  unfold create_user. rewrite create_user_dict. run_on env.
  repeat split_fault; try discriminate.
  intros H. inversion H; subst. split; reflexivity.
Qed.

Lemma find_fresh_user (db : DB) (u : User.t) :
  fresh_keys db -> User.id u = next_user_id db ->
  find (fun r => User.id r =? User.id u) (users (insert_user u db)) = Some u.
Proof.
  intros Hf Hid. simpl.
  assert (Hnone : find (fun r => User.id r =? User.id u) (users db) = None).
  { apply find_none_iff. intros x Hx. apply Z.eqb_neq.
    pose proof (user_keys db Hf) as Hb. rewrite Forall_forall in Hb.
    specialize (Hb _ (in_map User.id _ _ Hx)). lia. }
  induction (users db) as [|x l IH]; simpl.
  - rewrite <- Hid.
    assert (E : User.with_id (User.id u) u = u) by (now destruct u).
    now rewrite E, Z.eqb_refl.
  - simpl in Hnone. destruct (User.id x =? User.id u); [discriminate|]. now apply IH.
Qed.

(** X13 -- a created user.  When [create_user] returns, the store has one
    more user: the returned row, which carries the payload's name, email,
    icon and login id, the next key of the table, and as password the hash
    of the payload's password (the plain text is not stored).  In every
    reachable state [get_user] with the returned id then returns that
    row. *)
Theorem create_user_stores_hashed (trace : list (Request * Faults)) (p : UserCreate.t)
        (env env' : Faults) (u : User.t) (s' : Session) :
  let db := the_run empty_db trace in
  create_user hash_pw p env (open_session db) = (Returned u, s') ->
  User.login_pass u = Some (hash_pw (UserCreate.login_pass p))
  /\ User.name u = Some (UserCreate.name p)
  /\ User.email u = Some (UserCreate.email p)
  /\ User.icon u = UserCreate.icon p
  /\ User.login_id u = Some (UserCreate.login_id p)
  /\ User.id u = next_user_id db
  /\ users (committed s') = users db ++ [u]
  /\ (on_execute env' = None ->
      get_user (User.id u) env' (open_session (committed s'))
      = (Returned u, open_session (committed s'))).
Proof.
  intros db H. destruct (reachable_sound trace) as (_ & _ & Hf). fold db in Hf.
  apply create_user_returned in H. destruct H as [Hu Hs].
  rewrite Hu at 1 2 3 4 5 6. simpl. repeat (split; [reflexivity|]).
  split.
  - rewrite Hs, Hu. reflexivity.
  - intros Hex. unfold get_user. run_on env'. simpl in Hex. subst ex. simpl.
    rewrite Hs. rewrite find_fresh_user; [reflexivity|exact Hf|now rewrite Hu].
Qed.

(** X14 -- a user create that conflicts.  When the commit of [create_user]
    fails with an integrity violation the handler raises 409 and has
    rolled back: the session ends as it was opened and no user is added. *)
Theorem create_user_conflict (p : UserCreate.t) (env : Faults) (db : DB) (msg orig : string) :
  on_commit env = Some (FIntegrity msg orig) ->
  create_user hash_pw p env (open_session db)
  = (Raised (HTTPException 409 "email or login id is already exist."), open_session db).
Proof.
  intros Hcm. unfold create_user. run_on env. simpl in Hcm. subst cm. reflexivity.
Qed.

(** A request that sets no field. *)
Definition nothing_set (p : UserUpdate.t) : Prop :=
  UserUpdate.name p = None /\ UserUpdate.email p = None /\ UserUpdate.icon p = None
  /\ UserUpdate.login_id p = None /\ UserUpdate.login_pass p = None.

(** X15 -- an update that sets nothing.  [update_user] with no field set
    returns the stored user without touching the session: nothing is
    committed, so the answer of the persistence layer to a commit does not
    matter. *)
Theorem update_user_nothing_set (i : Z) (p : UserUpdate.t) (env : Faults) (db : DB)
        (u : User.t) :
  on_execute env = None ->
  find (fun r => User.id r =? i) (users db) = Some u ->
  nothing_set p ->
  update_user hash_pw i p env (open_session db) = (Returned u, open_session db).
Proof.
  intros Hex Hf (Hn & He & Hi & Hl & Hp).
  destruct p as [n e ic li lp]. simpl in *. subst.
  unfold update_user. run_on env. simpl in Hex. subst ex. simpl. now rewrite Hf.
Qed.

(** A field of an update: the supplied value, or the stored one. *)
Definition supplied {A} (field : option A) (stored : A) : A :=
  match field with Some v => v | None => stored end.

(** The password [update_user] stores: the hash of a supplied non-empty
    password, a supplied null or empty value as it is, the stored hash
    when the field is not set. *)
Definition stored_password (field : option (option string)) (stored : option string)
  : option string :=
  match field with
  | None => stored
  | Some None => None
  | Some (Some pw) => if String.eqb pw "" then Some pw else Some (hash_pw pw)
  end.

(** X16 -- partial update of a user.  When [update_user] returns, the row
    it returns has the stored id, each of name, email, icon and login id
    as supplied or else as stored, and as password the hash of a supplied
    one or else the stored hash.  When the request set no field the store
    is unchanged and the row is the stored one; when it set a field the
    store is the former one with the returned row written over the row of
    that id. *)
Theorem update_user_partial (i : Z) (p : UserUpdate.t) (env : Faults) (db : DB)
        (u' : User.t) (s' : Session) :
  update_user hash_pw i p env (open_session db) = (Returned u', s') ->
  exists u,
    find (fun r => User.id r =? i) (users db) = Some u
    /\ User.id u' = User.id u
    /\ User.name u' = supplied (UserUpdate.name p) (User.name u)
    /\ User.email u' = supplied (UserUpdate.email p) (User.email u)
    /\ User.icon u' = supplied (UserUpdate.icon p) (User.icon u)
    /\ User.login_id u' = supplied (UserUpdate.login_id p) (User.login_id u)
    /\ User.login_pass u' = stored_password (UserUpdate.login_pass p) (User.login_pass u)
    /\ (nothing_set p -> u' = u /\ committed s' = db)
    /\ (~ nothing_set p ->
        committed s' = replace_user u' db
        /\ users (committed s')
           = map (fun r => if User.id r =? i then u' else r) (users db)).
Proof.
  unfold update_user. run_on env.
  destruct ex as [[? ?|?]|]; simpl; try discriminate.
  destruct (find _ _) as [u|] eqn:Ef; simpl; try discriminate.
  intros H. exists u. split; [reflexivity|]. revert H.
  assert (Hi : User.id u = i).
  { apply find_some in Ef. destruct Ef as [_ E]. now apply Z.eqb_eq in E. }
  clear Ef. subst i.
  rewrite convert_if_set_py_str.
  destruct u as [ui un ue uic uli ulp].
  destruct p as [n e ic li lp]. unfold nothing_set.
  destruct n as [n|], e as [e|], ic as [ic|], li as [li|], lp as [[[|ch lp]|]|];
    unfold UserUpdate.model_dump_exclude_unset, convert_if_set; simpl;
    repeat split_fault; try discriminate;
    intros H; inversion H; subst; simpl;
    rewrite ?as_str_of_opt_str;
    (split; [reflexivity|]); (split; [reflexivity|]); (split; [reflexivity|]);
    (split; [reflexivity|]); (split; [reflexivity|]); (split; [reflexivity|]);
    (split;
     [ intros (H1 & H2 & H3 & H4 & H5);
       first [discriminate H1 | discriminate H2 | discriminate H3
             | discriminate H4 | discriminate H5 | (split; reflexivity)]
     | intros Hset;
       first [(split; reflexivity) | (exfalso; apply Hset; repeat split)] ]).
Qed.

(* ------------------------------------------------------------------ *)
(** *** Circles *)

(** The row [create_circle] builds from a payload, once it has its key:
    the name is stripped. *)
Definition circle_of_payload (i : Z) (p : CircleCreate.t) : Circle.t :=
  Circle.mk i (Some (str_strip (CircleCreate.name p))) (CircleCreate.description p)
            (CircleCreate.image p) (Some (CircleCreate.tags p))
            (CircleCreate.sns_links_x p) (CircleCreate.sns_links_instagram p)
            (CircleCreate.sns_links_line p).

Lemma create_circle_dict (p : CircleCreate.t) :
  Circle_of_dict
    (convert_if_set "sns_links_line" py_str
       (convert_if_set "sns_links_instagram" py_str
          (convert_if_set "sns_links_x" py_str
             (convert_if_set "image" py_str
                (dict_set "name"
                   (strip_val str_strip (dict_get "name" (CircleCreate.model_dump p)))
                   (CircleCreate.model_dump p))))))
  = circle_of_payload 0 p.
Proof.
  rewrite !convert_if_set_py_str. destruct p as [n d im tg sx si sl].
  unfold circle_of_payload, Circle_of_dict. simpl. now rewrite !as_str_of_opt_str.
Qed.

Lemma create_circle_returned (p : CircleCreate.t) (env : Faults) (db : DB)
      (c : Circle.t) (s' : Session) :
  create_circle str_strip p env (open_session db) = (Returned c, s') ->
  c = circle_of_payload (next_circle_id db) p /\ committed s' = insert_circle c db.
Proof.
  unfold create_circle. rewrite create_circle_dict. run_on env.
  repeat split_fault; try discriminate.
  intros H. inversion H; subst. split; reflexivity.
Qed.

(** X17 -- a created circle.  When [create_circle] returns, the store has
    one more circle: the returned row, with the next key of the table, the
    payload's name stripped, and the payload's description, image, tags and
    links.  In every reachable state the circle is then found by the lookup
    of the news handlers. *)
Theorem create_circle_stores_stripped (trace : list (Request * Faults)) (p : CircleCreate.t)
        (env env' : Faults) (c : Circle.t) (s' : Session) :
  let db := the_run empty_db trace in
  create_circle str_strip p env (open_session db) = (Returned c, s') ->
  c = circle_of_payload (next_circle_id db) p
  /\ circles (committed s') = circles db ++ [c]
  /\ (on_execute env' = None ->
      _ensure_circle_exists (Circle.id c) env' (open_session (committed s'))
      = (Returned tt, open_session (committed s'))).
Proof.
  intros db H. destruct (reachable_sound trace) as (Hk & _). fold db in Hk.
  apply create_circle_returned in H. destruct H as [Hc Hs].
  split; [exact Hc|]. split; [rewrite Hs, Hc; reflexivity|].
  intros Hex. apply ensure_circle_exists_found; [exact Hex|].
  apply circle_found_of_keys.
  - rewrite Hs. eapply effect_keys_ok; [apply (eff_create_circle db p c)|exact Hk].
  - rewrite Hs. simpl. apply in_or_app. right. left. rewrite Hc. reflexivity.
Qed.

(** X18 -- a circle create whose commit fails.  An integrity violation at
    the commit of [create_circle] raises 409, any other failure raises 400
    with the failure's text; in both cases the handler has rolled back and
    no circle is added. *)
Theorem create_circle_commit_failure (p : CircleCreate.t) (env : Faults) (db : DB)
        (f : fault) :
  on_commit env = Some f ->
  create_circle str_strip p env (open_session db)
  = (Raised (match f with
             | FIntegrity _ _ => HTTPException 409 "circle name already exists"
             | FOther msg => HTTPException 400 ("cannot create circle: " ++ msg)%string
             end),
     open_session db).
Proof.
  intros Hcm. unfold create_circle. run_on env. simpl in Hcm. subst cm.
  destruct f; reflexivity.
Qed.

(** X19 -- partial update of a circle.  When [update_circle] returns, the
    row it returns has the stored id and each of name, description, image,
    tags and the three links as supplied or else as stored, and the store
    holds that row in place of the old one. *)
Theorem update_circle_partial (i : Z) (p : CircleUpdate.t) (env : Faults) (db : DB)
        (c' : Circle.t) (s' : Session) :
  update_circle i p env (open_session db) = (Returned c', s') ->
  exists c,
    find (fun r => Circle.id r =? i) (circles db) = Some c
    /\ Circle.id c' = Circle.id c
    /\ Circle.name c' = supplied (CircleUpdate.name p) (Circle.name c)
    /\ Circle.description c' = supplied (CircleUpdate.description p) (Circle.description c)
    /\ Circle.image c' = supplied (CircleUpdate.image p) (Circle.image c)
    /\ Circle.tags c' = supplied (CircleUpdate.tags p) (Circle.tags c)
    /\ Circle.sns_links_x c' = supplied (CircleUpdate.sns_links_x p) (Circle.sns_links_x c)
    /\ Circle.sns_links_instagram c'
       = supplied (CircleUpdate.sns_links_instagram p) (Circle.sns_links_instagram c)
    /\ Circle.sns_links_line c'
       = supplied (CircleUpdate.sns_links_line p) (Circle.sns_links_line c)
    /\ committed s' = replace_circle c' db.
Proof.
  unfold update_circle. run_on env.
  destruct ex as [[? ?|?]|]; simpl; try discriminate.
  destruct (find _ _) as [c|] eqn:Ef; simpl; try discriminate.
  intros H. exists c. split; [reflexivity|]. revert H.
  rewrite !convert_if_set_py_str.
  repeat split_fault; try discriminate.
  intros H. inversion H; subst; clear H. simpl.
  destruct c as [ci cn cd cim ctg cx cin cl].
  destruct p as [n d im tg sx si sl].
  destruct n as [n|], d as [d|], im as [im|], tg as [tg|], sx as [sx|], si as [si|],
           sl as [sl|];
    unfold CircleUpdate.model_dump_exclude_unset; simpl;
    rewrite ?as_str_of_opt_str, ?as_list_of_opt_list; repeat split; reflexivity.
Qed.

(* ------------------------------------------------------------------ *)
(** *** Follows *)

(** X20 -- the row of a follow.  When [create_Followed] returns, the store
    has one more Followed row: the returned one, with the next key of the
    table, the acting user's id, and the circle id, date and is_admin flag
    of the payload. *)
Theorem create_Followed_row (p : FollowedCreate.t) (u : User.t) (env : Faults) (db : DB)
        (f : Followed.t) (s' : Session) :
  create_Followed p u env (open_session db) = (Returned f, s') ->
  f = Followed.mk (next_followed_id db) (User.id u) (FollowedCreate.circle_id p)
                  (FollowedCreate.date p) (FollowedCreate.is_admin p)
  /\ followed (committed s') = followed db ++ [f].
Proof.
  intros H. apply create_Followed_returned in H. destruct H as (Hf & Hs & _).
  split; [exact Hf|]. rewrite Hs, Hf. reflexivity.
Qed.

(** X21 -- a follow whose commit fails.  With the circle found and no
    membership of the acting user in it, a commit of [create_Followed]
    that fails with an integrity violation raises 409, one that fails
    otherwise raises 400 with the failure's text; in both cases the handler
    has rolled back and no row is added. *)
Theorem create_Followed_commit_failure (p : FollowedCreate.t) (u : User.t) (env : Faults)
        (db : DB) (f : fault) :
  on_execute env = None -> on_commit env = Some f ->
  circle_found db (FollowedCreate.circle_id p) ->
  (forall r, In r (followed db) -> follow_pair r <> (User.id u, FollowedCreate.circle_id p)) ->
  create_Followed p u env (open_session db)
  = (Raised (match f with
             | FIntegrity _ _ => HTTPException 409 "integrity error"
             | FOther msg => HTTPException 400 ("cannot create Followed: " ++ msg)%string
             end),
     open_session db).
Proof.
  intros Hex Hcm (c & Hc & Hnz) Hno.
  unfold create_Followed. run_on env. simpl in Hex, Hcm. subst ex cm. simpl.
  rewrite Hc. simpl. apply Z.eqb_neq in Hnz. rewrite Hnz. simpl.
  rewrite filter_none.
  - destruct p as [pu pc pd pa]. destruct pd, f; reflexivity.
  - intros r Hr. apply andb_false_iff.
    destruct (Followed.user_id r =? User.id u) eqn:Eu; [|now left].
    right. apply Z.eqb_neq. intros Ec. apply Z.eqb_eq in Eu.
    apply (Hno r Hr). unfold follow_pair. now rewrite Eu, Ec.
Qed.

(** X22 -- the membership lists.  With the query answered,
    [list_all_followed_circles] returns every Followed row and
    [list_my_followed_circles] exactly the rows of the acting user, each
    row as often as it is stored, by descending id; neither touches the
    session. *)
Theorem followed_lists (u : User.t) (env : Faults) (db : DB) :
  on_execute env = None ->
  (exists rows,
      list_all_followed_circles env (open_session db) = (Returned rows, open_session db)
      /\ Permutation rows (followed db)
      /\ StronglySorted (fun a b => Followed.id b <= Followed.id a) rows)
  /\ (exists rows,
         list_my_followed_circles u env (open_session db) = (Returned rows, open_session db)
         /\ Permutation rows
              (filter (fun f => Followed.user_id f =? User.id u) (followed db))
         /\ (forall f, In f rows <->
                       In f (followed db) /\ Followed.user_id f = User.id u)
         /\ StronglySorted (fun a b => Followed.id b <= Followed.id a) rows).
Proof.
  intros Hex.
  assert (Hsorted : forall l,
             StronglySorted (fun a b => Followed.id b <= Followed.id a)
                            (order_by followed_before l)).
  { intros l.
    pose proof (order_by_sorted followed_before followed_before_total
                                followed_before_trans l) as Hs.
    induction Hs as [|a l' Hs IH Ha]; constructor; auto.
    eapply Forall_impl; [|exact Ha]. intros b Hb. now apply Z.leb_le. }
  split.
  - eexists. split; [|split].
    + unfold list_all_followed_circles. run_on env. simpl in Hex. subst ex. reflexivity.
    + apply order_by_perm.
    + apply Hsorted.
  - eexists. split; [|split; [|split]].
    + unfold list_my_followed_circles. run_on env. simpl in Hex. subst ex. reflexivity.
    + apply order_by_perm.
    + intros f. rewrite order_by_In, filter_In, Z.eqb_eq. tauto.
    + apply Hsorted.
Qed.

(* ------------------------------------------------------------------ *)
(** *** Listing and re-reading news *)

(** The database's case-insensitive pattern match of [list_circle_news]. *)
Variable ilike : string -> string -> bool.

(** What [list_circle_news] asks of a row: the circle of the path, the
    keyword in title or content when a non-empty search is given, and the
    date within the bounds that are given. *)
Definition news_selected (circle_id : Z) (search : option string)
           (date_from date_to : option Z) (n : CircleNews.t) : bool :=
  (CircleNews.circle_id n =? circle_id)
  && (if truthy_str search then
        match search with
        | Some x => news_ilike ilike ("%" ++ str_strip x ++ "%")%string n
        | None => true
        end
      else true)
  && (match date_from with Some d => d <=? CircleNews.date n | None => true end)
  && (match date_to with Some d => CircleNews.date n <=? d | None => true end).

Lemma filter_filter {A} (f g : A -> bool) (l : list A) :
  filter g (filter f l) = filter (fun x => f x && g x) l.
Proof.
  induction l as [|x l IH]; simpl; [reflexivity|].
  destruct (f x); simpl; [destruct (g x); now rewrite IH|exact IH].
Qed.

Lemma filter_true {A} (l : list A) : filter (fun _ => true) l = l.
Proof. induction l; simpl; congruence. Qed.

Lemma list_circle_news_stmt_eq (c size : Z) (search : option string)
      (date_from date_to : option Z) (db : DB) :
  list_circle_news_stmt str_strip ilike c size search date_from date_to db
  = limit size (order_by news_before
                         (filter (news_selected c search date_from date_to)
                                 (circle_news db))).
Proof.
  unfold list_circle_news_stmt, news_selected. f_equal. f_equal.
  destruct (truthy_str search), search as [x|], date_from as [df|], date_to as [dt|];
    rewrite ?filter_filter; apply filter_ext; intros n;
    rewrite ?andb_true_r; repeat rewrite andb_assoc; reflexivity.
Qed.

(** X23 -- the news list of a circle.  With the queries answered and the
    circle found, [list_circle_news] returns, without touching the session,
    rows that are stored news of that circle matching the search and the
    date bounds, newest date first and on one day the larger id first, at
    most [size] of them; when no more than [size] rows match, every
    matching row is returned, as often as it is stored. *)
Theorem list_circle_news_spec (c size : Z) (search : option string)
        (date_from date_to : option Z) (env : Faults) (db : DB) :
  on_execute env = None -> circle_found db c -> 0 <= size ->
  exists rows,
    list_circle_news str_strip ilike c size search date_from date_to env (open_session db)
    = (Returned rows, open_session db)
    /\ (forall r, In r rows ->
                  In r (circle_news db)
                  /\ news_selected c search date_from date_to r = true)
    /\ StronglySorted (fun a b => news_before a b = true) rows
    /\ Z.of_nat (List.length rows) <= size
    /\ (Z.of_nat (List.length (filter (news_selected c search date_from date_to)
                                      (circle_news db))) <= size ->
        Permutation rows (filter (news_selected c search date_from date_to)
                                 (circle_news db))).
Proof.
  intros Hex Hc Hsize.
  exists (list_circle_news_stmt str_strip ilike c size search date_from date_to db).
  split.
  { unfold list_circle_news. unfold bind at 1.
    rewrite ensure_circle_exists_found by assumption.
    run_on env. simpl in Hex. subst ex. reflexivity. }
  rewrite list_circle_news_stmt_eq. unfold limit.
  split; [|split; [|split]].
  - intros r Hr. apply firstn_In in Hr. apply order_by_In in Hr.
    now apply filter_In in Hr.
  - apply firstn_sorted.
    apply order_by_sorted; [exact news_before_total|exact news_before_trans].
  - pose proof (firstn_le_length (Z.to_nat size)
                  (order_by news_before
                     (filter (news_selected c search date_from date_to) (circle_news db)))).
    lia.
  - intros Hfew. rewrite firstn_all2; [apply order_by_perm|].
    rewrite (Permutation_length (order_by_perm news_before _)). lia.
Qed.

Lemma update_circle_news_circle_found (c n : Z) (p : CircleNewsCreate.t) (env : Faults)
      (db : DB) (row' : CircleNews.t) (s' : Session) :
  update_circle_news c n p env (open_session db) = (Returned row', s') ->
  circle_found db c.
Proof.
  unfold update_circle_news, _ensure_circle_exists, circle_found. run_on env.
  destruct ex as [[? ?|?]|]; simpl; try discriminate.
  destruct (filter _ (circles db)) as [|x [|y l]] eqn:Ec; simpl; try discriminate.
  destruct (Circle.id x =? 0) eqn:Ez; simpl; try discriminate.
  intros _. exists x. split; [reflexivity|]. now apply Z.eqb_neq.
Qed.

Lemma select_replaced_news (c n : Z) (row row' : CircleNews.t) (l : list CircleNews.t) :
  NoDup (map CircleNews.id l) -> In row l ->
  CircleNews.id row = n -> CircleNews.id row' = n -> CircleNews.circle_id row' = c ->
  filter (fun r => (CircleNews.circle_id r =? c) && (CircleNews.id r =? n))
         (map (fun r => if CircleNews.id r =? n then row' else r) l)
  = [row'].
Proof.
  intros Hnd Hin Hid Hid' Hc'.
  assert (Hrow' : (CircleNews.circle_id row' =? c) && (CircleNews.id row' =? n) = true).
  { apply andb_true_iff. now rewrite !Z.eqb_eq. }
  induction l as [|a l IH]; [destruct Hin|].
  apply NoDup_cons_iff in Hnd. destruct Hnd as [Hnin Hnd']. simpl.
  destruct Hin as [Ha|Hin].
  - rewrite Ha, Hid, Z.eqb_refl. simpl. rewrite Hrow'. f_equal.
    apply filter_none. intros r Hr. apply in_map_iff in Hr.
    destruct Hr as (b & Hb & Hbin).
    assert (Hne : (CircleNews.id b =? n) = false).
    { apply Z.eqb_neq. intros E. apply Hnin. rewrite Ha, Hid, <- E. now apply in_map. }
    rewrite Hne in Hb. subst r. rewrite Hne. apply andb_false_r.
  - assert (Hne : (CircleNews.id a =? n) = false).
    { apply Z.eqb_neq. intros E. apply Hnin. rewrite E, <- Hid. now apply in_map. }
    rewrite Hne. simpl. rewrite Hne, andb_false_r. now apply IH.
Qed.

(** X24 -- an updated news item can be read back.  In every reachable
    state, when [update_circle_news] returns a row, [get_circle_news] with
    the same circle and news id then returns that row. *)
Theorem update_then_get_news (trace : list (Request * Faults)) (c n : Z)
        (p : CircleNewsCreate.t) (env env' : Faults) (row' : CircleNews.t) (s' : Session) :
  let db := the_run empty_db trace in
  update_circle_news c n p env (open_session db) = (Returned row', s') ->
  on_execute env' = None ->
  get_circle_news c n env' (open_session (committed s'))
  = (Returned row', open_session (committed s')).
Proof.
  intros db H Hex. destruct (reachable_sound trace) as (_ & _ & Hf). fold db in Hf.
  pose proof (update_circle_news_circle_found _ _ _ _ _ _ _ H) as Hc.
  apply update_circle_news_returned in H. destruct H as (row & Hsel & Hrow & Hs).
  assert (Hin : In row (select_circle_news c n db)) by (rewrite Hsel; now left).
  apply select_circle_news_In in Hin. destruct Hin as (Hin & Hrc & Hrn).
  assert (Hid : CircleNews.id row' = n) by (rewrite Hrow; exact Hrn).
  assert (Hci : CircleNews.circle_id row' = c) by (rewrite Hrow; exact Hrc).
  apply get_circle_news_found; [exact Hex| |].
  - apply (circle_found_same_circles _ db); [now rewrite Hs|exact Hc].
  - rewrite Hs. unfold select_circle_news, replace_circle_news. simpl. rewrite Hid.
    apply (select_replaced_news c n row row'); auto.
    apply (news_keys_nodup db Hf).
Qed.

Lemma find_replaced_user (i : Z) (u u' : User.t) (l : list User.t) :
  find (fun r => User.id r =? i) l = Some u -> User.id u' = User.id u ->
  find (fun r => User.id r =? i)
       (map (fun r => if User.id r =? User.id u' then u' else r) l)
  = Some u'.
Proof.
  intros Hf Hid.
  assert (Hi : User.id u = i).
  { apply find_some in Hf. destruct Hf as [_ E]. now apply Z.eqb_eq in E. }
  assert (E : User.id u' = i) by congruence. rewrite E. clear Hid Hi.
  induction l as [|a l IH]; simpl in *; [discriminate|].
  destruct (User.id a =? i) eqn:Ea.
  - now rewrite E, Z.eqb_refl.
  - rewrite Ea. now apply IH.
Qed.

(** X25 -- an updated user can be read back.  When [update_user] returns a
    row, [get_user] with the same id then returns that row. *)
Theorem update_then_get_user (i : Z) (p : UserUpdate.t) (env env' : Faults) (db : DB)
        (u' : User.t) (s' : Session) :
  update_user hash_pw i p env (open_session db) = (Returned u', s') ->
  on_execute env' = None ->
  get_user i env' (open_session (committed s')) = (Returned u', open_session (committed s')).
Proof.
  intros H Hex.
  assert (Hcases : exists u,
             find (fun r => User.id r =? i) (users db) = Some u
             /\ User.id u' = User.id u
             /\ ((u' = u /\ committed s' = db) \/ committed s' = replace_user u' db)).
  { revert H. unfold update_user. run_on env.
    destruct ex as [[? ?|?]|]; simpl; try discriminate.
    destruct (find _ _) as [u|] eqn:Ef; simpl; try discriminate.
    intros H. exists u. split; [reflexivity|]. revert H.
    destruct (UserUpdate.model_dump_exclude_unset p) eqn:Ed; simpl.
    - intros H. inversion H; subst. auto.
    - repeat split_fault; try discriminate.
      intros H. inversion H; subst. simpl. rewrite setattr_all_user_id. auto. }
  destruct Hcases as (u & Hf & Hid & Hst).
  unfold get_user. run_on env'. simpl in Hex. subst ex. simpl.
  destruct Hst as [[Hu Hs]|Hs]; rewrite Hs.
  - rewrite Hu. now rewrite Hf.
  - simpl. now rewrite (find_replaced_user i u u' (users db) Hf Hid).
Qed.

(** X26 -- the memo of a fan-out schedule.  Every schedule row a news
    create adds carries the news content as memo, and null when the news
    has no content or an empty one. *)
Theorem fan_out_memo (env : Faults) (db : DB) (cid : Z) (p : CircleNewsCreate.t)
        (news : CircleNews.t) (s' : Session) :
  create_news cid p env (open_session db) = (Returned news, s') ->
  exists added,
    user_schedules (committed s') = user_schedules db ++ added
    /\ Forall (fun x =>
                 UserSchedule.memo x
                 = match CircleNewsCreate.content p with
                   | Some text => if String.eqb text "" then None else Some text
                   | None => None
                   end) added.
Proof.
  intros H. apply create_news_run in H. destruct H as (_ & Hn & Hs).
  rewrite Hs, insert_all_user_schedules_spec. simpl.
  eexists. split; [reflexivity|].
  apply assign_ids_Forall; [intros i x Hx; exact Hx|].
  apply Forall_map, Forall_map, Forall_forall. intros f _. simpl.
  rewrite Hn. simpl. unfold or_none, truthy_str.
  destruct (CircleNewsCreate.content p) as [text|]; [|reflexivity].
  destruct (String.eqb text ""); reflexivity.
Qed.

End Coverage.

(* ================================================================== *)
(** ** Concrete runs of the remaining handlers *)

(** A pattern match that accepts a value exactly when it is the pattern
    without its outer wildcards. *)
Definition ilike0 (value pattern : string) : bool :=
  String.eqb ("%" ++ value ++ "%")%string pattern.

Definition alice_payload : UserCreate.t :=
  UserCreate.mk "alice" "alice@example.org" None "alice01" "secret1".

Definition demo_user : User.t :=
  User.mk 1 (Some "alice") (Some "alice@example.org") None (Some "alice01")
          (Some "$hash$secret1").

Definition opening_payload : CircleNewsCreate.t :=
  CircleNewsCreate.mk 1 "opening" 20250 (Some "") false None.

(** A user signs up, a club is founded, the user follows it and the club
    posts a news item. *)
Definition demo_trace : list (Request * Faults) :=
  [(CreateUser alice_payload, no_faults);
   (CreateCircle chess_payload, no_faults);
   (CreateFollowed (FollowedCreate.mk 0 1 None false) demo_user, no_faults);
   (CreateNews 1 opening_payload, no_faults)].

Definition demo_db : DB := run0 empty_db demo_trace.

Lemma news_db_circle4_found : circle_found news_db 4.
Proof. exists club4. split; [reflexivity|discriminate]. Qed.

Lemma handlers_write_own_tables_witness :
  circle_news (snd (step0 news_db (DeleteCircle 3) no_faults)) = circle_news news_db
  /\ followed (snd (step0 news_db (DeleteUser 7) no_faults)) = followed news_db.
Proof.
  split.
  - apply (handlers_write_own_tables hash_pw0 strip0 lower0 run_select0
             news_db (DeleteCircle 3) no_faults T_circle_news).
    simpl. intros [H|[]]. discriminate H.
  - apply (handlers_write_own_tables hash_pw0 strip0 lower0 run_select0
             news_db (DeleteUser 7) no_faults T_followed).
    simpl. intros [H|[]]. discriminate H.
Defined.

Lemma schedules_append_only_witness :
  user_schedules (snd (step0 news_db (DeleteNews 3 1) no_faults))
  = user_schedules news_db ++ [].
Proof.
  destruct (schedules_append_only hash_pw0 strip0 lower0 run_select0
              news_db (DeleteNews 3 1) no_faults) as (added & Happ & Hnone).
  rewrite <- (Hnone ltac:(intros c p H; discriminate H)). exact Happ.
Defined.

Lemma ensure_circle_exists_spec_witness :
  _ensure_circle_exists 1 no_faults (open_session demo_db)
  = (Returned tt, open_session demo_db)
  /\ _ensure_circle_exists 9 no_faults (open_session demo_db)
     = (Raised (HTTPException 404 "circle not found"), open_session demo_db).
Proof.
  split.
  - apply (ensure_circle_exists_spec hash_pw0 strip0 lower0 run_select0
             demo_trace 1 no_faults eq_refl).
    eexists. split; [now left|reflexivity].
  - apply (ensure_circle_exists_spec hash_pw0 strip0 lower0 run_select0
             demo_trace 9 no_faults eq_refl).
    intros c [<-|[]]. simpl. lia.
Defined.

Lemma get_circle_news_scoped_witness :
  get_circle_news 4 1 no_faults (open_session news_db)
  = (Raised (HTTPException 404 "circle_news not found"), open_session news_db)
  /\ In news1 (circle_news news_db).
Proof.
  destruct (get_circle_news_scoped 4 1 no_faults news_db) as [_ H404].
  destruct (get_circle_news_scoped 3 1 no_faults news_db) as [Hret _].
  split.
  - apply (H404 eq_refl news_db_circle4_found).
    intros row [<-|[]] _. simpl. lia.
  - exact (proj1 (proj2 (Hret news1 (open_session news_db) eq_refl))).
Defined.

Definition second_payload : CircleNewsCreate.t :=
  CircleNewsCreate.mk 1 "simul" 20260 (Some "bring a clock") true None.

Lemma create_then_get_news_witness :
  let s' := snd (create_news 1 second_payload no_faults (open_session demo_db)) in
  get_circle_news 1 2 no_faults (open_session (committed s'))
  = (Returned (news_of_payload 2 second_payload), open_session (committed s')).
Proof.
  intros s'.
  apply (create_then_get_news hash_pw0 strip0 lower0 run_select0 demo_trace
           second_payload no_faults no_faults (news_of_payload 2 second_payload) s').
  - eexists. split; [now left|reflexivity].
  - vm_compute. reflexivity.
  - reflexivity.
Defined.

Definition stray_payload : CircleNewsCreate.t :=
  CircleNewsCreate.mk 9 "lost" 20250 None false None.

Lemma create_news_for_missing_circle_witness :
  exists news s',
    create_news 9 stray_payload no_faults (open_session news_db) = (Returned news, s')
    /\ In news (circle_news (committed s'))
    /\ get_circle_news 9 (CircleNews.id news) no_faults (open_session (committed s'))
       = (Raised (HTTPException 404 "circle not found"), open_session (committed s'))
    /\ update_circle_news 9 (CircleNews.id news) stray_payload no_faults
                          (open_session (committed s'))
       = (Raised (HTTPException 404 "circle not found"), open_session (committed s'))
    /\ delete_circle_news 9 (CircleNews.id news) no_faults (open_session (committed s'))
       = (Raised (HTTPException 404 "circle not found"), open_session (committed s')).
Proof.
  apply (create_news_for_missing_circle news_db stray_payload no_faults).
  - intros c [<-|[<-|[]]]; simpl; lia.
  - reflexivity.
Defined.

Lemma delete_then_get_news_witness :
  let s' := snd (delete_circle_news 3 1 no_faults (open_session news_db)) in
  get_circle_news 3 1 no_faults (open_session (committed s'))
  = (Raised (HTTPException 404 "circle_news not found"), open_session (committed s')).
Proof.
  intros s'.
  exact (proj2 (delete_then_get_news 3 1 no_faults no_faults news_db s' eq_refl) eq_refl).
Defined.

Lemma delete_then_get_user_witness :
  let s' := snd (delete_user 7 no_faults (open_session news_db)) in
  get_user 7 no_faults (open_session (committed s'))
  = (Raised (HTTPException 404 "Cannot find the user"), open_session (committed s')).
Proof.
  intros s'.
  exact (proj2 (delete_then_get_user 7 no_faults no_faults news_db s' eq_refl) eq_refl).
Defined.

Lemma delete_Followed_exact_witness :
  let s' := snd (delete_Followed 1 demo_user no_faults (open_session demo_db)) in
  let membership := Followed.mk 1 1 1 None false in
  In membership (followed demo_db)
  /\ (In membership (followed (committed s')) <->
      In membership (followed demo_db) /\ follow_pair membership <> (1, 1)).
Proof.
  intros s' membership. split; [now left|].
  apply (delete_Followed_exact hash_pw0 strip0 lower0 run_select0 demo_trace 1 demo_user
                               no_faults s').
  vm_compute. reflexivity.
Defined.

Lemma delete_missing_is_404_witness :
  delete_user 70 no_faults (open_session news_db)
  = (Raised (HTTPException 404 "Cannot find the user"), open_session news_db)
  /\ delete_circle 30 no_faults (open_session news_db)
     = (Raised (HTTPException 404 "circle not found"), open_session news_db)
  /\ delete_circle_news 30 1 no_faults (open_session news_db)
     = (Raised (HTTPException 404 "circle not found"), open_session news_db)
  /\ delete_circle_news 4 1 no_faults (open_session news_db)
     = (Raised (HTTPException 404 "circle_news not found"), open_session news_db)
  /\ delete_Followed 4 user7 no_faults (open_session news_db)
     = (Raised (HTTPException 404 "Followed relationship not found"), open_session news_db).
Proof.
  destruct (delete_missing_is_404 no_faults news_db eq_refl) as (Hu & Hc & Hn1 & Hn2 & Hf).
  split; [|split; [|split; [|split]]].
  - apply Hu. intros u [<-|[<-|[]]]; simpl; lia.
  - apply Hc. intros c [<-|[<-|[]]]; simpl; lia.
  - apply Hn1. intros c [<-|[<-|[]]]; simpl; lia.
  - apply Hn2; [exact news_db_circle4_found|].
    intros r [<-|[]] _. simpl. lia.
  - apply Hf. intros f [<-|[<-|[<-|[]]]]; discriminate.
Defined.

Lemma delete_circle_then_404_witness :
  let s' := snd (delete_circle 4 no_faults (open_session news_db)) in
  create_Followed (FollowedCreate.mk 0 4 None false) user7 no_faults
                  (open_session (committed s'))
  = (Raised (HTTPException 404 "circle not found"), open_session (committed s'))
  /\ get_circle_news 4 1 no_faults (open_session (committed s'))
     = (Raised (HTTPException 404 "circle not found"), open_session (committed s')).
Proof.
  intros s'.
  destruct (delete_circle_then_404 4 no_faults no_faults news_db s' eq_refl) as [_ H].
  destruct (H eq_refl) as [Hfollow Hget].
  split; [exact (Hfollow (FollowedCreate.mk 0 4 None false) user7 eq_refl)|exact (Hget 1)].
Defined.

Lemma delete_commit_failure_is_400_witness :
  delete_circle 3 commit_broken (open_session news_db)
  = (Raised (HTTPException 400 "cannot delete circle: connection lost"),
     open_session news_db)
  /\ delete_circle_news 3 1 commit_broken (open_session news_db)
     = (Raised (HTTPException 400 "cannot delete circle_news: connection lost"),
        open_session news_db).
Proof.
  destruct (delete_commit_failure_is_400 commit_broken news_db (FOther "connection lost")
              eq_refl eq_refl) as [Hc Hn].
  split.
  - exact (Hc 3 club3 eq_refl).
  - exact (Hn 3 1 news1 news_db_circle_found eq_refl).
Defined.

Definition bob_payload : UserCreate.t :=
  UserCreate.mk "bob" "bob@example.org" (Some "https://example.org/bob.png") "bobbob" "secret2".

Lemma create_user_stores_hashed_witness :
  let r := create_user hash_pw0 bob_payload no_faults (open_session demo_db) in
  let bob := User.mk 2 (Some "bob") (Some "bob@example.org")
                     (Some "https://example.org/bob.png") (Some "bobbob")
                     (Some "$hash$secret2") in
  fst r = Returned bob
  /\ User.login_pass bob = Some (hash_pw0 "secret2")
  /\ get_user 2 no_faults (open_session (committed (snd r)))
     = (Returned bob, open_session (committed (snd r))).
Proof.
  intros r bob.
  assert (Hrun : create_user hash_pw0 bob_payload no_faults (open_session demo_db)
                 = (Returned bob, snd r)) by (vm_compute; reflexivity).
  destruct (create_user_stores_hashed hash_pw0 strip0 lower0 run_select0 demo_trace
              bob_payload no_faults no_faults bob (snd r) Hrun)
    as (Hpass & _ & _ & _ & _ & _ & _ & Hget).
  split; [vm_compute; reflexivity|]. split; [exact Hpass|exact (Hget eq_refl)].
Defined.

Lemma create_user_conflict_witness :
  create_user hash_pw0 alice_payload commit_conflict (open_session demo_db)
  = (Raised (HTTPException 409 "email or login id is already exist."),
     open_session demo_db).
Proof.
  exact (create_user_conflict hash_pw0 alice_payload commit_conflict demo_db
           "(IntegrityError) duplicate key" "duplicate key" eq_refl).
Defined.

Definition empty_update : UserUpdate.t := UserUpdate.mk None None None None None.

Lemma update_user_nothing_set_witness :
  update_user hash_pw0 7 empty_update commit_broken (open_session news_db)
  = (Returned user7, open_session news_db).
Proof.
  apply (update_user_nothing_set hash_pw0 7 empty_update commit_broken news_db user7).
  - reflexivity.
  - reflexivity.
  - repeat split.
Defined.

Definition new_password : UserUpdate.t :=
  UserUpdate.mk None (Some (Some "alice@example.com")) None None (Some (Some "secret9")).

Lemma update_user_partial_witness :
  let r := update_user hash_pw0 7 new_password no_faults (open_session news_db) in
  exists u',
    fst r = Returned u'
    /\ User.name u' = Some "alice"
    /\ User.email u' = Some "alice@example.com"
    /\ User.login_pass u' = Some "$hash$secret9"
    /\ users (committed (snd r)) = [u'; user8].
Proof.
  intros r.
  set (u' := User.mk 7 (Some "alice") (Some "alice@example.com") None (Some "alice01")
                     (Some "$hash$secret9")).
  assert (Hrun : update_user hash_pw0 7 new_password no_faults (open_session news_db)
                 = (Returned u', snd r)) by (vm_compute; reflexivity).
  destruct (update_user_partial hash_pw0 7 new_password no_faults news_db u' (snd r) Hrun)
    as (u & Hf & _ & Hn & He & _ & _ & Hp & _ & Hstore).
  vm_compute in Hf. injection Hf as Hu. subst u.
  assert (Hset : ~ nothing_set new_password).
  { intros (_ & Hemail & _). discriminate Hemail. }
  exists u'. split; [vm_compute; reflexivity|].
  split; [exact Hn|]. split; [exact He|]. split; [exact Hp|].
  rewrite (proj2 (Hstore Hset)). reflexivity.
Defined.

Definition padded_payload : CircleCreate.t :=
  CircleCreate.mk "  shogi " (Some "board games") None ["games"] None None None.

(** A strip that removes the blanks around [padded_payload]'s name and
    leaves other strings alone. *)
Definition strip1 (s : string) : string :=
  if String.eqb s "  shogi " then "shogi" else s.

Lemma create_circle_stores_stripped_witness :
  let r := create_circle strip1 padded_payload no_faults
                         (open_session (run_requests hash_pw0 strip1 lower0 run_select0
                                                     empty_db demo_trace)) in
  exists c,
    fst r = Returned c
    /\ Circle.name c = Some "shogi"
    /\ _ensure_circle_exists (Circle.id c) no_faults (open_session (committed (snd r)))
       = (Returned tt, open_session (committed (snd r))).
Proof.
  intros r.
  set (c := Circle.mk 2 (Some "shogi") (Some "board games") None (Some ["games"])
                      None None None).
  assert (Hrun : create_circle strip1 padded_payload no_faults
                   (open_session (run_requests hash_pw0 strip1 lower0 run_select0
                                               empty_db demo_trace))
                 = (Returned c, snd r)) by (vm_compute; reflexivity).
  destruct (create_circle_stores_stripped hash_pw0 strip1 lower0 run_select0 demo_trace
              padded_payload no_faults no_faults c (snd r) Hrun) as (_ & _ & Hfound).
  exists c. split; [vm_compute; reflexivity|]. split; [reflexivity|exact (Hfound eq_refl)].
Defined.

Lemma create_circle_commit_failure_witness :
  create_circle strip0 chess_payload commit_conflict (open_session news_db)
  = (Raised (HTTPException 409 "circle name already exists"), open_session news_db)
  /\ create_circle strip0 chess_payload commit_broken (open_session news_db)
     = (Raised (HTTPException 400 "cannot create circle: connection lost"),
        open_session news_db).
Proof.
  split.
  - exact (create_circle_commit_failure strip0 chess_payload commit_conflict news_db
             (FIntegrity "(IntegrityError) duplicate key" "duplicate key") eq_refl).
  - exact (create_circle_commit_failure strip0 chess_payload commit_broken news_db
             (FOther "connection lost") eq_refl).
Defined.

Definition retag_circle : CircleUpdate.t :=
  CircleUpdate.mk None (Some None) None (Some (Some ["board"; "games"])) None None None.

Lemma update_circle_partial_witness :
  let r := update_circle 3 retag_circle no_faults (open_session news_db) in
  exists c',
    fst r = Returned c'
    /\ Circle.name c' = Some "chess"
    /\ Circle.description c' = None
    /\ Circle.tags c' = Some ["board"; "games"].
Proof.
  intros r.
  set (c' := Circle.mk 3 (Some "chess") None None (Some ["board"; "games"]) None None None).
  assert (Hrun : update_circle 3 retag_circle no_faults (open_session news_db)
                 = (Returned c', snd r)) by (vm_compute; reflexivity).
  destruct (update_circle_partial 3 retag_circle no_faults news_db c' (snd r) Hrun)
    as (c & Hf & _ & Hn & Hd & _ & Ht & _).
  vm_compute in Hf. injection Hf as Hc. subst c.
  exists c'. split; [vm_compute; reflexivity|].
  split; [exact Hn|]. split; [exact Hd|exact Ht].
Defined.

Lemma create_Followed_row_witness :
  let r := create_Followed (FollowedCreate.mk 999 4 (Some 20250) true) user7 no_faults
                           (open_session news_db) in
  fst r = Returned (Followed.mk 4 7 4 (Some 20250) true)
  /\ followed (committed (snd r))
     = followed news_db ++ [Followed.mk 4 7 4 (Some 20250) true].
Proof.
  intros r.
  destruct (create_Followed_row (FollowedCreate.mk 999 4 (Some 20250) true) user7 no_faults
              news_db (Followed.mk 4 7 4 (Some 20250) true) (snd r) eq_refl)
    as [_ Hrows].
  split; [reflexivity|exact Hrows].
Defined.

Lemma create_Followed_commit_failure_witness :
  create_Followed (FollowedCreate.mk 7 4 None false) user7 commit_conflict
                  (open_session news_db)
  = (Raised (HTTPException 409 "integrity error"), open_session news_db).
Proof.
  apply (create_Followed_commit_failure (FollowedCreate.mk 7 4 None false) user7
           commit_conflict news_db
           (FIntegrity "(IntegrityError) duplicate key" "duplicate key")
           eq_refl eq_refl news_db_circle4_found).
  intros r [<-|[<-|[<-|[]]]]; discriminate.
Defined.

Lemma followed_lists_witness :
  list_all_followed_circles no_faults (open_session news_db)
  = (Returned [carol_follow; bob_follow; alice_follow], open_session news_db)
  /\ list_my_followed_circles user8 no_faults (open_session news_db)
     = (Returned [bob_follow], open_session news_db)
  /\ (forall f, In f [bob_follow] <-> In f (followed news_db) /\ Followed.user_id f = 8).
Proof.
  destruct (followed_lists user8 no_faults news_db eq_refl)
    as ((all & Hall & _) & (mine & Hmine & _ & Hin & _)).
  vm_compute in Hmine. injection Hmine as Emine. subst mine.
  split; [reflexivity|]. split; [reflexivity|exact Hin].
Defined.

(** [news_db] with a second, later item of circle 3 and an item of
    circle 4. *)
Definition three_news_db : DB :=
  mkDB [user7; user8] [club3; club4] [alice_follow; bob_follow; carol_follow]
       [news1;
        CircleNews.mk 2 3 "simul" 20260 None true None;
        CircleNews.mk 3 4 "go night" 20255 (Some "bring stones") false None]
       (user_schedules news_db)
       10 5 4 4 3.

Lemma three_news_db_circle_found : circle_found three_news_db 3.
Proof. exists club3. split; [reflexivity|discriminate]. Qed.

Lemma list_circle_news_spec_witness :
  list_circle_news strip0 ilike0 3 50 None (Some 20250) None no_faults
                   (open_session three_news_db)
  = (Returned [CircleNews.mk 2 3 "simul" 20260 None true None; news1],
     open_session three_news_db)
  /\ list_circle_news strip0 ilike0 3 1 (Some "meeting") None None no_faults
                      (open_session three_news_db)
     = (Returned [news1], open_session three_news_db).
Proof.
  destruct (list_circle_news_spec strip0 ilike0 3 50 None (Some 20250) None no_faults
              three_news_db eq_refl three_news_db_circle_found ltac:(lia))
    as (rows & Hrun & _).
  destruct (list_circle_news_spec strip0 ilike0 3 1 (Some "meeting") None None no_faults
              three_news_db eq_refl three_news_db_circle_found ltac:(lia))
    as (rows' & Hrun' & _).
  split; [rewrite Hrun|rewrite Hrun']; f_equal.
  - vm_compute in Hrun. injection Hrun as Hrows. now subst rows.
  - vm_compute in Hrun'. injection Hrun' as Hrows. now subst rows'.
Defined.

Lemma update_then_get_news_witness :
  let s' := snd (update_circle_news 1 1 opening_payload no_faults (open_session demo_db)) in
  get_circle_news 1 1 no_faults (open_session (committed s'))
  = (Returned (news_of_payload 1 opening_payload), open_session (committed s')).
Proof.
  intros s'.
  apply (update_then_get_news hash_pw0 strip0 lower0 run_select0 demo_trace 1 1
           opening_payload no_faults no_faults (news_of_payload 1 opening_payload) s').
  - vm_compute. reflexivity.
  - reflexivity.
Defined.

Lemma update_then_get_user_witness :
  let s' := snd (update_user hash_pw0 7 new_password no_faults (open_session news_db)) in
  get_user 7 no_faults (open_session (committed s'))
  = (Returned (User.mk 7 (Some "alice") (Some "alice@example.com") None (Some "alice01")
                       (Some "$hash$secret9")),
     open_session (committed s')).
Proof.
  intros s'.
  apply (update_then_get_user hash_pw0 7 new_password no_faults no_faults news_db _ s').
  - vm_compute. reflexivity.
  - reflexivity.
Defined.

Lemma fan_out_memo_witness :
  let s' := snd (create_news 1 opening_payload no_faults (open_session demo_db)) in
  exists added,
    user_schedules (committed s') = user_schedules demo_db ++ added
    /\ Forall (fun x => UserSchedule.memo x = None) added.
Proof.
  intros s'.
  apply (fan_out_memo no_faults demo_db 1 opening_payload
           (news_of_payload 2 opening_payload) s').
  vm_compute. reflexivity.
Defined.
